(** * cmlutils: the cdswctl installer, login and SSH-endpoint launcher

    A shallow embedding of [src/cmlutils/ssh.py] and [src/cmlutils/cdswctl.py].

    Python values are modelled as follows.
    - [str] is [string]; a character is one of the code points U+0000..U+00FF,
      and the character predicates below are Python's restricted to that range.
    - [int] is [Z].
    - A raised exception is [Raise e]; a normal return is [Ok v].
    - The interpreter state a function can touch (the file tree, the child
      processes with their pipes, the logging output and the trace of
      operating-system calls) is one record [world], threaded by the monad [M].
    - [os.path] and [pathlib] are the POSIX flavour. *)

From Stdlib Require Import String Ascii List ZArith NArith Bool Lia DecimalString.
Import ListNotations.
Set Warnings "-register-all".
Open Scope list_scope.
Open Scope string_scope.

(* ===================================================================== *)
(** * Python built-ins used by the two files *)
(* ===================================================================== *)

Module Py.

Definition LF : ascii := "010"%char.
Definition SP : ascii := " "%char.
Definition SLASH : ascii := "/"%char.

Definition ord (c : ascii) : N := N_of_ascii c.

Definition between (lo hi : N) (c : ascii) : bool :=
  (lo <=? ord c)%N && (ord c <=? hi)%N.

(** [str.isspace] on one character: TAB..CR, FS..US, SPACE, NEL, NBSP. *)
Definition isspace (c : ascii) : bool :=
  between 9 13 c || between 28 32 c || (ord c =? 133)%N || (ord c =? 160)%N.

(** The ASCII decimal digits, the only ones [int] converts in this range. *)
Definition isdecimal_char (c : ascii) : bool := between 48 57 c.

(** [str.isdigit] on one character: the decimal digits and the superscript
    digits U+00B2, U+00B3, U+00B9. *)
Definition isdigit_char (c : ascii) : bool :=
  isdecimal_char c || (ord c =? 178)%N || (ord c =? 179)%N || (ord c =? 185)%N.

Fixpoint forall_chars (p : ascii -> bool) (s : string) : bool :=
  match s with
  | EmptyString => true
  | String c s' => p c && forall_chars p s'
  end.

Definition nonempty (s : string) : bool :=
  match s with EmptyString => false | String _ _ => true end.

(** [s.isdigit()]: at least one character and all of them digits. *)
Definition isdigit (s : string) : bool := nonempty s && forall_chars isdigit_char s.

(** [s.isdecimal()], for comparison. *)
Definition isdecimal (s : string) : bool := nonempty s && forall_chars isdecimal_char s.

Fixpoint lstrip (s : string) : string :=
  match s with
  | EmptyString => EmptyString
  | String c s' => if isspace c then lstrip s' else s
  end.

Fixpoint rstrip (s : string) : string :=
  match s with
  | EmptyString => EmptyString
  | String c s' =>
      match rstrip s' with
      | EmptyString => if isspace c then EmptyString else String c EmptyString
      | r => String c r
      end
  end.

(** [s.strip()]: whitespace removed at both ends. *)
Definition strip (s : string) : string := lstrip (rstrip s).

(** [s.split(sep)] for a one-character separator: every occurrence cuts,
    so adjacent separators give empty fields and [''.split(sep) == ['']]. *)
Fixpoint split (sep : ascii) (s : string) : list string :=
  match s with
  | EmptyString => [EmptyString]
  | String c s' =>
      if Ascii.eqb c sep then EmptyString :: split sep s'
      else match split sep s' with
           | [] => [String c EmptyString]
           | f :: fs => String c f :: fs
           end
  end.

(** [s.split()] without argument: fields are the maximal runs of
    non-whitespace characters. *)
Fixpoint split_ws (s : string) : list string :=
  match s with
  | EmptyString => []
  | String c s' =>
      if isspace c then split_ws s'
      else match s' with
           | EmptyString => [String c EmptyString]
           | String c' _ =>
               if isspace c' then String c EmptyString :: split_ws s'
               else match split_ws s' with
                    | [] => [String c EmptyString]
                    | f :: fs => String c f :: fs
                    end
           end
  end.

Definition digit_value (c : ascii) : Z := Z.of_N (ord c) - 48.

Fixpoint int_digits (acc : Z) (s : string) : Z :=
  match s with
  | EmptyString => acc
  | String c s' => int_digits (10 * acc + digit_value c) s'
  end.

(** [sys.get_int_max_str_digits()] at its default: the most digits the
    interpreter converts between [str] and [int]. *)
Definition int_max_str_digits : Z := 4300.

(** [int(s)] on the strings [isdigit] accepts, which is where the code calls
    it: the value of a run of decimal digits, and [None] (a [ValueError]) when a
    superscript digit occurs or when the run has more digits, leading zeros
    included, than the interpreter converts. *)
Definition int (s : string) : option Z :=
  if isdecimal s then
    if (Z.of_nat (String.length s) <=? int_max_str_digits)%Z
    then Some (int_digits 0 s)
    else None
  else None.

(** [str(n)] for an integer.  The interpreter refuses an integer of more than
    [int_max_str_digits] digits here too; the integers rendered in the two
    files (runtime ids, ports that [int] has read, exit statuses) are taken to
    be within it. *)
Definition str (n : Z) : string := NilZero.string_of_int (Z.to_int n).

(** [sep.join(l)]. *)
Definition join (sep : string) (l : list string) : string := String.concat sep l.

Definition lower_char (c : ascii) : ascii :=
  if between 65 90 c || (between 192 222 c && negb (ord c =? 215)%N)
  then ascii_of_N (ord c + 32) else c.

(** [s.lower()]. *)
Fixpoint lower (s : string) : string :=
  match s with
  | EmptyString => EmptyString
  | String c s' => String (lower_char c) (lower s')
  end.

Fixpoint startswith (p s : string) : bool :=
  match p, s with
  | EmptyString, _ => true
  | String a p', String b s' => Ascii.eqb a b && startswith p' s'
  | String _ _, EmptyString => false
  end.

(** [needle in hay] for strings. *)
Fixpoint contains (needle hay : string) : bool :=
  startswith needle hay ||
  match hay with
  | EmptyString => false
  | String _ hay' => contains needle hay'
  end.

Fixpoint endswith_char (c : ascii) (s : string) : bool :=
  match s with
  | EmptyString => false
  | String a EmptyString => Ascii.eqb a c
  | String _ s' => endswith_char c s'
  end.

(** [x in l] for a list of strings. *)
Definition mem (x : string) (l : list string) : bool :=
  existsb (String.eqb x) l.

(** [l.index(x)]: the position of the first element equal to [x]. *)
Fixpoint index (x : string) (l : list string) : option nat :=
  match l with
  | [] => None
  | y :: l' => if String.eqb y x then Some 0
               else option_map S (index x l')
  end.

(** [l[i] = v] on a copy of [l]; [None] is Python's [IndexError]. *)
Fixpoint setitem (l : list string) (i : nat) (v : string) : option (list string) :=
  match l, i with
  | [], _ => None
  | _ :: l', 0 => Some (v :: l')
  | y :: l', S i' => option_map (cons y) (setitem l' i' v)
  end.

(** [s[:n]]. *)
Definition prefix_slice (n : nat) (s : string) : string := String.substring 0 n s.

End Py.

(* ===================================================================== *)
(** * The interpreter state: exceptions, files, processes, logging *)
(* ===================================================================== *)

Module Runtime.

(** The exceptions the two files raise or let through. *)
Inductive exn : Type :=
| Exception (msg : string)        (* [raise Exception(msg)] *)
| RuntimeError (msg : string)     (* [raise RuntimeError(msg)] *)
| ValueError                      (* from [int] *)
| IndexError                      (* from [l[0]] on an empty list *)
| OSError (syscall : string)      (* from [os] and [open]; the failing call is named *)
| ReadError                       (* [tarfile.ReadError] *)
| TransportError.                 (* from the download collaborator *)

Inductive result (A : Type) : Type :=
| Ok (v : A)
| Raise (e : exn).
Arguments Ok {A} v.
Arguments Raise {A} e.

(** A file tree.  A regular file holds plain bytes or an archive; an archive
    is described by the tree of entries it unpacks to.  The order of a
    directory's entries is the order [os.listdir] reports. *)
Inductive node : Type :=
| File (data : content)
| Dir (entries : list (string * node))
with content : Type :=
| Bytes (b : string)
| TarArchive (members : list (string * node))   (* any tar, compressed or not *)
| ZipArchive (members : list (string * node)).

(** A child process as [subprocess.Popen(..., stdout=PIPE, stderr=PIPE,
    text=True)] sees it: the text still unread on each pipe. *)
Record process : Type := {
  args : list string;
  stdout : string;
  stderr : string
}.

(** [subprocess.CompletedProcess]. *)
Record CompletedProcess : Type := {
  cp_args : list string;
  returncode : Z;
  cp_stdout : string;
  cp_stderr : string
}.

Inductive level : Type := DEBUG | INFO | ERROR.

(** A piece of a formatted log message: literal text, or a list of strings
    interpolated with [{...}] (its [repr] is not spelled out). *)
Inductive fragment : Type :=
| Text (s : string)
| ListRepr (l : list string).

Record log_record : Type := {
  levelname : level;
  message : list fragment
}.

(** Calls that reach the operating system or a collaborator, in the order
    they are attempted. *)
Inductive call : Type :=
| CallMakedirs (path : string)
| CallDownload (url filepath ca_path : string)
| CallTarOpen (path : string)
| CallExtractAll (path : string)
| CallRemove (path : string)
| CallListdir (path : string)
| CallRename (src dst : string)
| CallRemovedirs (path : string)
| CallPopen (command : list string)
| CallRun (command : list string).

Record world : Type := {
  fs : node;                       (* the tree under "/" *)
  cwd : list string;               (* the current directory, as components *)
  procs : list process;            (* children started so far; a handle is an index *)
  records : list log_record;       (* what [logging] was given, oldest first *)
  calls : list call                (* oldest first *)
}.

(** What the code takes from outside itself. *)
Record environ : Type := {
  BASE_PATH_CDSWCTL : string;                       (* constants.BASE_PATH_CDSWCTL *)
  platform : string;                                (* sys.platform *)
  urljoin : string -> string -> string;             (* urllib.parse.urljoin *)
  uuid1_hex : string;                               (* uuid.uuid1().hex; any string here *)
  response : string -> string -> option content;    (* body served for (url, ca_path); None: transport failure *)
  Popen : list string -> result process;            (* subprocess.Popen(command, ...) *)
  run : list string -> result CompletedProcess      (* subprocess.run(command, ...) *)
}.

(** State and exceptions. *)
Definition M (A : Type) : Type := world -> result A * world.

Definition ret {A} (v : A) : M A := fun w => (Ok v, w).
Definition raise {A} (e : exn) : M A := fun w => (Raise e, w).
Definition bind {A B} (m : M A) (k : A -> M B) : M B :=
  fun w => match m w with
           | (Ok v, w') => k v w'
           | (Raise e, w') => (Raise e, w')
           end.

Definition set_fs (t : node) (w : world) : world :=
  {| fs := t; cwd := cwd w; procs := procs w; records := records w; calls := calls w |}.
Definition set_procs (ps : list process) (w : world) : world :=
  {| fs := fs w; cwd := cwd w; procs := ps; records := records w; calls := calls w |}.
Definition add_record (r : log_record) (w : world) : world :=
  {| fs := fs w; cwd := cwd w; procs := procs w; records := (records w ++ [r])%list; calls := calls w |}.
Definition add_call (c : call) (w : world) : world :=
  {| fs := fs w; cwd := cwd w; procs := procs w; records := records w; calls := (calls w ++ [c])%list |}.

Definition trace (c : call) : M unit := fun w => (Ok tt, add_call c w).

Definition log (l : level) (msg : list fragment) : M unit :=
  fun w => (Ok tt, add_record {| levelname := l; message := msg |} w).
Definition logging_info (s : string) : M unit := log INFO [Text s].
Definition logging_debug (s : string) : M unit := log DEBUG [Text s].
Definition logging_error (s : string) : M unit := log ERROR [Text s].

End Runtime.

Import Runtime.

Declare Scope py_scope.
Delimit Scope py_scope with py.
Notation "x <- m ;; k" := (bind m (fun x => k))
  (at level 61, m at next level, right associativity) : py_scope.
Notation "m ;; k" := (bind m (fun _ => k))
  (at level 61, right associativity) : py_scope.
Open Scope py_scope.

(* ===================================================================== *)
(** * subprocess: pipes of a child process *)
(* ===================================================================== *)

Module Subprocess.
Import Py.

(** One [readline()] on a text pipe: the text up to and including the first
    newline, or all that is left when there is none; [""] only at end of
    stream.  The second component is what stays unread. *)
Fixpoint readline (s : string) : string * string :=
  match s with
  | EmptyString => (EmptyString, EmptyString)
  | String c s' =>
      if Ascii.eqb c LF then (String c EmptyString, s')
      else let (l, r) := readline s' in (String c l, r)
  end.

(** [readlines()]: every remaining line; nothing stays unread. *)
Fixpoint readlines (s : string) : list string :=
  match s with
  | EmptyString => []
  | String c s' =>
      if Ascii.eqb c LF then String c EmptyString :: readlines s'
      else match readlines s' with
           | [] => [String c EmptyString]
           | l :: ls => String c l :: ls
           end
  end.

Fixpoint update_nth {A} (i : nat) (v : A) (l : list A) : list A :=
  match l, i with
  | [], _ => []
  | _ :: l', 0 => v :: l'
  | x :: l', S i' => x :: update_nth i' v l'
  end.

(** [subprocess.Popen(command, stdout=PIPE, stderr=PIPE, text=True)]: the new
    child is appended to the table and its index is the handle. *)
Definition subprocess_Popen (E : environ) (command : list string) : M nat :=
  trace (CallPopen command) ;;
  fun w => match Popen E command with
           | Ok p => (Ok (length (procs w)), set_procs (procs w ++ [p])%list w)
           | Raise e => (Raise e, w)
           end.

(** [h.stdout.readline()].  A handle always comes from [subprocess_Popen], so
    the lookup cannot fail; the text API never yields [None], which the
    option type of the result keeps expressible all the same. *)
Definition stdout_readline (h : nat) : M (option string) :=
  fun w => match nth_error (procs w) h with
           | Some p =>
               let (line, rest) := readline (stdout p) in
               (Ok (Some line),
                set_procs (update_nth h {| args := args p; stdout := rest; stderr := stderr p |}
                                      (procs w)) w)
           | None => (Ok (Some EmptyString), w)
           end.

(** [h.stderr.readlines()]. *)
Definition stderr_readlines (h : nat) : M (list string) :=
  fun w => match nth_error (procs w) h with
           | Some p =>
               (Ok (readlines (stderr p)),
                set_procs (update_nth h {| args := args p; stdout := stdout p; stderr := EmptyString |}
                                      (procs w)) w)
           | None => (Ok [], w)
           end.

(** [subprocess.run(cmd, capture_output=True, text=True)]. *)
Definition subprocess_run (E : environ) (cmd : list string) : M CompletedProcess :=
  trace (CallRun cmd) ;;
  fun w => (run E cmd, w).

End Subprocess.

(* ===================================================================== *)
(** * src/cmlutils/ssh.py *)
(* ===================================================================== *)

Module Ssh.
Import Py Subprocess.

(** [line == "" or line == None]. *)
Definition no_output (line : option string) : bool :=
  match line with
  | Some l => String.eqb l EmptyString
  | None => true
  end.

Definition line_text (line : option string) : string :=
  match line with Some l => l | None => EmptyString end.

(** [open_ssh_endpoint]: the result is the pair the function returns,
    [(None, -1)] or [(ssh_call, port_number)]. *)
Definition open_ssh_endpoint (E : environ)
    (cdswctl_path project_name : string) (runtime_id : Z) (project_slug : string)
    : M (option nat * Z) :=
  let command :=
    [cdswctl_path; "ssh-endpoint"; "-p"; project_slug; "-c"; "1.0"; "-m"; "0.5"] in
  let command :=
    if negb (runtime_id =? -1)%Z then (command ++ ["-r"; str runtime_id])%list else command in
  logging_info "Creating SSH connection" ;;
  logging_debug ("Opening SSH endpoint for project: " ++ project_slug) ;;
  logging_debug ("Project name: " ++ project_name) ;;
  logging_debug ("Using cdswctl path: " ++ cdswctl_path) ;;
  logging_debug ("Runtime ID: " ++
                 (if negb (runtime_id =? -1)%Z then str runtime_id else "default")) ;;
  logging_debug ("SSH command: " ++ join " " command) ;;
  ssh_call <- subprocess_Popen E command ;;
  logging_info "Waiting for SSH connection" ;;
  line <- stdout_readline ssh_call ;;
  if no_output line then
    error <- stderr_readlines ssh_call ;;
    logging_error "SSH endpoint failed to start - no output received" ;;
    log ERROR [Text "stderr output: "; ListRepr error] ;;
    ret (None, (-1)%Z)
  else
    let line := strip (line_text line) in
    let arr := split SP line in
    if (length arr <=? 3)%nat || negb (isdigit (nth 3 arr EmptyString)) then
      stderr_lines <- stderr_readlines ssh_call ;;
      logging_error ("SSH connection failed unexpectedly: " ++ line) ;;
      log ERROR [Text "stderr output: "; ListRepr stderr_lines] ;;
      log DEBUG [Text "Parsed output array: "; ListRepr arr] ;;
      logging_debug "Expected format: output line with port number at index 3 (e.g., 'word word word PORT')" ;;
      raise (Exception ("SSH connection failed unexpectedly: " ++ line))
    else
      logging_info "SSH connection successfull" ;;
      match int (nth 3 arr EmptyString) with
      | None => raise ValueError
      | Some port_number =>
          logging_debug ("SSH endpoint established on port: " ++ str port_number) ;;
          ret (Some ssh_call, port_number)
      end.

End Ssh.

(* ===================================================================== *)
(** * The file tree and the [os], [os.path], [pathlib], [tarfile] calls *)
(* ===================================================================== *)

Module Fs.
Import Py.

Definition entries_t : Type := list (string * node).

Fixpoint assoc (k : string) (es : entries_t) : option node :=
  match es with
  | [] => None
  | (k', v) :: es' => if String.eqb k' k then Some v else assoc k es'
  end.

(** Replace the entry named [k], or add it after the others. *)
Fixpoint put (k : string) (v : node) (es : entries_t) : entries_t :=
  match es with
  | [] => [(k, v)]
  | (k', v') :: es' => if String.eqb k' k then (k, v) :: es' else (k', v') :: put k v es'
  end.

Definition del (k : string) (es : entries_t) : entries_t :=
  filter (fun e => negb (String.eqb (fst e) k)) es.

(** The node at a path given by its components, from the root. *)
Fixpoint lookup (p : list string) (t : node) : option node :=
  match p with
  | [] => Some t
  | c :: p' =>
      match t with
      | Dir es => match assoc c es with
                  | Some ch => lookup p' ch
                  | None => None
                  end
      | File _ => None
      end
  end.

(** The tree with the node at [p] replaced by [new] (unchanged when there is
    no node at [p]). *)
Fixpoint graft (p : list string) (new : node) (t : node) : node :=
  match p with
  | [] => new
  | c :: p' =>
      match t with
      | Dir es => match assoc c es with
                  | Some ch => Dir (put c (graft p' new ch) es)
                  | None => t
                  end
      | File _ => t
      end
  end.

(** Apply [g] to the node at [p]; [None] when there is none or [g] refuses. *)
Definition modify (p : list string) (g : node -> option node) (t : node) : option node :=
  match lookup p t with
  | Some n => match g n with
              | Some n' => Some (graft p n' t)
              | None => None
              end
  | None => None
  end.

(** Apply [g] to the entries of the directory that holds [p] and to [p]'s
    own name; the root has no holder. *)
Definition in_parent (p : list string)
    (g : string -> entries_t -> option entries_t) (t : node) : option node :=
  match p with
  | [] => None
  | _ :: _ =>
      modify (removelast p)
             (fun n => match n with
                       | Dir es => option_map Dir (g (last p EmptyString) es)
                       | File _ => None
                       end) t
  end.

Definition exists_ (p : list string) (t : node) : bool :=
  match lookup p t with Some _ => true | None => false end.

(** Create every missing directory along [p]; a regular file in the way is
    an error. *)
Fixpoint mkdirs (p : list string) (t : node) : option node :=
  match t with
  | File _ => None
  | Dir es =>
      match p with
      | [] => Some t
      | c :: p' =>
          match mkdirs p' (match assoc c es with Some ch => ch | None => Dir [] end) with
          | Some ch' => Some (Dir (put c ch' es))
          | None => None
          end
      end
  end.

(** [open(p, "wb")] then write and close: creates or overwrites a file. *)
Definition write_file (p : list string) (data : content) : node -> option node :=
  in_parent p (fun name es =>
    match assoc name es with
    | Some (Dir _) => None
    | _ => Some (put name (File data) es)
    end).

(** [os.remove]: only a file can go. *)
Definition unlink (p : list string) : node -> option node :=
  in_parent p (fun name es =>
    match assoc name es with
    | Some (File _) => Some (del name es)
    | _ => None
    end).

(** [os.rmdir]: only an empty directory can go, and never the root. *)
Definition rmdir (p : list string) : node -> option node :=
  in_parent p (fun name es =>
    match assoc name es with
    | Some (Dir []) => Some (del name es)
    | _ => None
    end).

Definition listdir (p : list string) (t : node) : option (list string) :=
  match lookup p t with
  | Some (Dir es) => Some (map fst es)
  | _ => None
  end.

Fixpoint path_eqb (a b : list string) : bool :=
  match a, b with
  | [], [] => true
  | x :: a', y :: b' => String.eqb x y && path_eqb a' b'
  | _, _ => false
  end.

Fixpoint is_prefix (a b : list string) : bool :=
  match a, b with
  | [], _ => true
  | x :: a', y :: b' => String.eqb x y && is_prefix a' b'
  | _ :: _, [] => false
  end.

(** [os.rename] (rename(2)): a file may replace a file, a directory may
    replace an empty directory, nothing moves into itself. *)
Definition rename (s d : list string) (t : node) : option node :=
  match lookup s t with
  | None => None
  | Some n =>
      if path_eqb s d then Some t
      else if is_prefix s d then None
      else
        let allowed :=
          match n, lookup d t with
          | _, None => true
          | File _, Some (File _) => true
          | Dir _, Some (Dir []) => true
          | _, _ => false
          end in
        if allowed then
          match in_parent s (fun name es => Some (del name es)) t with
          | Some t1 => in_parent d (fun name es => Some (put name n es)) t1
          | None => None
          end
        else None
  end.

(** The loop of [os.removedirs] after the leaf is gone: remove the holder,
    then its holder, ... and stop at the first that cannot go. *)
Fixpoint prune (k : nat) (p : list string) (t : node) : node :=
  match k with
  | 0 => t
  | S k' => match rmdir p t with
            | Some t' => prune k' (removelast p) t'
            | None => t
            end
  end.

Definition removedirs (k : nat) (p : list string) (t : node) : option node :=
  match rmdir p t with
  | Some t1 => Some (prune k (removelast p) t1)
  | None => None
  end.

(** What unpacking [src] over the node [dst] (if any) leaves: a file
    overwrites a file, a directory merges into a directory, and a file
    never replaces a directory nor a directory a file. *)
Fixpoint unpack (src : node) (dst : option node) {struct src} : option node :=
  match src with
  | File d => match dst with
              | Some (Dir _) => None
              | _ => Some (File d)
              end
  | Dir es =>
      match dst with
      | Some (File _) => None
      | _ =>
          option_map Dir
            ((fix go (es : entries_t) (ds : entries_t) {struct es} : option entries_t :=
                match es with
                | [] => Some ds
                | (n, c) :: es' =>
                    match unpack c (assoc n ds) with
                    | Some c' => go es' (put n c' ds)
                    | None => None
                    end
                end) es (match dst with Some (Dir ds) => ds | _ => [] end))
      end
  end.

(** Unpack the members of an archive, in order, into a directory's entries. *)
Fixpoint unpack_entries (es ds : entries_t) : option entries_t :=
  match es with
  | [] => Some ds
  | (n, c) :: es' =>
      match unpack c (assoc n ds) with
      | Some c' => unpack_entries es' (put n c' ds)
      | None => None
      end
  end.

Definition extract (members : entries_t) (p : list string) : node -> option node :=
  modify p (fun n => match n with
                     | Dir ds => option_map Dir (unpack_entries members ds)
                     | File _ => None
                     end).

(** ** Path strings *)

(** The components of a path string; empty ones and ["."] do not count. *)
Definition components (s : string) : list string :=
  filter (fun c => negb (String.eqb c EmptyString) && negb (String.eqb c "."))
         (split SLASH s).

Definition isabs (s : string) : bool := startswith "/" s.

Definition step (st : list string) (c : string) : list string :=
  if String.eqb c ".." then removelast st else (st ++ [c])%list.

(** The place a path string names: relative paths start at the current
    directory.  There are no symbolic links, and [".."] is resolved on the
    component list. *)
Definition resolve (w : world) (s : string) : list string :=
  fold_left step (components s) (if isabs s then [] else cwd w).

(** [os.path.join(a, b)]. *)
Definition os_path_join (a b : string) : string :=
  if startswith "/" b then b
  else if negb (nonempty a) || endswith_char SLASH a then a ++ b
  else a ++ "/" ++ b.

(** [pathlib.PurePosixPath]: the root (["" ], ["/"] or ["//"]) and the parts
    after it. *)
Record PurePath : Type := { root : string; parts : list string }.

Definition Path (s : string) : PurePath :=
  {| root := if startswith "//" s && negb (startswith "///" s) then "//"
             else if startswith "/" s then "/" else "";
     parts := components s |}.

Definition PurePath_eqb (a b : PurePath) : bool :=
  String.eqb (root a) (root b) && path_eqb (parts a) (parts b).

(** [p.parents]: the path without its last part, then without its last two,
    ... down to the root (or ["."]). *)
Definition parents (p : PurePath) : list PurePath :=
  map (fun k => {| root := root p; parts := firstn k (parts p) |})
      (rev (seq 0 (length (parts p)))).

(** [a in l] for paths. *)
Definition path_in (a : PurePath) (l : list PurePath) : bool :=
  existsb (PurePath_eqb a) l.

(** ** The calls, in the monad *)

Definition fs_call (name : string) (f : node -> option node) : M unit :=
  fun w => match f (fs w) with
           | Some t => (Ok tt, set_fs t w)
           | None => (Raise (OSError name), w)
           end.

Definition os_path_exists (path : string) : M bool :=
  fun w => (Ok (exists_ (resolve w path) (fs w)), w).

(** [os.makedirs(path)]: an existing target is an error. *)
Definition os_makedirs (path : string) : M unit :=
  trace (CallMakedirs path) ;;
  fun w => if exists_ (resolve w path) (fs w) then (Raise (OSError "mkdir"), w)
           else fs_call "mkdir" (mkdirs (resolve w path)) w.

Definition os_remove (path : string) : M unit :=
  trace (CallRemove path) ;;
  fun w => fs_call "remove" (unlink (resolve w path)) w.

Definition os_listdir (path : string) : M (list string) :=
  trace (CallListdir path) ;;
  fun w => match listdir (resolve w path) (fs w) with
           | Some names => (Ok names, w)
           | None => (Raise (OSError "listdir"), w)
           end.

Definition os_rename (src dst : string) : M unit :=
  trace (CallRename src dst) ;;
  fun w => fs_call "rename" (rename (resolve w src) (resolve w dst)) w.

(** [os.removedirs(path)]: the leaf must go; of the directories written in
    [path] above it, as many go as are empty. *)
Definition os_removedirs (path : string) : M unit :=
  trace (CallRemovedirs path) ;;
  fun w => fs_call "rmdir"
             (removedirs (length (components path) - (if isabs path then 0 else 1))
                         (resolve w path)) w.

(** [tarfile.open(path)]: the members, when the file is a tar archive. *)
Definition tarfile_open (path : string) : M entries_t :=
  trace (CallTarOpen path) ;;
  fun w => match lookup (resolve w path) (fs w) with
           | Some (File (TarArchive ms)) => (Ok ms, w)
           | Some (File _) => (Raise ReadError, w)
           | _ => (Raise (OSError "open"), w)
           end.

(** [tf.extractall(path)].  A failed extraction is modelled as leaving the
    tree as it was. *)
Definition extractall (tf : entries_t) (path : string) : M unit :=
  trace (CallExtractAll path) ;;
  fun w => fs_call "extractall" (extract tf (resolve w path)) w.

(** [tf.close()]: nothing observable. *)
Definition tf_close (tf : entries_t) : M unit := ret tt.

(** [l[0]]. *)
Definition first {A} (l : list A) : M A :=
  match l with
  | x :: _ => ret x
  | [] => raise IndexError
  end.

End Fs.

(* ===================================================================== *)
(** * src/cmlutils/cdswctl.py *)
(* ===================================================================== *)

Module Cdswctl.
Import Py Subprocess Fs.

(** [_get_cdswctl_download_url]. *)
Definition _get_cdswctl_download_url (E : environ) (host : string) : string :=
  let base_url := urljoin E host "cli/" in
  if String.eqb (platform E) "linux" || String.eqb (platform E) "linux2" then
    urljoin E base_url "linux/amd64/cdsw.tar.gz"
  else if String.eqb (platform E) "darwin" then
    urljoin E base_url "darwin/amd64/cdsw.tar.gz"
  else
    urljoin E base_url "windows/amd64/cdsw.zip".

(** Modelled from the spec: [cmlutils.utils.download_file], which is not among
    the sources.  It writes the full response body to [filepath], or fails with
    a transport error; [ca_path] is handed to the transport as it is. *)
Definition download_file (E : environ) (url filepath ca_path : string) : M unit :=
  trace (CallDownload url filepath ca_path) ;;
  match response E url ca_path with
  | None => raise TransportError
  | Some body => fun w => fs_call "open" (write_file (resolve w filepath) body) w
  end.

(** [_cdswctl_tmp_dir_path]. *)
Definition _cdswctl_tmp_dir_path (E : environ) : M string :=
  let subdir := prefix_slice 10 (uuid1_hex E) in
  let dirpath := os_path_join (BASE_PATH_CDSWCTL E) subdir in
  present <- os_path_exists dirpath ;;
  (if negb present then os_makedirs dirpath else ret tt) ;;
  ret dirpath.

(** [_download_and_extract]. *)
Definition _download_and_extract (E : environ) (url ca_path : string) : M string :=
  let file_name := last (split SLASH url) EmptyString in
  dir_path <- _cdswctl_tmp_dir_path E ;;
  let file_path := os_path_join dir_path file_name in
  download_file E url file_path ca_path ;;
  (if path_in (Path (BASE_PATH_CDSWCTL E)) (parents (Path dir_path)) then
     tf <- tarfile_open file_path ;;
     extractall tf dir_path ;;
     tf_close tf
   else
     raise (RuntimeError "path for cdswctl could not be validated.")) ;;
  os_remove file_path ;;
  names <- os_listdir dir_path ;;
  cdswctldir <- first names ;;
  let old_file_path := os_path_join (os_path_join dir_path cdswctldir) "cdswctl" in
  let new_file_path := os_path_join dir_path "cdswctl" in
  os_rename old_file_path new_file_path ;;
  os_removedirs (os_path_join dir_path cdswctldir) ;;
  ret new_file_path.

(** [obtain_cdswctl]. *)
Definition obtain_cdswctl (E : environ) (host ca_path : string) : M string :=
  let file_url := _get_cdswctl_download_url E host in
  expected_cdswctl_path <- _download_and_extract E file_url ca_path ;;
  logging_info ("Expected cdsw path for cdswctl for file transfer " ++ expected_cdswctl_path) ;;
  ret expected_cdswctl_path.

(** The argument list [cdswctl_login] builds. *)
Definition login_cmd (cdswctl_path host username api_key ca_path : string) : list string :=
  let cmd := [cdswctl_path; "login"; "-n"; username; "-u"; host; "-y"; api_key] in
  if String.eqb (lower ca_path) "false" then (cmd ++ ["--insecure-skip-verify"])%list else cmd.

(** The copy of it that is logged: the first element equal to [api_key] is
    replaced by the placeholder. *)
Definition masked (cmd : list string) (api_key : string) : list string :=
  let masked_cmd := cmd in
  let api_key_index : Z :=
    if mem api_key masked_cmd
    then match index api_key masked_cmd with Some i => Z.of_nat i | None => (-1)%Z end
    else (-1)%Z in
  if negb (api_key_index =? -1)%Z then
    match setitem masked_cmd (Z.to_nat api_key_index) "<api_key>" with
    | Some l => l
    | None => masked_cmd
    end
  else masked_cmd.

(** The text of the debug record that shows the command. *)
Definition rendered_command (cdswctl_path host username api_key ca_path : string) : string :=
  "cdswctl login command: " ++
  join " " (masked (login_cmd cdswctl_path host username api_key ca_path) api_key).

(** [cdswctl_login]. *)
Definition cdswctl_login (E : environ)
    (cdswctl_path host username api_key ca_path : string) : M CompletedProcess :=
  logging_info "Logging into cdsw via cdswctl" ;;
  let cmd := login_cmd cdswctl_path host username api_key ca_path in
  (if String.eqb (lower ca_path) "false"
   then logging_debug "Added --insecure-skip-verify flag to cdswctl login command"
   else ret tt) ;;
  logging_debug (rendered_command cdswctl_path host username api_key ca_path) ;;
  result <- subprocess_run E cmd ;;
  if negb (returncode result =? 0)%Z then
    logging_error ("cdswctl login failed: " ++ cp_stderr result) ;;
    raise (Exception ("cdswctl login failed with return code " ++ str (returncode result)))
  else
    logging_info "Login succeeded" ;;
    logging_debug ("cdswctl login output: " ++ cp_stdout result) ;;
    ret result.

End Cdswctl.

(* ===================================================================== *)
(** * Statement vocabulary *)
(* ===================================================================== *)

Module Obs.
Import Py Subprocess Fs Ssh Cdswctl.

(** The command line [open_ssh_endpoint] starts. *)
Definition ssh_command (cdswctl_path : string) (runtime_id : Z) (project_slug : string)
    : list string :=
  ([cdswctl_path; "ssh-endpoint"; "-p"; project_slug; "-c"; "1.0"; "-m"; "0.5"] ++
   (if negb (runtime_id =? -1)%Z then ["-r"; str runtime_id] else []))%list.

(** The first line the child [p] writes, as [readline] returns it. *)
Definition banner (p : process) : string := fst (readline (stdout p)).

(** The fields [open_ssh_endpoint] parses out of a line. *)
Definition fields (line : string) : list string := split SP (strip line).

(** The child [p] once its banner has been read and nothing else. *)
Definition after_banner (p : process) : process :=
  {| args := args p; stdout := snd (readline (stdout p)); stderr := stderr p |}.

(** The child [p] once its banner has been read and its standard error
    drained. *)
Definition drained (p : process) : process :=
  {| args := args p; stdout := snd (readline (stdout p)); stderr := EmptyString |}.

(** The last record given to [logging]. *)
Definition last_record (w : world) : option log_record :=
  match rev (records w) with
  | r :: _ => Some r
  | [] => None
  end.

Definition logged (l : level) (msg : list fragment) (w : world) : Prop :=
  In {| levelname := l; message := msg |} (records w).

(** The ways a call of [open_ssh_endpoint] can end, with what each leaves
    behind: the result or exception, the child's pipes, the log. *)
Inductive ssh_outcome (E : environ) (cmd : list string) (w : world)
    : result (option nat * Z) -> world -> Prop :=
| SpawnFailed (e : exn) (w' : world) :
    Popen E cmd = Raise e ->
    procs w' = procs w ->
    ssh_outcome E cmd w (Raise e) w'
| StartupFailure (p : process) (w' : world) :
    Popen E cmd = Ok p ->
    banner p = EmptyString ->
    procs w' = (procs w ++ [drained p])%list ->
    last_record w' =
      Some {| levelname := ERROR;
              message := [Text "stderr output: "; ListRepr (readlines (stderr p))] |} ->
    ssh_outcome E cmd w (Ok (None, (-1)%Z)) w'
| ProtocolViolation (p : process) (w' : world) :
    Popen E cmd = Ok p ->
    banner p <> EmptyString ->
    (length (fields (banner p)) <= 3)%nat \/
      isdigit (nth 3 (fields (banner p)) EmptyString) = false ->
    procs w' = (procs w ++ [drained p])%list ->
    logged ERROR [Text "stderr output: "; ListRepr (readlines (stderr p))] w' ->
    ssh_outcome E cmd w
      (Raise (Exception ("SSH connection failed unexpectedly: " ++ strip (banner p)))) w'
| NotAnInteger (p : process) (field : string) (w' : world) :
    Popen E cmd = Ok p ->
    banner p <> EmptyString ->
    nth_error (fields (banner p)) 3 = Some field ->
    isdigit field = true ->
    int field = None ->
    procs w' = (procs w ++ [after_banner p])%list ->
    ssh_outcome E cmd w (Raise ValueError) w'
| Ready (p : process) (field : string) (port : Z) (w' : world) :
    Popen E cmd = Ok p ->
    banner p <> EmptyString ->
    nth_error (fields (banner p)) 3 = Some field ->
    isdigit field = true ->
    int field = Some port ->
    procs w' = (procs w ++ [after_banner p])%list ->
    ssh_outcome E cmd w (Ok (Some (length (procs w)), port)) w'.

(** The specification's wording of a well-formed banner, read two ways: trailing
    whitespace stripped, then fields separated by runs of whitespace, or by
    single spaces; the 4th field a decimal integer. *)
Definition spec_banner_runs (line field : string) : Prop :=
  nth_error (split_ws (rstrip line)) 3 = Some field /\ isdecimal field = true.

Definition spec_banner_spaces (line field : string) : Prop :=
  nth_error (split SP (rstrip line)) 3 = Some field /\ isdecimal field = true.

(** The data model's bound on a port. *)
Definition valid_port (n : Z) : Prop := (1 <= n <= 65535)%Z.

(** The workspace directory [_cdswctl_tmp_dir_path] computes. *)
Definition workspace_path (E : environ) : string :=
  os_path_join (BASE_PATH_CDSWCTL E) (prefix_slice 10 (uuid1_hex E)).

(** The archive's file name and path in [_download_and_extract]. *)
Definition archive_name (url : string) : string := last (split SLASH url) EmptyString.

Definition archive_path (E : environ) (url : string) : string :=
  os_path_join (workspace_path E) (archive_name url).

(** The test that guards extraction. *)
Definition validated (E : environ) : bool :=
  path_in (Path (BASE_PATH_CDSWCTL E)) (parents (Path (workspace_path E))).

(** [_download_and_extract] up to the download (source lines 27-30). *)
Definition fetch_stage (E : environ) (url ca_path : string) : M string :=
  dir_path <- _cdswctl_tmp_dir_path E ;;
  download_file E url (os_path_join dir_path (archive_name url)) ca_path ;;
  ret dir_path.

(** The guarded extraction, when the guard lets it run (source lines 32-34). *)
Definition extract_stage (E : environ) (url : string) : M unit :=
  tf <- tarfile_open (archive_path E url) ;;
  extractall tf (workspace_path E) ;;
  tf_close tf.

(** [_download_and_extract] after the extraction (source lines 37-43). *)
Definition install_stage (dir_path file_path : string) : M string :=
  os_remove file_path ;;
  names <- os_listdir dir_path ;;
  cdswctldir <- first names ;;
  let old_file_path := os_path_join (os_path_join dir_path cdswctldir) "cdswctl" in
  let new_file_path := os_path_join dir_path "cdswctl" in
  os_rename old_file_path new_file_path ;;
  os_removedirs (os_path_join dir_path cdswctldir) ;;
  ret new_file_path.

(** The calls made between two worlds. *)
Definition made (w w' : world) : list call := skipn (length (calls w)) (calls w').

Definition is_extraction (c : call) : bool :=
  match c with
  | CallTarOpen _ | CallExtractAll _ => true
  | _ => false
  end.

Definition is_removal (c : call) : bool :=
  match c with
  | CallRemove _ => true
  | _ => false
  end.

(** A plain file name: not empty, not ["."] or [".."], no ["/"] in it. *)
Definition is_name (s : string) : bool :=
  negb (String.eqb s EmptyString) && negb (String.eqb s ".") && negb (String.eqb s "..") &&
  forall_chars (fun c => negb (Ascii.eqb c SLASH)) s.

(** The directory at [ws] holds exactly the entries [es]. *)
Definition holds (w : world) (ws : list string) (es : entries_t) : Prop :=
  lookup ws (fs w) = Some (Dir es).

(** The workspace directory is not there yet, or is there and empty. *)
Definition fresh_workspace (E : environ) (w : world) : Prop :=
  lookup (resolve w (workspace_path E)) (fs w) = None \/
  lookup (resolve w (workspace_path E)) (fs w) = Some (Dir []).





End Obs.

(* ===================================================================== *)
(** * Concrete environments, for the examples *)
(* ===================================================================== *)

Module Samples.
Import Py Fs.

Definition nl : string := String LF EmptyString.

Definition empty_world : world :=
  {| fs := Dir []; cwd := []; procs := []; records := []; calls := [] |}.

(** An environment whose [ssh-endpoint] child writes [out] and [err], whose
    [login] child ends with [status] after writing [login_err], and whose server
    answers every download with [body].  Its [urljoin] is plain concatenation,
    which is what [urllib.parse.urljoin] gives for a base ending in ["/"] and a
    relative path without dots. *)
Definition sample_env (base sys_platform uuid_hex : string) (body : option content)
    (out err : string) (status : Z) (login_err : string) : environ :=
  {| BASE_PATH_CDSWCTL := base;
     platform := sys_platform;
     urljoin := fun a b => a ++ b;
     uuid1_hex := uuid_hex;
     response := fun _ _ => body;
     Popen := fun command => Ok {| args := command; stdout := out; stderr := err |};
     run := fun command =>
              Ok {| cp_args := command; returncode := status;
                    cp_stdout := EmptyString; cp_stderr := login_err |} |}.

(** The archive of the layout contract: one directory holding [cdswctl]. *)
Definition cdsw_tree : entries_t := [("cdsw", Dir [("cdswctl", File (Bytes "ELF"))])].

Definition tunnel_env (out err : string) : environ :=
  sample_env "/home/cdsw/.cmlutils" "linux" "9f1c2ab34de011ef8a3b0242ac120002"
             (Some (TarArchive cdsw_tree)) out err 0 EmptyString.

Definition login_env (status : Z) (login_err : string) : environ :=
  sample_env "/home/cdsw/.cmlutils" "linux" "9f1c2ab34de011ef8a3b0242ac120002"
             (Some (TarArchive cdsw_tree)) EmptyString EmptyString status login_err.

Definition install_env (sys_platform uuid_hex : string) (body : content) : environ :=
  sample_env "/home/cdsw/.cmlutils" sys_platform uuid_hex (Some body)
             EmptyString EmptyString 0 EmptyString.

Definition linux_env : environ :=
  install_env "linux" "9f1c2ab34de011ef8a3b0242ac120002" (TarArchive cdsw_tree).

(** Any platform other than linux and darwin is served the zip archive. *)
Definition windows_env : environ :=
  install_env "win32" "9f1c2ab34de011ef8a3b0242ac120002" (ZipArchive cdsw_tree).

(** An environment whose uuid source has been replaced, so that the workspace
    path computed from it lies outside the root.  ([uuid1_hex] is not
    restricted to hexadecimal digits; with them the validation always
    passes.) *)
Definition escaping_env : environ :=
  install_env "linux" "/srv/www" (TarArchive cdsw_tree).

Definition linux_url : string := "https://cml.example.com/cli/linux/amd64/cdsw.tar.gz".


End Samples.

(* ===================================================================== *)
(** * Further statement vocabulary *)
(* ===================================================================== *)

Module ObsExt.
Import Py Subprocess Fs Ssh Cdswctl Obs.

(** What [open_ssh_endpoint] returns once the child is started, as a function
    of the first line read and of the handle the child was given. *)
Definition banner_result (line : string) (handle : nat) : result (option nat * Z) :=
  if String.eqb line EmptyString then Ok (None, (-1)%Z)
  else
    let arr := fields line in
    if (length arr <=? 3)%nat || negb (isdigit (nth 3 arr EmptyString)) then
      Raise (Exception ("SSH connection failed unexpectedly: " ++ strip line))
    else
      match int (nth 3 arr EmptyString) with
      | None => Raise ValueError
      | Some port => Ok (Some handle, port)
      end.

Definition either (lo up c : ascii) : bool := Ascii.eqb c lo || Ascii.eqb c up.

(** The word [false] in any mix of upper and lower case. *)
Definition is_false_word (s : string) : bool :=
  match s with
  | String a (String b (String c (String d (String e EmptyString)))) =>
      either "f" "F" a && either "a" "A" b && either "l" "L" c &&
      either "s" "S" d && either "e" "E" e
  | _ => false
  end.

(** The arguments of the login command that come before the key. *)
Definition login_head (cdswctl_path host username : string) : list string :=
  [cdswctl_path; "login"; "-n"; username; "-u"; host; "-y"].

(** The records a run gave to [logging], oldest first. *)
Definition written (w w' : world) : list log_record :=
  skipn (length (records w)) (records w').

Definition entry (l : level) (s : string) : log_record :=
  {| levelname := l; message := [Text s] |}.


(** What [cdswctl_login] logs before it starts the child. *)
Definition login_preamble (cdswctl_path host username api_key ca_path : string)
    : list log_record :=
  ([entry INFO "Logging into cdsw via cdswctl"] ++
   (if String.eqb (lower ca_path) "false"
    then [entry DEBUG "Added --insecure-skip-verify flag to cdswctl login command"]
    else []) ++
   [entry DEBUG (rendered_command cdswctl_path host username api_key ca_path)])%list.

(** [_download_and_extract] from the rename on (source lines 39-43). *)
Definition relocate_stage (dir_path cdswctldir : string) : M string :=
  let old_file_path := os_path_join (os_path_join dir_path cdswctldir) "cdswctl" in
  let new_file_path := os_path_join dir_path "cdswctl" in
  os_rename old_file_path new_file_path ;;
  os_removedirs (os_path_join dir_path cdswctldir) ;;
  ret new_file_path.

(** The exceptions of the file system, the archive reader, the subscript and
    the transport. *)
Definition fs_error (e : exn) : bool :=
  match e with
  | OSError _ | ReadError | IndexError | TransportError => true
  | _ => false
  end.

(** A computation that keeps the current directory, starts no child, logs
    nothing, and raises only exceptions in [P]. *)
Definition confined {A : Type} (P : exn -> Prop) (m : M A) : Prop :=
  forall w : world,
    cwd (snd (m w)) = cwd w /\ procs (snd (m w)) = procs w /\
    records (snd (m w)) = records w /\
    forall e : exn, fst (m w) = Raise e -> P e.

(** The exceptions [_download_and_extract] can end with. *)
Definition install_error (E : environ) (e : exn) : Prop :=
  fs_error e = true \/
  (validated E = false /\ e = RuntimeError "path for cdswctl could not be validated.").

(** The lower-case hexadecimal digits, and the 32 of them [uuid.uuid1().hex]
    consists of. *)
Definition is_hex_char (c : ascii) : bool := between 48 57 c || between 97 102 c.

Definition is_uuid_hex (s : string) : bool :=
  (String.length s =? 32)%nat && forall_chars is_hex_char s.

(** An environment in which no child can be started and no server answers. *)
Definition no_binary_env : environ :=
  {| BASE_PATH_CDSWCTL := "/home/cdsw/.cmlutils";
     platform := "linux";
     urljoin := fun a b => a ++ b;
     uuid1_hex := "9f1c2ab34de011ef8a3b0242ac120002";
     response := fun _ _ => None;
     Popen := fun _ => Raise (OSError "exec");
     run := fun _ => Raise (OSError "exec") |}.

End ObsExt.

(* ===================================================================== *)
(** * Facts about the Python built-ins *)
(* ===================================================================== *)

Module PyFacts.
Import Py Subprocess.

Lemma readline_empty (s : string) : fst (readline s) = EmptyString <-> s = EmptyString.
Proof.
  split; intros H.
  - destruct s as [|c s']; [reflexivity|]. simpl in H.
    destruct (Ascii.eqb c LF); [discriminate|].
    destruct (readline s'); discriminate.
  - subst. reflexivity.
Qed.

Lemma rstrip_blank (s : string) : forall_chars isspace s = true -> rstrip s = EmptyString.
Proof.
  induction s as [|c s IH]; simpl; intros H; [reflexivity|].
  apply andb_true_iff in H as [Hc Hs]. rewrite (IH Hs), Hc. reflexivity.
Qed.

Lemma strip_blank (s : string) : forall_chars isspace s = true -> strip s = EmptyString.
Proof. intros H. unfold strip. rewrite (rstrip_blank s H). reflexivity. Qed.

Lemma forall_chars_impl (p q : ascii -> bool) (s : string) :
  (forall c, p c = true -> q c = true) ->
  forall_chars p s = true -> forall_chars q s = true.
Proof.
  intros Hpq. induction s as [|c s IH]; simpl; [reflexivity|].
  intros H. apply andb_true_iff in H as [Hc Hs].
  rewrite (Hpq c Hc), (IH Hs). reflexivity.
Qed.

Lemma isdecimal_isdigit (s : string) : isdecimal s = true -> isdigit s = true.
Proof.
  unfold isdecimal, isdigit. intros H. apply andb_true_iff in H as [Hn Hd].
  rewrite Hn. simpl. apply (forall_chars_impl isdecimal_char); [|exact Hd].
  intros c Hc. unfold isdigit_char. rewrite Hc. reflexivity.
Qed.

Lemma digit_value_nonneg (c : ascii) : isdecimal_char c = true -> (0 <= digit_value c)%Z.
Proof.
  unfold isdecimal_char, between, digit_value. intros H.
  apply andb_true_iff in H as [H _]. apply N.leb_le in H. lia.
Qed.

Lemma int_digits_nonneg (s : string) (acc : Z) :
  (0 <= acc)%Z -> forall_chars isdecimal_char s = true -> (0 <= int_digits acc s)%Z.
Proof.
  revert acc. induction s as [|c s IH]; cbn [int_digits forall_chars]; intros acc Hacc H;
    [exact Hacc|].
  apply andb_true_iff in H as [Hc Hs]. apply IH; [|exact Hs].
  pose proof (digit_value_nonneg c Hc). lia.
Qed.

Lemma int_nonneg (s : string) (n : Z) : int s = Some n -> (0 <= n)%Z.
Proof.
  unfold int. destruct (isdecimal s) eqn:Hd; [|discriminate].
  destruct (Z.of_nat (String.length s) <=? int_max_str_digits)%Z; [|discriminate].
  intros [= <-]. unfold isdecimal in Hd. apply andb_true_iff in Hd as [_ Hd].
  apply int_digits_nonneg; [lia | exact Hd].
Qed.

Lemma nth_error_snoc {A} (l : list A) (x : A) : nth_error (l ++ [x]) (length l) = Some x.
Proof. induction l as [|y l IH]; simpl; [reflexivity | exact IH]. Qed.

Lemma update_nth_snoc {A} (l : list A) (x y : A) :
  update_nth (length l) y (l ++ [x]) = (l ++ [y])%list.
Proof. induction l as [|z l IH]; simpl; [reflexivity | now rewrite IH]. Qed.

Lemma nth_default_error (l : list string) (n : nat) (f : string) :
  nth_error l n = Some f -> nth n l EmptyString = f /\ (n < length l)%nat.
Proof.
  intros H. split.
  - now apply nth_error_nth.
  - apply nth_error_Some. congruence.
Qed.

End PyFacts.

(* ===================================================================== *)
(** * The SSH-endpoint launcher *)
(* ===================================================================== *)

Module SshFacts.
Import Py Subprocess Ssh Obs Samples PyFacts.

Lemma command_eq (cdswctl_path : string) (runtime_id : Z) (project_slug : string) :
  (if negb (runtime_id =? -1)%Z
   then ([cdswctl_path; "ssh-endpoint"; "-p"; project_slug; "-c"; "1.0"; "-m"; "0.5"] ++
         ["-r"; str runtime_id])%list
   else [cdswctl_path; "ssh-endpoint"; "-p"; project_slug; "-c"; "1.0"; "-m"; "0.5"])
  = ssh_command cdswctl_path runtime_id project_slug.
Proof. unfold ssh_command. destruct (negb _); reflexivity. Qed.

Lemma fields_short_or_bad (arr : list string) :
  (length arr <=? 3)%nat || negb (isdigit (nth 3 arr EmptyString)) = true ->
  (length arr <= 3)%nat \/ isdigit (nth 3 arr EmptyString) = false.
Proof.
  intros H. apply orb_true_iff in H as [H | H].
  - left. now apply Nat.leb_le.
  - right. now apply negb_true_iff.
Qed.

Lemma fields_parsed (arr : list string) :
  (length arr <=? 3)%nat || negb (isdigit (nth 3 arr EmptyString)) = false ->
  nth_error arr 3 = Some (nth 3 arr EmptyString) /\ isdigit (nth 3 arr EmptyString) = true.
Proof.
  intros H. apply orb_false_iff in H as [Hl Hd].
  apply Nat.leb_gt in Hl. apply negb_false_iff in Hd. split; [|exact Hd].
  apply nth_error_nth'. exact Hl.
Qed.

Ltac step_run :=
  unfold logging_info, logging_debug, logging_error, log, subprocess_Popen,
         trace, stdout_readline, stderr_readlines, ret, raise, bind;
  cbn [fst snd procs records calls fs cwd set_procs add_record add_call].

(** Every call of [open_ssh_endpoint] ends in one of the five ways. *)
Lemma open_ssh_endpoint_outcome (E : environ)
    (cdswctl_path project_name : string) (runtime_id : Z) (project_slug : string) (w : world) :
  let r := open_ssh_endpoint E cdswctl_path project_name runtime_id project_slug w in
  ssh_outcome E (ssh_command cdswctl_path runtime_id project_slug) w (fst r) (snd r).
Proof.
  unfold open_ssh_endpoint. rewrite command_eq.
  set (cmd := ssh_command cdswctl_path runtime_id project_slug).
  step_run.
  destruct (Popen E cmd) as [p | e] eqn:Hp; cbn [fst snd procs set_procs add_record add_call].
  2:{ eapply SpawnFailed; [exact Hp | reflexivity]. }
  rewrite nth_error_snoc.
  destruct (readline (stdout p)) as [line rest] eqn:Hr.
  assert (Hb : banner p = line) by (unfold banner; now rewrite Hr).
  assert (Hrest : snd (readline (stdout p)) = rest) by now rewrite Hr.
  cbn [no_output line_text].
  destruct (String.eqb_spec line EmptyString) as [He | Hne].
  - step_run. rewrite update_nth_snoc, nth_error_snoc.
    cbn [fst snd procs set_procs add_record add_call args stdout stderr].
    rewrite update_nth_snoc.
    eapply StartupFailure; [exact Hp | congruence | | ].
    + cbn. unfold drained. now rewrite Hrest.
    + unfold last_record. cbn [records add_record set_procs add_call].
      rewrite rev_unit. reflexivity.
  - destruct ((length (split SP (strip line)) <=? 3)%nat ||
              negb (isdigit (nth 3 (split SP (strip line)) EmptyString))) eqn:Hparse.
    + step_run. rewrite update_nth_snoc, nth_error_snoc.
      cbn [fst snd procs set_procs add_record add_call args stdout stderr].
      rewrite update_nth_snoc. rewrite <- Hb.
      eapply ProtocolViolation; [exact Hp | congruence | | | ].
      * apply fields_short_or_bad. unfold fields. now rewrite Hb.
      * cbn. unfold drained. now rewrite Hrest.
      * unfold logged. cbn [records add_record set_procs add_call].
        rewrite !in_app_iff. cbn. tauto.
    + apply fields_parsed in Hparse as [Hnth Hdig].
      destruct (int (nth 3 (split SP (strip line)) EmptyString)) as [port|] eqn:Hint.
      * step_run. rewrite update_nth_snoc.
        eapply Ready; [exact Hp | congruence | | exact Hdig | exact Hint | ].
        -- unfold fields. now rewrite Hb.
        -- cbn. unfold after_banner. now rewrite Hrest.
      * step_run. rewrite update_nth_snoc.
        eapply NotAnInteger; [exact Hp | congruence | | exact Hdig | exact Hint | ].
        -- unfold fields. now rewrite Hb.
        -- cbn. unfold after_banner. now rewrite Hrest.
Qed.


Ltac outcome_cases E a b rid c w H :=
  pose proof (open_ssh_endpoint_outcome E a b rid c w) as H; cbv zeta in H;
  destruct (open_ssh_endpoint E a b rid c w) as [res w'] eqn:Hrun; cbn [fst snd] in *;
  destruct H as [ e w' Hp' Hprocs
                | q w' Hp' Hb Hprocs Hlast
                | q w' Hp' Hb Hbad Hprocs Hlog
                | q f w' Hp' Hb Hnth' Hdig' Hint' Hprocs
                | q f port w' Hp' Hb Hnth' Hdig' Hint' Hprocs ].

Ltac same_child p :=
  match goal with
  | H1 : Popen ?E ?c = Ok ?q, H2 : Popen ?E ?c = Ok p |- _ =>
      assert (q = p) by congruence; subst q; clear H1
  | H1 : Popen ?E ?c = Raise _, H2 : Popen ?E ?c = Ok p |- _ => congruence
  end.

(** The two failures of the first read: the empty read ends in the sentinel,
    a line that does not parse ends in the raised exception; both drain the
    child's standard error into the log. *)
Lemma first_read_cases (E : environ)
    (cdswctl_path project_name : string) (runtime_id : Z) (project_slug : string)
    (w : world) (p : process) :
  Popen E (ssh_command cdswctl_path runtime_id project_slug) = Ok p ->
  let r := open_ssh_endpoint E cdswctl_path project_name runtime_id project_slug w in
  (banner p = EmptyString ->
     fst r = Ok (None, (-1)%Z) /\
     procs (snd r) = (procs w ++ [drained p])%list /\
     last_record (snd r) =
       Some {| levelname := ERROR;
               message := [Text "stderr output: "; ListRepr (readlines (stderr p))] |})
  /\
  (banner p <> EmptyString ->
   (length (fields (banner p)) < 4)%nat \/
     isdigit (nth 3 (fields (banner p)) EmptyString) = false ->
     fst r = Raise (Exception ("SSH connection failed unexpectedly: " ++ strip (banner p))) /\
     procs (snd r) = (procs w ++ [drained p])%list /\
     logged ERROR [Text "stderr output: "; ListRepr (readlines (stderr p))] (snd r)).
Proof.
  intros Hp r. subst r.
  outcome_cases E cdswctl_path project_name runtime_id project_slug w H; same_child p.
  - split; [intros _; auto | intros Hne; contradiction].
  - split; [intros He; contradiction | intros _ _; auto].
  - split; [intros He; contradiction |].
    intros _ [Hlen | Hbad].
    + assert (3 < length (fields (banner p)))%nat
        by (apply nth_error_Some; congruence). lia.
    + apply nth_error_nth with (d := EmptyString) in Hnth'. congruence.
  - split; [intros He; contradiction |].
    intros _ [Hlen | Hbad].
    + assert (3 < length (fields (banner p)))%nat
        by (apply nth_error_Some; congruence). lia.
    + apply nth_error_nth with (d := EmptyString) in Hnth'. congruence.
Qed.


(** C1.  [open_ssh_endpoint] sorts its first read of the child's standard
    output into two failures.  When the single [readline] yields the empty
    string (end of stream), standard error is drained and logged and the
    sentinel [(None, -1)] is returned: nothing is raised.  When a line is read
    whose stripped text has fewer than four fields, or a 4th field that is not
    numeric ([isdigit] false), standard error is drained and logged and
    [Exception] is raised: never the sentinel. *)
Theorem first_read_classification (E : environ)
    (cdswctl_path project_name : string) (runtime_id : Z) (project_slug : string)
    (w : world) (p : process) :
  Popen E (ssh_command cdswctl_path runtime_id project_slug) = Ok p ->
  let r := open_ssh_endpoint E cdswctl_path project_name runtime_id project_slug w in
  (banner p = EmptyString ->
     fst r = Ok (None, (-1)%Z) /\
     procs (snd r) = (procs w ++ [drained p])%list /\
     last_record (snd r) =
       Some {| levelname := ERROR;
               message := [Text "stderr output: "; ListRepr (readlines (stderr p))] |})
  /\
  (banner p <> EmptyString ->
   (length (fields (banner p)) < 4)%nat \/
     isdigit (nth 3 (fields (banner p)) EmptyString) = false ->
     fst r = Raise (Exception ("SSH connection failed unexpectedly: " ++ strip (banner p))) /\
     procs (snd r) = (procs w ++ [drained p])%list /\
     logged ERROR [Text "stderr output: "; ListRepr (readlines (stderr p))] (snd r)).
Proof. exact (first_read_cases E cdswctl_path project_name runtime_id project_slug w p). Qed.

(** C1 at work: no output at all gives the sentinel, the banner ["foo bar"]
    gives the exception. *)
Lemma first_read_classification_witness :
  fst (open_ssh_endpoint (tunnel_env EmptyString ("no route to host" ++ nl))
         "/opt/cdswctl" "demo" (-1) "demo-slug" empty_world) = Ok (None, (-1)%Z)
  /\
  fst (open_ssh_endpoint (tunnel_env ("foo bar" ++ nl) EmptyString)
         "/opt/cdswctl" "demo" (-1) "demo-slug" empty_world)
  = Raise (Exception "SSH connection failed unexpectedly: foo bar").
Proof.
  split.
  - refine (proj1 (proj1 (first_read_classification
              (tunnel_env EmptyString ("no route to host" ++ nl))
              "/opt/cdswctl" "demo" (-1) "demo-slug" empty_world _ eq_refl) eq_refl)).
  - refine (proj1 (proj2 (first_read_classification
              (tunnel_env ("foo bar" ++ nl) EmptyString)
              "/opt/cdswctl" "demo" (-1) "demo-slug" empty_world _ eq_refl) _ _)).
    + vm_compute. discriminate.
    + left. vm_compute. lia.
Defined.

(** C2, as amended.  For every first line that, once whitespace is stripped
    at both ends and the rest is split at each single space, has four or more
    fields whose 4th field (index 3) is a non-empty run of at most 4300
    decimal digits, [open_ssh_endpoint] returns the handle of the live child
    (its banner read, its standard error untouched) together with that
    field's integer value.  A longer run of decimal digits is past what [int]
    converts: the call then ends with [ValueError]. *)
Theorem banner_port_returned (E : environ)
    (cdswctl_path project_name : string) (runtime_id : Z) (project_slug : string)
    (w : world) (p : process) (field : string) :
  Popen E (ssh_command cdswctl_path runtime_id project_slug) = Ok p ->
  nth_error (fields (banner p)) 3 = Some field ->
  isdecimal field = true ->
  let r := open_ssh_endpoint E cdswctl_path project_name runtime_id project_slug w in
  ((Z.of_nat (String.length field) <= int_max_str_digits)%Z ->
   fst r = Ok (Some (length (procs w)), int_digits 0 field) /\
   nth_error (procs (snd r)) (length (procs w)) = Some (after_banner p)) /\
  ((int_max_str_digits < Z.of_nat (String.length field))%Z ->
   fst r = Raise ValueError).
Proof.
  intros Hp Hf Hdec r. subst r.
  pose proof (isdecimal_isdigit field Hdec) as Hdig.
  destruct (nth_default_error _ _ _ Hf) as [Hnth Hlen].
  split; intros Hsize.
  - assert (Hint : int field = Some (int_digits 0 field)).
    { unfold int. rewrite Hdec. apply Z.leb_le in Hsize. now rewrite Hsize. }
    outcome_cases E cdswctl_path project_name runtime_id project_slug w H; same_child p.
    + exfalso. rewrite Hb in Hf. discriminate.
    + exfalso. destruct Hbad as [Hshort | Hbad]; [lia | congruence].
    + exfalso. congruence.
    + assert (f = field) by congruence. subst f.
      split; [congruence |]. rewrite Hprocs. apply nth_error_snoc.
  - assert (Hint : int field = None).
    { unfold int. rewrite Hdec. apply Z.leb_gt in Hsize. now rewrite Hsize. }
    outcome_cases E cdswctl_path project_name runtime_id project_slug w H; same_child p.
    + exfalso. rewrite Hb in Hf. discriminate.
    + exfalso. destruct Hbad as [Hshort | Hbad]; [lia | congruence].
    + reflexivity.
    + exfalso. congruence.
Qed.

(** C2 at work: the banner ["foo bar baz 4321"] gives port 4321. *)
Lemma banner_port_returned_witness :
  fst (open_ssh_endpoint (tunnel_env ("foo bar baz 4321" ++ nl) EmptyString)
         "/opt/cdswctl" "demo" (-1) "demo-slug" empty_world)
  = Ok (Some 0%nat, 4321%Z).
Proof.
  refine (proj1 (proj1 (banner_port_returned
                          (tunnel_env ("foo bar baz 4321" ++ nl) EmptyString)
                          "/opt/cdswctl" "demo" (-1) "demo-slug" empty_world _ "4321"
                          eq_refl eq_refl eq_refl) _)).
  vm_compute. discriminate.
Defined.

(** A 4th field of 4301 decimal digits is one digit past what [int] converts:
    the call ends with [ValueError], not with a handle. *)
Example long_field_value_error :
  let field := string_of_list_ascii (repeat "7"%char 4301) in
  let r := open_ssh_endpoint (tunnel_env ("foo bar baz " ++ field ++ nl) EmptyString)
             "/opt/cdswctl" "demo" (-1) "demo-slug" empty_world in
  isdecimal field = true /\ fst r = Raise ValueError.
Proof. vm_compute. split; reflexivity. Qed.

(** C2 as stated fails.  With trailing whitespace stripped, the line
    [" 1 2 3  4"] has four fields separated by whitespace, the 4th being ["4"],
    and, read with single spaces as separators, the field ["3"] at index 3.
    [open_ssh_endpoint] raises on it: it strips both ends and cuts at each
    single space, which leaves the empty field at index 3. *)
Lemma banner_whitespace_counterexample :
  let line := " 1 2 3  4" ++ nl in
  spec_banner_runs line "4" /\
  spec_banner_spaces line "3" /\
  fst (open_ssh_endpoint (tunnel_env line EmptyString)
         "/opt/cdswctl" "demo" (-1) "demo-slug" empty_world)
  = Raise (Exception "SSH connection failed unexpectedly: 1 2 3  4").
Proof. vm_compute. repeat split. Qed.

(** A 4th field of superscript digits passes [isdigit], so the parse goes on,
    and [int] then raises [ValueError]: neither the sentinel nor the
    exception of the protocol violation, and standard error is not read. *)
Example superscript_field_value_error :
  let two := String (ascii_of_N 178) EmptyString in
  let r := open_ssh_endpoint (tunnel_env ("foo bar baz " ++ two ++ nl) "warning")
             "/opt/cdswctl" "demo" (-1) "demo-slug" empty_world in
  isdigit two = true /\ isdecimal two = false /\
  fst r = Raise ValueError /\
  option_map stderr (nth_error (procs (snd r)) 0) = Some "warning".
Proof. vm_compute. repeat split. Qed.

(** C8, as amended.  A handle is only returned after the first line has been
    parsed: the child was started, its banner is not empty, the stripped
    banner has a field of index 3 that [isdigit] accepts, and the port returned
    with the handle is that field's integer value, which is not negative and
    not otherwise bounded.  The handle designates the child with its banner
    read and nothing else consumed. *)
Theorem handle_only_after_parse (E : environ)
    (cdswctl_path project_name : string) (runtime_id : Z) (project_slug : string)
    (w w' : world) (h : nat) (port : Z) :
  open_ssh_endpoint E cdswctl_path project_name runtime_id project_slug w
    = (Ok (Some h, port), w') ->
  exists (p : process) (field : string),
    Popen E (ssh_command cdswctl_path runtime_id project_slug) = Ok p /\
    banner p <> EmptyString /\
    nth_error (fields (banner p)) 3 = Some field /\
    isdigit field = true /\
    int field = Some port /\
    (0 <= port)%Z /\
    h = length (procs w) /\
    nth_error (procs w') h = Some (after_banner p).
Proof.
  intros Hret.
  pose proof (open_ssh_endpoint_outcome E cdswctl_path project_name runtime_id project_slug w)
    as H.
  cbv zeta in H. rewrite Hret in H. cbn [fst snd] in H.
  inversion H; subst.
  exists p, field. repeat split; try assumption.
  - eapply int_nonneg; eassumption.
  - match goal with Hpr : procs w' = _ |- _ => rewrite Hpr end. apply nth_error_snoc.
Qed.

(** C8 at work, on the banner ["foo bar baz 4321"]. *)
Lemma handle_only_after_parse_witness :
  exists (p : process) (field : string),
    Popen (tunnel_env ("foo bar baz 4321" ++ nl) EmptyString)
          (ssh_command "/opt/cdswctl" (-1) "demo-slug") = Ok p /\
    banner p <> EmptyString /\
    nth_error (fields (banner p)) 3 = Some field /\
    isdigit field = true /\
    int field = Some 4321%Z /\
    (0 <= 4321)%Z /\
    0%nat = length (procs empty_world) /\
    nth_error
      (procs (snd (open_ssh_endpoint (tunnel_env ("foo bar baz 4321" ++ nl) EmptyString)
                     "/opt/cdswctl" "demo" (-1) "demo-slug" empty_world))) 0
    = Some (after_banner p).
Proof.
  refine (handle_only_after_parse (tunnel_env ("foo bar baz 4321" ++ nl) EmptyString)
            "/opt/cdswctl" "demo" (-1) "demo-slug" empty_world _ 0 4321 _).
  vm_compute. reflexivity.
Defined.

(** C8 as stated fails: the ports 70000 and 0 are returned with a handle,
    and neither lies in 1..65535. *)
Lemma port_range_counterexample :
  fst (open_ssh_endpoint (tunnel_env ("listening on port 70000" ++ nl) EmptyString)
         "/opt/cdswctl" "demo" (-1) "demo-slug" empty_world)
  = Ok (Some 0%nat, 70000%Z)
  /\ ~ valid_port 70000
  /\
  fst (open_ssh_endpoint (tunnel_env ("listening on port 0" ++ nl) EmptyString)
         "/opt/cdswctl" "demo" (-1) "demo-slug" empty_world)
  = Ok (Some 0%nat, 0%Z)
  /\ ~ valid_port 0.
Proof.
  unfold valid_port. repeat split; try (vm_compute; reflexivity); lia.
Qed.

(** C10.  A first line that is not empty but all whitespace strips to the
    empty string, splits to the single empty field, and makes
    [open_ssh_endpoint] raise its exception; the sentinel [(None, -1)] is the
    result exactly when [readline] returned the empty string, which it does
    exactly at the end of the stream. *)
Theorem blank_line_is_violation (E : environ)
    (cdswctl_path project_name : string) (runtime_id : Z) (project_slug : string)
    (w : world) (p : process) :
  Popen E (ssh_command cdswctl_path runtime_id project_slug) = Ok p ->
  let r := open_ssh_endpoint E cdswctl_path project_name runtime_id project_slug w in
  (banner p <> EmptyString -> forall_chars isspace (banner p) = true ->
     strip (banner p) = EmptyString /\
     fields (banner p) = [EmptyString] /\
     fst r = Raise (Exception "SSH connection failed unexpectedly: "))
  /\
  (fst r = Ok (None, (-1)%Z) <-> banner p = EmptyString)
  /\
  (banner p = EmptyString <-> stdout p = EmptyString).
Proof.
  intros Hp r. subst r.
  pose proof (first_read_cases E cdswctl_path project_name runtime_id
                project_slug w p Hp) as [Hsoft Hhard]. cbv zeta in Hsoft, Hhard.
  split; [| split].
  - intros Hne Hblank.
    pose proof (strip_blank _ Hblank) as Hstrip.
    assert (Hfields : fields (banner p) = [EmptyString])
      by (unfold fields; rewrite Hstrip; reflexivity).
    split; [exact Hstrip | split; [exact Hfields |]].
    destruct (Hhard Hne) as [Hr _].
    + left. rewrite Hfields. cbn. lia.
    + rewrite Hr, Hstrip. reflexivity.
  - split.
    + intros Hsent.
      outcome_cases E cdswctl_path project_name runtime_id project_slug w H;
        same_child p; congruence.
    + intros He. apply (Hsoft He).
  - apply readline_empty.
Qed.

(** C10 at work: three spaces and a newline, and a lone newline. *)
Lemma blank_line_is_violation_witness :
  fst (open_ssh_endpoint (tunnel_env ("   " ++ nl) EmptyString)
         "/opt/cdswctl" "demo" (-1) "demo-slug" empty_world)
  = Raise (Exception "SSH connection failed unexpectedly: ")
  /\
  fst (open_ssh_endpoint (tunnel_env nl EmptyString)
         "/opt/cdswctl" "demo" (-1) "demo-slug" empty_world)
  = Raise (Exception "SSH connection failed unexpectedly: ").
Proof.
  split.
  - refine (proj2 (proj2 (proj1 (blank_line_is_violation (tunnel_env ("   " ++ nl) EmptyString)
              "/opt/cdswctl" "demo" (-1) "demo-slug" empty_world _ eq_refl) _ eq_refl))).
    vm_compute. discriminate.
  - refine (proj2 (proj2 (proj1 (blank_line_is_violation (tunnel_env nl EmptyString)
              "/opt/cdswctl" "demo" (-1) "demo-slug" empty_world _ eq_refl) _ eq_refl))).
    vm_compute. discriminate.
Defined.

End SshFacts.

(* ===================================================================== *)
(** * The login *)
(* ===================================================================== *)

Module LoginFacts.
Import Py Subprocess Cdswctl Obs Samples PyFacts.

Ltac step_login :=
  unfold logging_info, logging_debug, logging_error, log, subprocess_run,
         trace, ret, raise, bind;
  cbn [fst snd procs records calls fs cwd set_procs add_record add_call].

(** What [cdswctl_login] leaves when the child ends with a non-zero status. *)
Lemma login_nonzero (E : environ) (cdswctl_path host username api_key ca_path : string)
    (w : world) (cp : CompletedProcess) :
  run E (login_cmd cdswctl_path host username api_key ca_path) = Ok cp ->
  returncode cp <> 0%Z ->
  let r := cdswctl_login E cdswctl_path host username api_key ca_path w in
  fst r = Raise (Exception ("cdswctl login failed with return code " ++ str (returncode cp))) /\
  last_record (snd r) =
    Some {| levelname := ERROR; message := [Text ("cdswctl login failed: " ++ cp_stderr cp)] |}.
Proof.
  intros Hrun Hcode. unfold cdswctl_login.
  destruct (String.eqb (lower ca_path) "false"); step_login; rewrite Hrun;
    (destruct (Z.eqb_spec (returncode cp) 0) as [H0 | _]; [contradiction |]);
    cbn [negb fst snd]; (split; [reflexivity |]);
    unfold last_record; cbn [records add_record add_call]; rewrite rev_unit; reflexivity.
Qed.

(** The debug record showing the command is written in every call. *)
Lemma login_command_logged (E : environ) (cdswctl_path host username api_key ca_path : string)
    (w : world) :
  logged DEBUG [Text (rendered_command cdswctl_path host username api_key ca_path)]
         (snd (cdswctl_login E cdswctl_path host username api_key ca_path w)).
Proof.
  unfold cdswctl_login, logged.
  destruct (String.eqb (lower ca_path) "false"); step_login;
    (destruct (run E _) as [cp | e]; cbn [fst snd records add_record add_call];
     [ destruct (negb (returncode cp =? 0)%Z); cbn [fst snd records add_record add_call] | ]);
    rewrite !in_app_iff; cbn; tauto.
Qed.

Lemma masked_login_cmd (cdswctl_path host username api_key ca_path : string) :
  ~ In api_key [cdswctl_path; "login"; "-n"; username; "-u"; host; "-y"] ->
  masked (login_cmd cdswctl_path host username api_key ca_path) api_key =
  ([cdswctl_path; "login"; "-n"; username; "-u"; host; "-y"; "<api_key>"] ++
   (if String.eqb (lower ca_path) "false" then ["--insecure-skip-verify"] else []))%list.
Proof.
  intros Hnot. cbn [In] in Hnot.
  assert (Hne : forall x, x <> api_key ->
                String.eqb x api_key = false /\ String.eqb api_key x = false).
  { intros x Hx. split; apply String.eqb_neq; congruence. }
  destruct (Hne cdswctl_path) as [H1 H1']; [tauto |].
  destruct (Hne "login") as [H2 H2']; [tauto |].
  destruct (Hne "-n") as [H3 H3']; [tauto |].
  destruct (Hne username) as [H4 H4']; [tauto |].
  destruct (Hne "-u") as [H5 H5']; [tauto |].
  destruct (Hne host) as [H6 H6']; [tauto |].
  destruct (Hne "-y") as [H7 H7']; [tauto |].
  unfold masked, login_cmd.
  destruct (String.eqb (lower ca_path) "false");
    cbn [mem existsb index app];
    rewrite H1, H2, H3, H4, H5, H6, H7, H1', H2', H3', H4', H5', H6', H7', String.eqb_refl;
    reflexivity.
Qed.

(** C6, as amended.  Whenever the login child ends with a non-zero status,
    [cdswctl_login] raises [Exception] with the message "cdswctl login failed
    with return code <status>"; the captured standard-error text is not in the
    exception but in the error record logged just before, "cdswctl login
    failed: <stderr>". *)
Theorem login_failure_reports_code (E : environ)
    (cdswctl_path host username api_key ca_path : string) (w : world) (cp : CompletedProcess) :
  run E (login_cmd cdswctl_path host username api_key ca_path) = Ok cp ->
  returncode cp <> 0%Z ->
  let r := cdswctl_login E cdswctl_path host username api_key ca_path w in
  fst r = Raise (Exception ("cdswctl login failed with return code " ++ str (returncode cp))) /\
  last_record (snd r) =
    Some {| levelname := ERROR; message := [Text ("cdswctl login failed: " ++ cp_stderr cp)] |}.
Proof. apply login_nonzero. Qed.

(** C6 at work: status 1 with ["invalid API key"] on standard error. *)
Lemma login_failure_reports_code_witness :
  let r := cdswctl_login (login_env 1 "invalid API key")
             "/opt/cdswctl" "https://cml.example.com" "alice" "s3cr3t" EmptyString empty_world in
  fst r = Raise (Exception "cdswctl login failed with return code 1") /\
  last_record (snd r) =
    Some {| levelname := ERROR; message := [Text "cdswctl login failed: invalid API key"] |}.
Proof.
  refine (login_failure_reports_code (login_env 1 "invalid API key")
            "/opt/cdswctl" "https://cml.example.com" "alice" "s3cr3t" EmptyString empty_world
            _ eq_refl _).
  vm_compute. discriminate.
Defined.

(** C6 as stated fails: with status 1 and ["invalid API key"] on standard
    error, the exception raised does not contain that text. *)
Lemma login_failure_counterexample :
  exists msg : string,
    fst (cdswctl_login (login_env 1 "invalid API key")
           "/opt/cdswctl" "https://cml.example.com" "alice" "s3cr3t" EmptyString empty_world)
    = Raise (Exception msg) /\
    contains "invalid API key" msg = false.
Proof. eexists. split; vm_compute; reflexivity. Qed.

(** C7, as amended.  When the API key differs from each of the seven
    arguments before it, its argument is replaced by ["<api_key>"] before the
    command is rendered: the rendered text is the one spelled out below, the
    same for every such key, and this is the text of the debug record every
    call writes.  The key's text then shows in that record only where another
    argument or the placeholder contains it. *)
Theorem api_key_slot_masked (cdswctl_path host username api_key ca_path : string) :
  ~ In api_key [cdswctl_path; "login"; "-n"; username; "-u"; host; "-y"] ->
  rendered_command cdswctl_path host username api_key ca_path =
    "cdswctl login command: " ++
    join " " ([cdswctl_path; "login"; "-n"; username; "-u"; host; "-y"; "<api_key>"] ++
              (if String.eqb (lower ca_path) "false" then ["--insecure-skip-verify"] else []))
  /\
  (forall other_key : string,
     ~ In other_key [cdswctl_path; "login"; "-n"; username; "-u"; host; "-y"] ->
     rendered_command cdswctl_path host username other_key ca_path =
     rendered_command cdswctl_path host username api_key ca_path)
  /\
  (forall (E : environ) (w : world),
     logged DEBUG [Text (rendered_command cdswctl_path host username api_key ca_path)]
            (snd (cdswctl_login E cdswctl_path host username api_key ca_path w))).
Proof.
  intros Hnot. split; [| split].
  - unfold rendered_command. now rewrite masked_login_cmd.
  - intros other Hother. unfold rendered_command.
    now rewrite !masked_login_cmd.
  - intros E w. apply login_command_logged.
Qed.

(** C7 at work. *)
Lemma api_key_slot_masked_witness :
  rendered_command "/opt/cdswctl" "https://cml.example.com" "alice" "s3cr3t" "False" =
  "cdswctl login command: /opt/cdswctl login -n alice -u https://cml.example.com -y <api_key> --insecure-skip-verify".
Proof.
  refine (proj1 (api_key_slot_masked "/opt/cdswctl" "https://cml.example.com" "alice" "s3cr3t"
                   "False" _)).
  cbn [In]. intros [H | [H | [H | [H | [H | [H | [H | []]]]]]]]; discriminate H.
Defined.

(** C7 as stated fails: a key that occurs inside the user name is in the
    rendered command, where the user name is shown in full. *)
Lemma api_key_in_log_counterexample :
  let api_key := "4f2a9c" in
  let w' := snd (cdswctl_login (login_env 0 EmptyString)
                   "/opt/cdswctl" "https://cml.example.com" "svc-4f2a9c" api_key EmptyString
                   empty_world) in
  exists text : string,
    logged DEBUG [Text text] w' /\ contains api_key text = true.
Proof.
  eexists. split.
  - apply login_command_logged.
  - vm_compute. reflexivity.
Qed.

(** The placeholder goes to the first argument equal to the key: with a user
    name equal to the key, the user name is replaced and the key is shown. *)
Example first_equal_argument_masked :
  rendered_command "/opt/cdswctl" "https://cml.example.com" "hunter2" "hunter2" EmptyString =
  "cdswctl login command: /opt/cdswctl login -n <api_key> -u https://cml.example.com -y hunter2".
Proof. reflexivity. Qed.

End LoginFacts.

(* ===================================================================== *)
(** * Facts about the file tree and path strings *)
(* ===================================================================== *)

Module FsFacts.
Import Py Fs Obs PyFacts.

Lemma assoc_put_eq (k : string) (v : node) (es : entries_t) : assoc k (put k v es) = Some v.
Proof.
  induction es as [|[k' v'] es IH]; cbn.
  - now rewrite String.eqb_refl.
  - destruct (String.eqb k' k) eqn:Hk; cbn; [now rewrite String.eqb_refl | now rewrite Hk].
Qed.

Lemma assoc_put_ne (k k' : string) (v : node) (es : entries_t) :
  k <> k' -> assoc k' (put k v es) = assoc k' es.
Proof.
  intros Hne. induction es as [|[k0 v0] es IH]; cbn.
  - apply String.eqb_neq in Hne. now rewrite Hne.
  - destruct (String.eqb_spec k0 k) as [-> | Hk0]; cbn.
    + apply String.eqb_neq in Hne. now rewrite Hne.
    + now rewrite IH.
Qed.

Lemma assoc_del_eq (k : string) (es : entries_t) : assoc k (del k es) = None.
Proof.
  unfold del. induction es as [|[k' v'] es IH]; cbn; [reflexivity|].
  destruct (String.eqb k' k) eqn:Hk; cbn; [exact IH | now rewrite Hk].
Qed.

Lemma assoc_del_ne (k k' : string) (es : entries_t) :
  k <> k' -> assoc k' (del k es) = assoc k' es.
Proof.
  intros Hne. unfold del. induction es as [|[k0 v0] es IH]; cbn; [reflexivity|].
  destruct (String.eqb_spec k0 k) as [-> | Hk0]; cbn.
  - apply String.eqb_neq in Hne. now rewrite Hne.
  - now rewrite IH.
Qed.

Lemma lookup_app (p q : list string) (t : node) :
  lookup (p ++ q) t = match lookup p t with
                      | Some n => lookup q n
                      | None => None
                      end.
Proof.
  revert t. induction p as [|c p IH]; intros t; cbn; [reflexivity|].
  destruct t as [d | es]; [reflexivity|].
  destruct (assoc c es); [apply IH | reflexivity].
Qed.

Lemma lookup_snoc (p : list string) (c : string) (t : node) :
  lookup (p ++ [c]) t = match lookup p t with
                        | Some (Dir es) => assoc c es
                        | _ => None
                        end.
Proof.
  rewrite lookup_app. destruct (lookup p t) as [[d | es] |]; cbn; try reflexivity.
  destruct (assoc c es); reflexivity.
Qed.

Lemma lookup_graft (p : list string) (n : node) (t : node) :
  lookup p t <> None -> lookup p (graft p n t) = Some n.
Proof.
  revert t. induction p as [|c p IH]; intros t H; cbn in *; [reflexivity|].
  destruct t as [d | es]; [congruence|].
  destruct (assoc c es) as [ch|] eqn:Hc; [|congruence].
  cbn. rewrite assoc_put_eq. now apply IH.
Qed.

Lemma graft_app (p q : list string) (new : node) (t n : node) :
  lookup p t = Some n -> graft (p ++ q) new t = graft p (graft q new n) t.
Proof.
  revert t. induction p as [|c p IH]; intros t H; cbn in *.
  - now injection H as ->.
  - destruct t as [d | es]; [discriminate|].
    destruct (assoc c es) as [ch|]; [|discriminate].
    now rewrite (IH ch H).
Qed.

Lemma mkdirs_fresh (p : list string) (t t' : node) :
  lookup p t = None \/ lookup p t = Some (Dir []) ->
  mkdirs p t = Some t' -> lookup p t' = Some (Dir []).
Proof.
  revert t t'. induction p as [|c p IH]; intros t t' Hfresh Hmk.
  - cbn in *. destruct Hfresh as [H | H]; [discriminate|].
    injection H as ->. cbn in Hmk. now injection Hmk as <-.
  - destruct t as [d | es]; [discriminate|]. cbn in Hfresh, Hmk.
    destruct (mkdirs p match assoc c es with Some ch => ch | None => Dir [] end)
      as [ch'|] eqn:Hch; [|discriminate].
    injection Hmk as <-. cbn. rewrite assoc_put_eq.
    apply IH with (t := match assoc c es with Some ch => ch | None => Dir [] end);
      [| exact Hch].
    destruct (assoc c es) as [ch|]; [exact Hfresh|].
    destruct p; cbn; auto.
Qed.

(** An operation on the entry [name] of the directory at [ws]. *)
Lemma in_parent_child (ws : list string) (name : string)
    (g : string -> entries_t -> option entries_t) (t : node) (es : entries_t) :
  lookup ws t = Some (Dir es) ->
  in_parent (ws ++ [name]) g t =
  option_map (fun es' => graft ws (Dir es') t) (g name es).
Proof.
  intros H. unfold in_parent.
  destruct (ws ++ [name])%list as [|x l] eqn:Hl.
  - now apply app_eq_nil in Hl as [_ Hl].
  - rewrite <- Hl, removelast_last, last_last. unfold modify. rewrite H.
    destruct (g name es); reflexivity.
Qed.

(** The root and a directory that is not empty stay where they are. *)
Lemma rmdir_nonempty (ws : list string) (t : node) (e : string * node) (es : entries_t) :
  lookup ws t = Some (Dir (e :: es)) -> rmdir ws t = None.
Proof.
  intros H. destruct ws as [|c0 ws0]; [reflexivity|].
  destruct (@exists_last _ (c0 :: ws0)) as [p [c Hp]]; [discriminate|].
  rewrite Hp in *. rewrite lookup_snoc in H.
  destruct (lookup p t) as [[d | esp] |] eqn:Hlp; try discriminate.
  unfold rmdir. rewrite (in_parent_child p c _ t esp Hlp), H. reflexivity.
Qed.

Lemma prune_nonempty (k : nat) (ws : list string) (t : node) (e : string * node)
    (es : entries_t) :
  lookup ws t = Some (Dir (e :: es)) -> prune k ws t = t.
Proof.
  intros H. destruct k; cbn; [reflexivity|]. now rewrite (rmdir_nonempty ws t e es H).
Qed.

(** ** Path strings *)

Lemma split_nonempty (sep : ascii) (s : string) : split sep s <> [].
Proof.
  destruct s as [|c s]; cbn; [discriminate|].
  destruct (Ascii.eqb c sep); [discriminate|].
  destruct (split sep s); discriminate.
Qed.

Lemma split_app (sep : ascii) (a b : string) :
  split sep (a ++ String sep b) = (split sep a ++ split sep b)%list.
Proof.
  induction a as [|c a IH]; cbn.
  - now rewrite Ascii.eqb_refl.
  - destruct (Ascii.eqb c sep); [now rewrite IH|].
    rewrite IH. pose proof (split_nonempty sep a) as Hne.
    destruct (split sep a); [contradiction | reflexivity].
Qed.

Lemma split_plain (sep : ascii) (s : string) :
  forall_chars (fun c => negb (Ascii.eqb c sep)) s = true -> split sep s = [s].
Proof.
  induction s as [|c s IH]; cbn; [reflexivity|].
  intros H. apply andb_true_iff in H as [Hc Hs].
  apply negb_true_iff in Hc. now rewrite Hc, (IH Hs).
Qed.

Lemma is_name_spec (s : string) :
  is_name s = true ->
  s <> EmptyString /\ s <> "." /\ s <> ".." /\ split SLASH s = [s] /\ startswith "/" s = false.
Proof.
  unfold is_name. intros H.
  apply andb_true_iff in H as [H Hsl]. apply andb_true_iff in H as [H Hdd].
  apply andb_true_iff in H as [He Hd].
  apply negb_true_iff, String.eqb_neq in He, Hd, Hdd.
  repeat split; try assumption.
  - now apply split_plain.
  - destruct s as [|c s]; [congruence|]. cbn [forall_chars] in Hsl. cbn [startswith].
    apply andb_true_iff in Hsl as [Hc _]. apply negb_true_iff in Hc.
    rewrite Ascii.eqb_sym. fold SLASH. now rewrite Hc.
Qed.

Lemma components_name (s : string) : is_name s = true -> components s = [s].
Proof.
  intros H. destruct (is_name_spec s H) as (He & Hd & _ & Hs & _).
  unfold components. rewrite Hs. cbn.
  apply String.eqb_neq in He, Hd. now rewrite He, Hd.
Qed.

Lemma components_app (a b : string) :
  components (a ++ String SLASH b) = (components a ++ components b)%list.
Proof. unfold components. now rewrite split_app, filter_app. Qed.

Lemma endswith_char_app (c : ascii) (s : string) :
  endswith_char c s = true -> exists s', s = s' ++ String c EmptyString.
Proof.
  induction s as [|a s IH]; cbn; [discriminate|].
  destruct s as [|b s].
  - intros H. apply Ascii.eqb_eq in H as ->. now exists EmptyString.
  - intros H. destruct (IH H) as [s' Hs']. exists (String a s'). cbn. now rewrite <- Hs'.
Qed.

Lemma append_assoc (a b c : string) : (a ++ b) ++ c = a ++ (b ++ c).
Proof. induction a as [|x a IH]; cbn; [reflexivity | now rewrite IH]. Qed.

Lemma step_name (st : list string) (b : string) :
  is_name b = true -> step st b = (st ++ [b])%list.
Proof.
  intros H. destruct (is_name_spec b H) as (_ & _ & Hdd & _).
  unfold step. apply String.eqb_neq in Hdd. now rewrite Hdd.
Qed.

(** Joining a plain name to a path names the entry of that name in it. *)
Lemma resolve_join (w : world) (a b : string) :
  is_name b = true -> resolve w (os_path_join a b) = (resolve w a ++ [b])%list.
Proof.
  intros Hb. destruct (is_name_spec b Hb) as (Hne & _ & _ & _ & Hstart).
  unfold os_path_join. rewrite Hstart.
  destruct a as [|c a].
  - cbn [nonempty negb orb append]. unfold resolve, isabs. rewrite Hstart.
    rewrite (components_name b Hb). cbn. now apply step_name.
  - cbn [nonempty negb orb].
    destruct (endswith_char SLASH (String c a)) eqn:Hend.
    + destruct (endswith_char_app _ _ Hend) as [a' Ha']. rewrite Ha'.
      rewrite append_assoc. cbn [append].
      unfold resolve. rewrite !components_app, (components_name b Hb).
      replace (components EmptyString) with (@nil string) by reflexivity.
      rewrite app_nil_r, fold_left_app. cbn [fold_left].
      rewrite (step_name _ b Hb).
      replace (isabs (a' ++ String SLASH b)) with (isabs (a' ++ String SLASH EmptyString));
        [reflexivity|].
      destruct a'; reflexivity.
    + unfold resolve. change (String c a ++ "/" ++ b) with (String c a ++ String SLASH b).
      rewrite components_app, (components_name b Hb), fold_left_app. cbn [fold_left].
      rewrite (step_name _ b Hb). reflexivity.
Qed.

Lemma path_eqb_app (p a b : list string) : path_eqb (p ++ a) (p ++ b) = path_eqb a b.
Proof. induction p as [|c p IH]; cbn; [reflexivity | now rewrite String.eqb_refl]. Qed.

Lemma is_prefix_app (p a b : list string) : is_prefix (p ++ a) (p ++ b) = is_prefix a b.
Proof. induction p as [|c p IH]; cbn; [reflexivity | now rewrite String.eqb_refl]. Qed.

Lemma unlink_child (ws : list string) (name : string) (t : node) (es : entries_t)
    (dat : content) :
  lookup ws t = Some (Dir es) -> assoc name es = Some (File dat) ->
  unlink (ws ++ [name]) t = Some (graft ws (Dir (del name es)) t).
Proof.
  intros Hws Hn. unfold unlink. rewrite (in_parent_child ws name _ t es Hws), Hn. reflexivity.
Qed.

Lemma rmdir_child (ws : list string) (name : string) (t : node) (es : entries_t) :
  lookup ws t = Some (Dir es) ->
  rmdir (ws ++ [name]) t =
  match assoc name es with
  | Some (Dir []) => Some (graft ws (Dir (del name es)) t)
  | _ => None
  end.
Proof.
  intros Hws. unfold rmdir. rewrite (in_parent_child ws name _ t es Hws).
  destruct (assoc name es) as [[dat | [|e ds]] |]; reflexivity.
Qed.

(** Moving the file [x] out of the directory [d] into the directory that
    holds [d]. *)
Lemma rename_up (ws : list string) (d x : string) (t : node) (es ds : entries_t)
    (dat : content) :
  lookup ws t = Some (Dir es) ->
  assoc d es = Some (Dir ds) ->
  assoc x ds = Some (File dat) ->
  rename (ws ++ [d; x]) (ws ++ [x]) t =
  if String.eqb d x then None
  else match assoc x es with
       | Some (Dir _) => None
       | _ => Some (graft ws (Dir (put x (File dat) (put d (Dir (del x ds)) es)))
                      (graft ws (Dir (put d (Dir (del x ds)) es)) t))
       end.
Proof.
  intros Hws Hd Hx. unfold rename.
  rewrite lookup_app, Hws. cbn [lookup]. rewrite Hd, Hx.
  rewrite path_eqb_app, is_prefix_app. cbn [path_eqb is_prefix].
  rewrite !andb_false_r.
  rewrite lookup_snoc, Hws.
  destruct (String.eqb_spec d x) as [-> | Hne].
  - rewrite Hd. reflexivity.
  - assert (Hlast : lookup (ws ++ [d]) t = Some (Dir ds)) by now rewrite lookup_snoc, Hws.
    change (ws ++ [d; x])%list with (ws ++ ([d] ++ [x]))%list. rewrite app_assoc.
    rewrite (in_parent_child (ws ++ [d]) x _ t ds Hlast). cbn [option_map].
    rewrite (graft_app ws [d] _ t (Dir es) Hws). cbn [graft]. rewrite Hd.
    set (t1 := graft ws (Dir (put d (Dir (del x ds)) es)) t).
    assert (Hws1 : lookup ws t1 = Some (Dir (put d (Dir (del x ds)) es)))
      by (apply lookup_graft; congruence).
    rewrite (in_parent_child ws x _ t1 _ Hws1). cbn [option_map].
    destruct (assoc x es) as [[dat' | ds'] |]; reflexivity.
Qed.

(** ** Unpacking *)

Lemma unpack_dir (es : entries_t) (dst : option node) :
  unpack (Dir es) dst =
  match dst with
  | Some (File _) => None
  | Some (Dir ds) => option_map Dir (unpack_entries es ds)
  | None => option_map Dir (unpack_entries es [])
  end.
Proof.
  assert (H : forall ds,
    (fix go (es0 ds0 : entries_t) {struct es0} : option entries_t :=
       match es0 with
       | [] => Some ds0
       | (n, c) :: es' =>
           match unpack c (assoc n ds0) with
           | Some c' => go es' (put n c' ds0)
           | None => None
           end
       end) es ds = unpack_entries es ds).
  { induction es as [|[n c] es IH]; intros ds; cbn [unpack_entries]; [reflexivity|].
    destruct (unpack c (assoc n ds)); [apply IH | reflexivity]. }
  destruct dst as [[d | ds] |]; cbn [unpack]; [reflexivity | |]; now rewrite H.
Qed.

Lemma unpack_entries_other (n : string) (ms ds ds' : entries_t) :
  ~ In n (map fst ms) -> unpack_entries ms ds = Some ds' -> assoc n ds' = assoc n ds.
Proof.
  revert ds. induction ms as [|[n0 c0] ms IH]; intros ds Hn H; cbn in *.
  - now injection H as <-.
  - destruct (unpack c0 (assoc n0 ds)) as [c0'|]; [|discriminate].
    rewrite (IH _ (fun Hin => Hn (or_intror Hin)) H).
    apply assoc_put_ne. intros ->. apply Hn. now left.
Qed.

(** Every member of an archive whose member names are distinct is unpacked
    over what the directory held under its name. *)
Lemma unpack_entries_member (ms ds ds' : entries_t) :
  NoDup (map fst ms) -> unpack_entries ms ds = Some ds' ->
  forall n c, In (n, c) ms -> assoc n ds' = unpack c (assoc n ds).
Proof.
  revert ds. induction ms as [|[n0 c0] ms IH]; intros ds Hnd H n c Hin; cbn in *.
  - contradiction.
  - inversion Hnd as [|? ? Hfresh Hnd']; subst.
    destruct (unpack c0 (assoc n0 ds)) as [c0'|] eqn:Hc0; [|discriminate].
    destruct Hin as [[= -> ->] | Hin].
    + rewrite (unpack_entries_other n ms _ ds' Hfresh H), assoc_put_eq. now symmetry.
    + rewrite (IH _ Hnd' H n c Hin). f_equal. apply assoc_put_ne.
      intros ->. apply Hfresh. change n with (fst (n, c)). now apply in_map.
Qed.

Lemma path_eqb_refl (p : list string) : path_eqb p p = true.
Proof. induction p as [|c p IH]; cbn; [reflexivity | now rewrite String.eqb_refl]. Qed.

Lemma components_join (a b : string) :
  is_name b = true -> components (os_path_join a b) = (components a ++ [b])%list.
Proof.
  intros Hb. destruct (is_name_spec b Hb) as (_ & _ & _ & _ & Hstart).
  unfold os_path_join. rewrite Hstart.
  destruct a as [|c a];
    [cbn [nonempty negb orb append]; now rewrite components_name|].
  cbn [nonempty negb orb].
  destruct (endswith_char SLASH (String c a)) eqn:Hend.
  - destruct (endswith_char_app _ _ Hend) as [a' Ha']. rewrite Ha'.
    rewrite append_assoc. cbn [append].
    rewrite !components_app, (components_name b Hb).
    replace (components EmptyString) with (@nil string) by reflexivity.
    now rewrite app_nil_r.
  - change (String c a ++ "/" ++ b) with (String c a ++ String SLASH b).
    now rewrite components_app, (components_name b Hb).
Qed.

Lemma root_join (a b : string) :
  is_name b = true -> root (Path (os_path_join a b)) = root (Path a).
Proof.
  intros Hb. destruct (is_name_spec b Hb) as (Hne & _ & _ & _ & Hstart).
  destruct b as [|b0 b]; [congruence|].
  cbn -[Ascii.eqb] in Hstart. rewrite andb_true_r in Hstart.
  unfold os_path_join, Path, root, SLASH.
  destruct a as [|c0 [|c1 [|c2 a]]].
  - cbn -[Ascii.eqb]. now rewrite ?andb_true_r, ?Hstart.
  - cbn -[Ascii.eqb]. rewrite (Ascii.eqb_sym c0), ?andb_true_r, ?Hstart.
    destruct (Ascii.eqb "/" c0) eqn:H0; cbn -[Ascii.eqb];
      rewrite ?andb_true_r, ?H0, ?Hstart, ?andb_false_r; cbn; reflexivity.
  - cbn -[Ascii.eqb]. rewrite (Ascii.eqb_sym c1), ?andb_true_r, ?Hstart.
    destruct (Ascii.eqb "/" c0) eqn:H0, (Ascii.eqb "/" c1) eqn:H1; cbn -[Ascii.eqb];
      rewrite ?andb_true_r, ?H0, ?H1, ?Hstart, ?andb_false_r; cbn; reflexivity.
  - cbn -[Ascii.eqb]. rewrite ?andb_true_r, ?Hstart. cbn -[Ascii.eqb].
    destruct (match a with
              | EmptyString => Ascii.eqb c2 "/"
              | String _ _ => endswith_char "/" a
              end); cbn -[Ascii.eqb]; rewrite ?andb_true_r; reflexivity.
Qed.


End FsFacts.

(* ===================================================================== *)
(** * The installer *)
(* ===================================================================== *)

Module InstallFacts.
Import Py Subprocess Fs Cdswctl Obs Samples PyFacts FsFacts.

Lemma made_app (w w' : world) (l : list call) :
  calls w' = (calls w ++ l)%list -> made w w' = l.
Proof.
  intros H. unfold made. rewrite H.
  rewrite skipn_app, skipn_all, Nat.sub_diag. reflexivity.
Qed.

Lemma made_add_call (w w1 : world) (l : list call) (c : call) :
  calls w1 = (calls w ++ l)%list -> made w (add_call c w1) = (l ++ [c])%list.
Proof.
  intros H. apply made_app. cbn [calls add_call]. now rewrite H, <- app_assoc.
Qed.

Lemma made_add_call2 (w w1 : world) (l : list call) (c c' : call) :
  calls w1 = (calls w ++ l)%list ->
  made w (add_call c' (add_call c w1)) = (l ++ [c; c'])%list.
Proof.
  intros H. apply made_app. cbn [calls add_call]. now rewrite H, <- !app_assoc.
Qed.

Ltac step_fs :=
  unfold os_path_exists, os_makedirs, os_remove, os_listdir, os_rename, os_removedirs,
         tarfile_open, extractall, tf_close, fs_call, trace, ret, raise, bind;
  cbn [fst snd procs records calls fs cwd set_fs add_record add_call].

Lemma resolve_add_call (c : call) (w : world) (s : string) :
  resolve (add_call c w) s = resolve w s.
Proof. reflexivity. Qed.

Lemma resolve_set_fs (t : node) (w : world) (s : string) :
  resolve (set_fs t w) s = resolve w s.
Proof. reflexivity. Qed.

(** [_cdswctl_tmp_dir_path], step by step. *)
Lemma tmp_dir_run (E : environ) (w : world) :
  _cdswctl_tmp_dir_path E w =
  let path := workspace_path E in
  if exists_ (resolve w path) (fs w) then (Ok path, w)
  else match mkdirs (resolve w path) (fs w) with
       | Some t => (Ok path, set_fs t (add_call (CallMakedirs path) w))
       | None => (Raise (OSError "mkdir"), add_call (CallMakedirs path) w)
       end.
Proof.
  unfold _cdswctl_tmp_dir_path. fold (workspace_path E). step_fs.
  destruct (exists_ (resolve w (workspace_path E)) (fs w)) eqn:Hex; cbn [negb].
  - reflexivity.
  - rewrite !resolve_add_call, Hex. destruct (mkdirs _ _); reflexivity.
Qed.

(** [download_file], step by step. *)
Lemma download_run (E : environ) (url filepath ca_path : string) (w : world) :
  download_file E url filepath ca_path w =
  let c := CallDownload url filepath ca_path in
  match response E url ca_path with
  | None => (Raise TransportError, add_call c w)
  | Some body =>
      match write_file (resolve w filepath) body (fs w) with
      | Some t => (Ok tt, set_fs t (add_call c w))
      | None => (Raise (OSError "open"), add_call c w)
      end
  end.
Proof.
  unfold download_file. step_fs.
  destruct (response E url ca_path) as [body|]; [|reflexivity].
  step_fs. rewrite resolve_add_call.
  destruct (write_file _ _ _); reflexivity.
Qed.

Lemma write_file_lookup (p : list string) (body : content) (t t' : node) :
  write_file p body t = Some t' -> lookup p t' = Some (File body).
Proof.
  unfold write_file. intros H. destruct p as [|c0 p0]; [discriminate|].
  destruct (@exists_last _ (c0 :: p0)) as [q [name Hq]]; [discriminate|].
  rewrite Hq in *.
  destruct (lookup q t) as [[d | es] |] eqn:Hlq.
  - unfold in_parent in H. destruct (q ++ [name])%list eqn:Hl; [discriminate|].
    rewrite <- Hl, removelast_last in H. unfold modify in H. rewrite Hlq in H. discriminate.
  - rewrite (in_parent_child q name _ t es Hlq) in H.
    destruct (assoc name es) as [[d | ds] |]; cbn in H; try discriminate;
      injection H as <-; rewrite lookup_snoc, lookup_graft by congruence;
      apply assoc_put_eq.
  - unfold in_parent in H. destruct (q ++ [name])%list eqn:Hl; [discriminate|].
    rewrite <- Hl, removelast_last in H. unfold modify in H. rewrite Hlq in H. discriminate.
Qed.

(** [fetch_stage], step by step. *)
Lemma fetch_run (E : environ) (url ca_path : string) (w : world) :
  fetch_stage E url ca_path w =
  match _cdswctl_tmp_dir_path E w with
  | (Ok dir_path, w0) =>
      match download_file E url (os_path_join dir_path (archive_name url)) ca_path w0 with
      | (Ok _, w1) => (Ok dir_path, w1)
      | (Raise e, w1) => (Raise e, w1)
      end
  | (Raise e, w0) => (Raise e, w0)
  end.
Proof.
  unfold fetch_stage, bind, ret.
  destruct (_cdswctl_tmp_dir_path E w) as [[dir | e] w0]; [|reflexivity].
  destruct (download_file _ _ _ _ w0) as [[[] | e] w1]; reflexivity.
Qed.

(** The first two steps reach the operating system only to create the
    workspace and to download; what they return is the workspace path, and the
    archive is then where the download was told to put it. *)
Lemma fetch_stage_facts (E : environ) (url ca_path : string) (w : world) :
  let r := fetch_stage E url ca_path w in
  cwd (snd r) = cwd w /\
  (exists l, calls (snd r) = (calls w ++ l)%list /\
             forallb (fun c => negb (is_extraction c || is_removal c)) l = true) /\
  (forall d, fst r = Ok d ->
     d = workspace_path E /\
     exists body, response E url ca_path = Some body /\
                  lookup (resolve w (archive_path E url)) (fs (snd r)) = Some (File body)).
Proof.
  cbv zeta. rewrite fetch_run, tmp_dir_run. cbv zeta.
  fold (archive_path E url).
  assert (Hfinish : forall (w0 : world) (pre : list call),
            cwd w0 = cwd w -> calls w0 = (calls w ++ pre)%list ->
            forallb (fun c => negb (is_extraction c || is_removal c)) pre = true ->
            let r := match download_file E url (archive_path E url) ca_path w0 with
                     | (Ok _, w1) => (Ok (workspace_path E), w1)
                     | (Raise e, w1) => (Raise e, w1)
                     end in
            cwd (snd r) = cwd w /\
            (exists l, calls (snd r) = (calls w ++ l)%list /\
                       forallb (fun c => negb (is_extraction c || is_removal c)) l = true) /\
            (forall d, fst r = Ok d ->
               d = workspace_path E /\
               exists body, response E url ca_path = Some body /\
                 lookup (resolve w0 (archive_path E url)) (fs (snd r)) = Some (File body))).
  { intros w0 pre Hcwd Hcalls Hpre. cbv zeta. rewrite download_run. cbv zeta.
    assert (Hl : forall c, negb (is_extraction c || is_removal c) = true ->
              forallb (fun c => negb (is_extraction c || is_removal c)) (pre ++ [c]) = true).
    { intros c Hc. rewrite forallb_app, Hpre. cbn. now rewrite Hc. }
    destruct (response E url ca_path) as [body|].
    - destruct (write_file _ _ _) as [t|] eqn:Hw; cbn [fst snd cwd calls fs set_fs add_call].
      + split; [exact Hcwd|]. split.
        * eexists. split; [rewrite Hcalls, <- app_assoc; reflexivity | now apply Hl].
        * intros d [= <-]. split; [reflexivity|]. exists body. split; [reflexivity|].
          eapply write_file_lookup, Hw.
      + split; [exact Hcwd|]. split; [|discriminate].
        eexists. split; [rewrite Hcalls, <- app_assoc; reflexivity | now apply Hl].
    - cbn [fst snd cwd calls fs set_fs add_call].
      split; [exact Hcwd|]. split; [|discriminate].
      eexists. split; [rewrite Hcalls, <- app_assoc; reflexivity | now apply Hl]. }
  destruct (exists_ (resolve w (workspace_path E)) (fs w)).
  - apply (Hfinish w []); [reflexivity | now rewrite app_nil_r | reflexivity].
  - destruct (mkdirs _ _) as [t0|].
    + apply (Hfinish (set_fs t0 (add_call (CallMakedirs (workspace_path E)) w))
                     [CallMakedirs (workspace_path E)]); reflexivity.
    + cbn [fst snd cwd calls fs set_fs add_call].
      split; [reflexivity|]. split; [|discriminate].
      eexists. split; reflexivity.
Qed.

(** [_download_and_extract] is its three parts in a row. *)
Lemma download_and_extract_stages (E : environ) (url ca_path : string) (w : world) :
  _download_and_extract E url ca_path w =
  match fetch_stage E url ca_path w with
  | (Ok _, w1) =>
      if validated E then
        match extract_stage E url w1 with
        | (Ok _, w2) => install_stage (workspace_path E) (archive_path E url) w2
        | (Raise e, w2) => (Raise e, w2)
        end
      else (Raise (RuntimeError "path for cdswctl could not be validated."), w1)
  | (Raise e, w1) => (Raise e, w1)
  end.
Proof.
  rewrite fetch_run. unfold _download_and_extract. fold (archive_name url).
  unfold bind at 1. rewrite tmp_dir_run. cbv zeta.
  destruct (exists_ (resolve w (workspace_path E)) (fs w)).
  - unfold bind at 1. fold (archive_path E url).
    destruct (download_file _ _ _ _ w) as [[[] | e] w1]; [|reflexivity].
    unfold bind at 1. fold (validated E).
    destruct (validated E); [|reflexivity].
    unfold extract_stage.
    destruct ((tf <- tarfile_open (archive_path E url) ;;
               extractall tf (workspace_path E) ;; tf_close tf) w1)
      as [[[] | e] w2]; reflexivity.
  - destruct (mkdirs _ _) as [t0|]; [|reflexivity].
    unfold bind at 1. fold (archive_path E url).
    destruct (download_file _ _ _ _ _) as [[[] | e] w1]; [|reflexivity].
    unfold bind at 1. fold (validated E).
    destruct (validated E); [|reflexivity].
    unfold extract_stage.
    destruct ((tf <- tarfile_open (archive_path E url) ;;
               extractall tf (workspace_path E) ;; tf_close tf) w1)
      as [[[] | e] w2]; reflexivity.
Qed.


Lemma filter_benign (l : list call) :
  forallb (fun c => negb (is_extraction c || is_removal c)) l = true ->
  filter is_extraction l = [] /\ filter is_removal l = [].
Proof.
  induction l as [|c l IH]; cbn; [auto|].
  intros H. apply andb_true_iff in H as [Hc Hl].
  apply negb_true_iff, orb_false_iff in Hc as [He Hr].
  rewrite He, Hr. now apply IH.
Qed.

(** [extract_stage], step by step. *)
Lemma extract_run (E : environ) (url : string) (w : world) :
  extract_stage E url w =
  let opened := add_call (CallTarOpen (archive_path E url)) w in
  match lookup (resolve w (archive_path E url)) (fs w) with
  | Some (File (TarArchive ms)) =>
      let called := add_call (CallExtractAll (workspace_path E)) opened in
      match extract ms (resolve w (workspace_path E)) (fs w) with
      | Some t => (Ok tt, set_fs t called)
      | None => (Raise (OSError "extractall"), called)
      end
  | Some (File _) => (Raise ReadError, opened)
  | _ => (Raise (OSError "open"), opened)
  end.
Proof.
  unfold extract_stage. step_fs. rewrite !resolve_add_call.
  destruct (lookup (resolve w (archive_path E url)) (fs w)) as [[[b | ms | ms] | es] |];
    try reflexivity;
    step_fs; rewrite ?resolve_add_call; destruct (extract ms _ _); reflexivity.
Qed.













(** C9, as amended.  The archive is deleted only after validation and
    extraction have succeeded.  After a path-validation failure no deletion is
    attempted and the downloaded archive stays where the download put it;
    likewise no deletion is attempted when the download itself fails or when
    opening or extracting the archive raises: the function raises at once. *)
Theorem deletion_skipped_on_failure (E : environ) (url ca_path : string) (w : world) :
  let r := _download_and_extract E url ca_path w in
  let f := fetch_stage E url ca_path w in
  (validated E = false ->
     filter is_removal (made w (snd r)) = [] /\
     (forall d, fst f = Ok d ->
        exists body, response E url ca_path = Some body /\
          lookup (resolve w (archive_path E url)) (fs (snd r)) = Some (File body)))
  /\
  (forall e, fst f = Raise e ->
     fst r = Raise e /\ filter is_removal (made w (snd r)) = [])
  /\
  (forall d e, fst f = Ok d -> validated E = true ->
     fst (extract_stage E url (snd f)) = Raise e ->
     fst r = Raise e /\ filter is_removal (made w (snd r)) = []).
Proof.
  cbv zeta. rewrite download_and_extract_stages.
  destruct (fetch_stage_facts E url ca_path w) as (_ & (l & Hcalls & Hl) & Hok).
  cbv zeta in Hcalls, Hok. apply filter_benign in Hl as [_ Hl].
  destruct (fetch_stage E url ca_path w) as [[d | e] w1]; cbn [fst snd] in *.
  - split; [| split].
    + intros Hv. rewrite Hv. cbn [fst snd]. rewrite (made_app w w1 l Hcalls).
      split; [exact Hl|]. intros d' _. destruct (Hok d eq_refl) as (_ & body & Hb & Hlk).
      now exists body.
    + discriminate.
    + intros d' e _ Hv Hex. rewrite Hv.
      rewrite extract_run in Hex |- *. cbv zeta in Hex |- *.
      destruct (lookup (resolve w1 (archive_path E url)) (fs w1))
        as [[[b | ms | ms] | es] |]; cbn [fst snd] in Hex |- *;
        try (split; [now injection Hex as <- |];
             rewrite (made_add_call w w1 l _ Hcalls), filter_app, Hl; reflexivity).
      destruct (extract ms _ _); cbn [fst snd] in Hex |- *; [discriminate|].
      split; [now injection Hex as <- |].
      rewrite (made_add_call2 w w1 l _ _ Hcalls), filter_app, Hl. reflexivity.
  - split; [| split].
    + intros _. rewrite (made_app w w1 l Hcalls). split; [exact Hl | discriminate].
    + intros e' [= <-]. rewrite (made_app w w1 l Hcalls). split; [reflexivity | exact Hl].
    + discriminate.
Qed.

(** C9 at work, with a workspace path that escapes the root. *)
Lemma deletion_skipped_on_failure_witness :
  let r := _download_and_extract escaping_env linux_url EmptyString empty_world in
  filter is_removal (made empty_world (snd r)) = [] /\
  lookup ["srv"; "www"; "cdsw.tar.gz"] (fs (snd r)) = Some (File (TarArchive cdsw_tree)).
Proof.
  destruct (deletion_skipped_on_failure escaping_env linux_url EmptyString empty_world)
    as (Hv & _ & _).
  destruct (Hv eq_refl) as [Hcalls Hkeep].
  split; [exact Hcalls|].
  destruct (Hkeep _ eq_refl) as (body & Hbody & Hlk).
  injection Hbody as <-. exact Hlk.
Defined.

(** C9 as stated fails: after the validation failure the only calls made are
    the creation of the directory and the download; no removal is attempted
    and the archive is still there. *)
Lemma deletion_counterexample :
  let r := _download_and_extract escaping_env linux_url EmptyString empty_world in
  fst r = Raise (RuntimeError "path for cdswctl could not be validated.") /\
  made empty_world (snd r) =
    [CallMakedirs "/srv/www"; CallDownload linux_url "/srv/www/cdsw.tar.gz" EmptyString] /\
  lookup ["srv"; "www"; "cdsw.tar.gz"] (fs (snd r)) = Some (File (TarArchive cdsw_tree)).
Proof. vm_compute. repeat split. Qed.

Lemma resolve_cwd (w w' : world) (s : string) : cwd w' = cwd w -> resolve w' s = resolve w s.
Proof. intros H. unfold resolve. now rewrite H. Qed.





(** The first two steps on a fresh workspace: either the archive is left
    alone in it, or the directory could not be made or the download failed. *)
Lemma fetch_fresh (E : environ) (url ca_path : string) (w w1 : world) (r : result string) :
  fresh_workspace E w ->
  is_name (archive_name url) = true ->
  fetch_stage E url ca_path w = (r, w1) ->
  (r = Ok (workspace_path E) /\
   exists body,
     response E url ca_path = Some body /\
     holds w1 (resolve w (workspace_path E)) [(archive_name url, File body)] /\
     cwd w1 = cwd w)
  \/
  ((exists e, r = Raise e) /\
   (mkdirs (resolve w (workspace_path E)) (fs w) = None \/ response E url ca_path = None)).
Proof.
  intros Hfresh Hname H. rewrite fetch_run, tmp_dir_run in H. cbv zeta in H.
  fold (archive_path E url) in H.
  set (ws := resolve w (workspace_path E)) in *.
  assert (Hdl : forall w0, cwd w0 = cwd w -> lookup ws (fs w0) = Some (Dir []) ->
            match download_file E url (archive_path E url) ca_path w0 with
            | (Ok _, w1') => (Ok (workspace_path E), w1')
            | (Raise e, w1') => (Raise e, w1')
            end = (r, w1) ->
            (r = Ok (workspace_path E) /\
             exists body, response E url ca_path = Some body /\
               holds w1 ws [(archive_name url, File body)] /\ cwd w1 = cwd w)
            \/
            ((exists e, r = Raise e) /\
             (mkdirs ws (fs w) = None \/ response E url ca_path = None))).
  { intros w0 Hcwd Hws Hrun. rewrite download_run in Hrun. cbv zeta in Hrun.
    destruct (response E url ca_path) as [body|].
    - left. unfold archive_path in Hrun. rewrite (resolve_join w0 _ _ Hname) in Hrun.
      rewrite (resolve_cwd w w0 _ Hcwd) in Hrun. fold ws in Hrun.
      unfold write_file in Hrun.
      rewrite (in_parent_child ws (archive_name url) _ (fs w0) [] Hws) in Hrun.
      cbn in Hrun. injection Hrun as <- <-. split; [reflexivity|].
      exists body. split; [reflexivity|]. split; [|exact Hcwd].
      unfold holds. cbn [fs set_fs]. apply lookup_graft. congruence.
    - right. injection Hrun as <- _. split; [eauto | now right]. }
  unfold exists_ in H. destruct Hfresh as [Hnone | Hempty]; fold ws in Hnone || fold ws in Hempty.
  - rewrite Hnone in H.
    destruct (mkdirs ws (fs w)) as [t0|] eqn:Hmk.
    + apply (Hdl (set_fs t0 (add_call (CallMakedirs (workspace_path E)) w)) eq_refl);
        [|exact H].
      cbn [fs set_fs]. eapply mkdirs_fresh; [left; exact Hnone | exact Hmk].
    + right. injection H as <- _. split; [eauto | now left].
  - rewrite Hempty in H. now apply (Hdl w eq_refl).
Qed.

Lemma is_name_cdswctl : is_name "cdswctl" = true.
Proof. reflexivity. Qed.

(** The steps after the extraction, on a workspace that holds the archive and
    the one unpacked directory: they succeed exactly when that directory is
    not itself named [cdswctl] and holds nothing but the file [cdswctl]. *)
Lemma install_stage_run (dir_path file_path : string) (w2 w' : world)
    (ws : list string) (fn d : string) (body : content) (es' : entries_t)
    (b : string) (r : result string) :
  resolve w2 dir_path = ws ->
  resolve w2 file_path = (ws ++ [fn])%list ->
  is_name d = true ->
  fn <> d ->
  holds w2 ws [(fn, File body); (d, Dir es')] ->
  assoc "cdswctl" es' = Some (File (Bytes b)) ->
  install_stage dir_path file_path w2 = (r, w') ->
  (r = Ok (os_path_join dir_path "cdswctl") /\
   d <> "cdswctl" /\
   del "cdswctl" es' = [] /\
   holds w' ws [("cdswctl", File (Bytes b))] /\
   cwd w' = cwd w2)
  \/
  ((exists e, r = Raise e) /\ (d = "cdswctl" \/ del "cdswctl" es' <> [])).
Proof.
  intros Hdir Hfile Hd Hne Hws Hbin H.
  unfold holds in Hws. unfold install_stage in H.
  unfold os_remove, os_listdir, os_rename, os_removedirs, first, listdir, fs_call,
         trace, ret, raise, bind in H.
  cbn [fst snd fs cwd calls set_fs add_call] in H.
  (* os.remove(file_path) *)
  rewrite resolve_add_call, Hfile in H.
  rewrite (unlink_child ws fn (fs w2) _ body Hws) in H
    by (cbn [assoc]; now rewrite String.eqb_refl).
  cbn [del filter fst negb] in H. rewrite String.eqb_refl in H.
  assert (Hdf : String.eqb d fn = false) by (apply String.eqb_neq; congruence).
  rewrite Hdf in H. cbn [negb fs set_fs add_call] in H.
  set (t3 := graft ws (Dir [(d, Dir es')]) (fs w2)) in H.
  assert (Hws3 : lookup ws t3 = Some (Dir [(d, Dir es')]))
    by (apply lookup_graft; congruence).
  (* os.listdir(dir_path)[0] *)
  repeat rewrite ?resolve_add_call, ?resolve_set_fs in H.
  rewrite Hdir, Hws3 in H. cbn [map fst fs set_fs add_call] in H.
  (* os.rename(old_file_path, new_file_path) *)
  repeat rewrite ?resolve_add_call, ?resolve_set_fs in H.
  rewrite !resolve_join, Hdir in H by (exact Hd || exact is_name_cdswctl).
  rewrite <- app_assoc in H. cbn [app] in H.
  assert (Hdd : assoc d [(d, Dir es')] = Some (Dir es'))
    by (cbn [assoc]; now rewrite String.eqb_refl).
  rewrite (rename_up ws d "cdswctl" t3 _ es' (Bytes b) Hws3 Hdd Hbin) in H.
  destruct (String.eqb_spec d "cdswctl") as [Heq | Hdc].
  { right. injection H as <- _. split; [eauto | now left]. }
  assert (Hdc' : String.eqb d "cdswctl" = false) by now apply String.eqb_neq.
  cbn [assoc put] in H. rewrite Hdc', String.eqb_refl in H.
  cbn [fs set_fs add_call put] in H. rewrite Hdc' in H. cbn [put] in H.
  set (t4 := graft ws (Dir [(d, Dir (del "cdswctl" es')); ("cdswctl", File (Bytes b))])
               (graft ws (Dir [(d, Dir (del "cdswctl" es'))]) t3)) in H.
  assert (Hws4 : lookup ws t4 =
                 Some (Dir [(d, Dir (del "cdswctl" es')); ("cdswctl", File (Bytes b))])).
  { apply lookup_graft. rewrite lookup_graft; congruence. }
  (* os.removedirs(os.path.join(dir_path, cdswctldir)) *)
  repeat rewrite ?resolve_add_call, ?resolve_set_fs in H.
  rewrite resolve_join, Hdir in H by exact Hd.
  unfold removedirs in H. rewrite (rmdir_child ws d t4 _ Hws4) in H.
  cbn [assoc] in H. rewrite String.eqb_refl in H.
  destruct (del "cdswctl" es') as [|e0 rest] eqn:Hdel.
  2:{ right. injection H as <- _. split; [eauto | right; discriminate]. }
  rewrite removelast_last in H.
  cbn [del filter fst negb] in H. rewrite String.eqb_refl in H.
  assert (Hcd : String.eqb "cdswctl" d = false) by (rewrite String.eqb_sym; exact Hdc').
  rewrite Hcd in H. cbn [negb] in H.
  set (t5 := graft ws (Dir [("cdswctl", File (Bytes b))]) t4) in H.
  assert (Hws5 : lookup ws t5 = Some (Dir [("cdswctl", File (Bytes b))]))
    by (apply lookup_graft; congruence).
  rewrite (prune_nonempty _ ws t5 _ _ Hws5) in H.
  injection H as <- <-. left.
  split; [reflexivity|]. split; [exact Hdc|]. split; [reflexivity|].
  split; [exact Hws5 | reflexivity].
Qed.

(** How an install on a fresh workspace ends when the server sends a tar
    archive with one top-level directory [d] that holds a file [cdswctl]. *)
Lemma install_outcome (E : environ) (url ca_path : string) (w w' : world)
    (d : string) (es : entries_t) (b : string) (r : result string) :
  fresh_workspace E w ->
  is_name (archive_name url) = true ->
  is_name d = true ->
  response E url ca_path = Some (TarArchive [(d, Dir es)]) ->
  NoDup (map fst es) ->
  In ("cdswctl", File (Bytes b)) es ->
  _download_and_extract E url ca_path w = (r, w') ->
  (r = Ok (os_path_join (workspace_path E) "cdswctl") /\
   d <> "cdswctl" /\
   holds w' (resolve w (workspace_path E)) [("cdswctl", File (Bytes b))] /\
   cwd w' = cwd w)
  \/
  ((exists e, r = Raise e) /\
   (mkdirs (resolve w (workspace_path E)) (fs w) = None \/
    validated E = false \/
    d = archive_name url \/
    d = "cdswctl" \/
    forall es', unpack_entries es [] = Some es' -> del "cdswctl" es' <> [])).
Proof.
  intros Hfresh Hname Hd Hbody Hnd Hin H.
  rewrite download_and_extract_stages in H.
  destruct (fetch_stage E url ca_path w) as [r1 w1] eqn:Hfetch.
  destruct (fetch_fresh E url ca_path w w1 r1 Hfresh Hname Hfetch)
    as [(-> & body & Hbody' & Hws1 & Hcwd1) | ([e ->] & [Hmk | Hresp])].
  2:{ right. injection H as <- _. split; [eauto | now left]. }
  2:{ congruence. }
  rewrite Hbody in Hbody'. injection Hbody' as <-.
  destruct (validated E).
  2:{ right. injection H as <- _. split; [eauto | auto]. }
  set (ws := resolve w (workspace_path E)) in *.
  set (fn := archive_name url) in *.
  set (arch := TarArchive [(d, Dir es)]) in *.
  unfold holds in Hws1.
  (* the extraction *)
  rewrite extract_run in H. cbv zeta in H.
  unfold archive_path in H at 1. rewrite (resolve_join w1 _ _ Hname) in H.
  rewrite !(resolve_cwd w w1) in H by exact Hcwd1. fold ws fn in H.
  rewrite lookup_snoc, Hws1 in H. cbn [assoc] in H. rewrite String.eqb_refl in H.
  unfold arch in H at 1.
  unfold extract, modify in H. rewrite Hws1 in H. cbn [unpack_entries assoc] in H.
  destruct (String.eqb_spec fn d) as [Heq | Hne].
  { right. rewrite unpack_dir in H. injection H as <- _. split; [eauto | auto]. }
  rewrite unpack_dir in H.
  destruct (unpack_entries es []) as [es'|] eqn:Hun.
  2:{ right. injection H as <- _. split; [eauto |]. do 4 right. discriminate. }
  cbn [option_map put] in H.
  assert (Hfd : String.eqb fn d = false) by now apply String.eqb_neq.
  rewrite Hfd in H. cbn [put] in H.
  set (w2 := set_fs _ _) in H.
  assert (Hbin : assoc "cdswctl" es' = Some (File (Bytes b))).
  { rewrite (unpack_entries_member es [] es' Hnd Hun _ _ Hin). reflexivity. }
  assert (Hws2 : holds w2 ws [(fn, File arch); (d, Dir es')])
    by (unfold holds, w2; cbn [fs set_fs]; apply lookup_graft; congruence).
  assert (Hcwd2 : cwd w2 = cwd w) by exact Hcwd1.
  destruct (install_stage_run (workspace_path E) (archive_path E url) w2 w' ws fn d arch
              es' b r) as [(-> & Hdc & Hdel & Hws' & Hcwd') | (Hraise & Hwhy)];
    try assumption.
  { now apply resolve_cwd. }
  { unfold archive_path. rewrite (resolve_join w2 _ _ Hname).
    now rewrite (resolve_cwd w w2 _ Hcwd2). }
  - left. split; [reflexivity|]. split; [exact Hdc|]. split; [exact Hws' | congruence].
  - right. split; [exact Hraise|]. destruct Hwhy as [Hdc | Hdel]; [auto|].
    do 4 right. intros es0 [= <-]. exact Hdel.
Qed.

(** C5.  Let the workspace be fresh and the server send a tar archive whose
    only top-level entry is a directory [d] that holds a file [cdswctl].  Then a
    successful install returns the path [<root>/<token>/cdswctl], the binary is
    at that path, the workspace directory lists [cdswctl] and nothing else, the
    top-level directory [d] is gone and the archive file is no longer there. *)
Theorem install_relocates_binary (E : environ) (url ca_path : string) (w w' : world)
    (d : string) (es : entries_t) (b p : string) :
  fresh_workspace E w ->
  is_name (archive_name url) = true ->
  is_name d = true ->
  response E url ca_path = Some (TarArchive [(d, Dir es)]) ->
  NoDup (map fst es) ->
  In ("cdswctl", File (Bytes b)) es ->
  _download_and_extract E url ca_path w = (Ok p, w') ->
  p = os_path_join (workspace_path E) "cdswctl" /\
  lookup (resolve w' p) (fs w') = Some (File (Bytes b)) /\
  listdir (resolve w' (workspace_path E)) (fs w') = Some ["cdswctl"] /\
  lookup (resolve w' (os_path_join (workspace_path E) d)) (fs w') = None /\
  (forall ms, lookup (resolve w' (archive_path E url)) (fs w') <> Some (File (TarArchive ms))).
Proof.
  intros Hfresh Hname Hd Hbody Hnd Hin H.
  destruct (install_outcome E url ca_path w w' d es b (Ok p) Hfresh Hname Hd Hbody Hnd Hin H)
    as [(Hp & Hdc & Hws' & Hcw) | ([e He] & _)]; [|discriminate].
  injection Hp as ->. split; [reflexivity|].
  unfold holds in Hws'.
  rewrite (resolve_join w' _ _ is_name_cdswctl), (resolve_join w' _ _ Hd).
  unfold archive_path. rewrite (resolve_join w' _ _ Hname).
  rewrite !(resolve_cwd w w') by exact Hcw.
  rewrite !lookup_snoc. unfold listdir. rewrite Hws'. cbn [assoc map fst].
  apply String.eqb_neq in Hdc. rewrite String.eqb_sym in Hdc. rewrite Hdc.
  repeat split.
  intros ms. destruct (String.eqb "cdswctl" (archive_name url)); discriminate.
Qed.

(** C5 at work. *)
Lemma install_relocates_binary_witness :
  let r := _download_and_extract linux_env linux_url EmptyString empty_world in
  fst r = Ok "/home/cdsw/.cmlutils/9f1c2ab34d/cdswctl" /\
  lookup ["home"; "cdsw"; ".cmlutils"; "9f1c2ab34d"; "cdswctl"] (fs (snd r))
    = Some (File (Bytes "ELF")) /\
  listdir ["home"; "cdsw"; ".cmlutils"; "9f1c2ab34d"] (fs (snd r)) = Some ["cdswctl"].
Proof.
  cbv zeta.
  destruct (install_relocates_binary linux_env linux_url EmptyString empty_world
              (snd (_download_and_extract linux_env linux_url EmptyString empty_world))
              "cdsw" [("cdswctl", File (Bytes "ELF"))] "ELF"
              "/home/cdsw/.cmlutils/9f1c2ab34d/cdswctl")
    as (_ & Hbin & Hls & _).
  - left. reflexivity.
  - reflexivity.
  - reflexivity.
  - reflexivity.
  - repeat constructor. intros [].
  - left. reflexivity.
  - vm_compute. reflexivity.
  - split; [vm_compute; reflexivity |]. split; [exact Hbin | exact Hls].
Defined.

(** With the layout contract met in full (the directory holds the file and
    nothing else, and its name clashes with nothing) the install succeeds. *)
Lemma install_succeeds (E : environ) (url ca_path : string) (w : world) (d b : string) :
  fresh_workspace E w ->
  mkdirs (resolve w (workspace_path E)) (fs w) <> None ->
  validated E = true ->
  is_name (archive_name url) = true ->
  is_name d = true ->
  d <> archive_name url ->
  d <> "cdswctl" ->
  response E url ca_path = Some (TarArchive [(d, Dir [("cdswctl", File (Bytes b))])]) ->
  fst (_download_and_extract E url ca_path w) = Ok (os_path_join (workspace_path E) "cdswctl").
Proof.
  intros Hfresh Hmk Hv Hname Hd Hdn Hdc Hbody.
  destruct (_download_and_extract E url ca_path w) as [r w'] eqn:H.
  destruct (install_outcome E url ca_path w w' d _ b r Hfresh Hname Hd Hbody)
    as [(-> & _) | (_ & [Hc | [Hc | [Hc | [Hc | Hc]]]])]; try congruence; try reflexivity.
  - repeat constructor. intros [].
  - now left.
  - exfalso. now apply (Hc [("cdswctl", File (Bytes b))]).
Qed.

(** With a token that is a plain name, as the first ten hexadecimal digits of
    a uuid are, the workspace is always found under the root: the validation
    can only fail when the token is something else. *)
Lemma validated_plain_token (E : environ) :
  is_name (prefix_slice 10 (uuid1_hex E)) = true -> validated E = true.
Proof.
  intros Ht. unfold validated, workspace_path, path_in.
  apply existsb_exists.
  exists {| root := root (Path (BASE_PATH_CDSWCTL E));
            parts := parts (Path (BASE_PATH_CDSWCTL E)) |}.
  split.
  - unfold parents. rewrite (root_join _ _ Ht).
    cbn [parts Path]. rewrite (components_join _ _ Ht).
    set (cs := components (BASE_PATH_CDSWCTL E)).
    apply in_map_iff. exists (length cs). split.
    + f_equal. rewrite firstn_app, Nat.sub_diag, firstn_all. cbn. apply app_nil_r.
    + apply in_rev. rewrite rev_involutive. apply in_seq. rewrite length_app. cbn. lia.
  - unfold PurePath_eqb. cbn [root parts]. now rewrite String.eqb_refl, path_eqb_refl.
Qed.

End InstallFacts.

(* ===================================================================== *)
(** * The tunnel: effects, and what decides the result *)
(* ===================================================================== *)

Module SshEdges.
Import Py Subprocess Ssh Obs ObsExt Samples PyFacts SshFacts.

(** The value [open_ssh_endpoint] returns is decided by the first line alone. *)
Lemma open_ssh_endpoint_result (E : environ)
    (cdswctl_path project_name : string) (runtime_id : Z) (project_slug : string)
    (w : world) (p : process) :
  Popen E (ssh_command cdswctl_path runtime_id project_slug) = Ok p ->
  fst (open_ssh_endpoint E cdswctl_path project_name runtime_id project_slug w)
  = banner_result (banner p) (length (procs w)).
Proof.
  intros Hp.
  pose proof (open_ssh_endpoint_outcome E cdswctl_path project_name runtime_id project_slug w)
    as H. cbv zeta in H.
  destruct (open_ssh_endpoint E cdswctl_path project_name runtime_id project_slug w)
    as [res w']. cbn [fst snd] in *. unfold banner_result.
  destruct H as [ e w' Hp' Hprocs
                | q w' Hp' Hb Hprocs Hlast
                | q w' Hp' Hb Hbad Hprocs Hlog
                | q f w' Hp' Hb Hnth' Hdig' Hint' Hprocs
                | q f port w' Hp' Hb Hnth' Hdig' Hint' Hprocs ];
    try congruence;
    (assert (q = p) by congruence; subst q).
  - rewrite Hb. reflexivity.
  - apply String.eqb_neq in Hb. rewrite Hb. cbv zeta.
    assert (Ht : (length (fields (banner p)) <=? 3)%nat ||
                 negb (isdigit (nth 3 (fields (banner p)) EmptyString)) = true).
    { destruct Hbad as [Hl | Hd].
      - apply Nat.leb_le in Hl. now rewrite Hl.
      - rewrite Hd. apply orb_true_r. }
    now rewrite Ht.
  - apply String.eqb_neq in Hb. rewrite Hb. cbv zeta.
    destruct (nth_default_error _ _ _ Hnth') as [Hn Hl].
    apply Nat.leb_gt in Hl. rewrite Hl, Hn, Hdig', Hint'. reflexivity.
  - apply String.eqb_neq in Hb. rewrite Hb. cbv zeta.
    destruct (nth_default_error _ _ _ Hnth') as [Hn Hl].
    apply Nat.leb_gt in Hl. rewrite Hl, Hn, Hdig', Hint'. reflexivity.
Qed.



Lemma rstrip_app_blank (s t : string) :
  forall_chars isspace t = true -> rstrip (s ++ t) = rstrip s.
Proof.
  intros Ht. induction s as [|c s IH]; cbn [append rstrip].
  - now apply rstrip_blank.
  - now rewrite IH.
Qed.

Lemma readline_whole (s : string) :
  forall_chars (fun c => negb (Ascii.eqb c LF)) s = true -> readline s = (s, EmptyString).
Proof.
  induction s as [|c s IH]; cbn [readline forall_chars]; [reflexivity|].
  intros H. apply andb_true_iff in H as [Hc Hs]. apply negb_true_iff in Hc.
  now rewrite Hc, (IH Hs).
Qed.

Lemma readline_line (s rest : string) :
  forall_chars (fun c => negb (Ascii.eqb c LF)) s = true ->
  readline (s ++ String LF rest) = (s ++ String LF EmptyString, rest).
Proof.
  induction s as [|c s IH]; cbn [readline forall_chars append].
  - intros _. now rewrite Ascii.eqb_refl.
  - intros H. apply andb_true_iff in H as [Hc Hs]. apply negb_true_iff in Hc.
    now rewrite Hc, (IH Hs).
Qed.


(** X2.  Among children whose two pipes carry text, which is what a [process]
    holds (a pipe whose bytes do not decode is outside it), the first line of
    standard output alone decides what [open_ssh_endpoint] returns or raises:
    two such children that start and whose first lines are equal give the same
    result, whatever text follows on standard output or stands on standard
    error. *)
Theorem result_decided_by_first_line (E E' : environ)
    (cdswctl_path project_name : string) (runtime_id : Z) (project_slug : string)
    (w : world) (p p' : process) :
  Popen E (ssh_command cdswctl_path runtime_id project_slug) = Ok p ->
  Popen E' (ssh_command cdswctl_path runtime_id project_slug) = Ok p' ->
  fst (readline (stdout p)) = fst (readline (stdout p')) ->
  fst (open_ssh_endpoint E cdswctl_path project_name runtime_id project_slug w) =
  fst (open_ssh_endpoint E' cdswctl_path project_name runtime_id project_slug w).
Proof.
  intros Hp Hp' Hb.
  rewrite (open_ssh_endpoint_result E _ _ _ _ w p Hp),
          (open_ssh_endpoint_result E' _ _ _ _ w p' Hp').
  unfold banner. now rewrite Hb.
Qed.

(** X2 at work: a second line and some standard error change nothing. *)
Lemma result_decided_by_first_line_witness :
  fst (open_ssh_endpoint
         (tunnel_env ("forwarding on port 2222" ++ nl ++ "ready" ++ nl) "debug: connected")
         "/opt/cdswctl" "demo" 3 "demo-slug" empty_world) =
  fst (open_ssh_endpoint (tunnel_env ("forwarding on port 2222" ++ nl) EmptyString)
         "/opt/cdswctl" "demo" 3 "demo-slug" empty_world).
Proof.
  refine (result_decided_by_first_line
            (tunnel_env ("forwarding on port 2222" ++ nl ++ "ready" ++ nl) "debug: connected")
            (tunnel_env ("forwarding on port 2222" ++ nl) EmptyString)
            "/opt/cdswctl" "demo" 3 "demo-slug" empty_world
            _ _ eq_refl eq_refl _).
  vm_compute. reflexivity.
Defined.

(** X3.  The newline that ends the banner does not count: a child whose
    output stops after a non-empty banner, without a newline, gives the same
    result as one that ends the line and goes on writing. *)
Theorem final_newline_irrelevant (E E' : environ)
    (cdswctl_path project_name : string) (runtime_id : Z) (project_slug : string)
    (w : world) (p p' : process) (line rest : string) :
  Popen E (ssh_command cdswctl_path runtime_id project_slug) = Ok p ->
  Popen E' (ssh_command cdswctl_path runtime_id project_slug) = Ok p' ->
  line <> EmptyString ->
  forall_chars (fun c => negb (Ascii.eqb c LF)) line = true ->
  stdout p = line ++ String LF rest ->
  stdout p' = line ->
  fst (open_ssh_endpoint E cdswctl_path project_name runtime_id project_slug w) =
  fst (open_ssh_endpoint E' cdswctl_path project_name runtime_id project_slug w).
Proof.
  intros Hp Hp' Hne Hline Hout Hout'.
  rewrite (open_ssh_endpoint_result E _ _ _ _ w p Hp),
          (open_ssh_endpoint_result E' _ _ _ _ w p' Hp').
  unfold banner. rewrite Hout, Hout', (readline_line _ _ Hline), (readline_whole _ Hline).
  cbn [fst]. unfold banner_result, fields, strip.
  rewrite (rstrip_app_blank line (String LF EmptyString)) by reflexivity.
  destruct line as [|c line]; [congruence | reflexivity].
Qed.

(** X3 at work. *)
Lemma final_newline_irrelevant_witness :
  fst (open_ssh_endpoint (tunnel_env ("forwarding on port 2222" ++ nl ++ "ready") EmptyString)
         "/opt/cdswctl" "demo" (-1) "demo-slug" empty_world) =
  fst (open_ssh_endpoint (tunnel_env "forwarding on port 2222" EmptyString)
         "/opt/cdswctl" "demo" (-1) "demo-slug" empty_world).
Proof.
  refine (final_newline_irrelevant
            (tunnel_env ("forwarding on port 2222" ++ nl ++ "ready") EmptyString)
            (tunnel_env "forwarding on port 2222" EmptyString)
            "/opt/cdswctl" "demo" (-1) "demo-slug" empty_world
            _ _ "forwarding on port 2222" "ready" eq_refl eq_refl _ eq_refl eq_refl eq_refl).
  discriminate.
Defined.

(** X4.  A fourth field that passes [isdigit] without being a decimal number
    (a superscript digit) is not reported as a malformed banner: [int] raises
    [ValueError], which the function lets through, and the child is left as it
    was after the banner was read, its standard error unread. *)
Theorem digit_field_not_decimal (E : environ)
    (cdswctl_path project_name : string) (runtime_id : Z) (project_slug : string)
    (w : world) (p : process) (field : string) :
  Popen E (ssh_command cdswctl_path runtime_id project_slug) = Ok p ->
  nth_error (fields (banner p)) 3 = Some field ->
  isdigit field = true ->
  isdecimal field = false ->
  let r := open_ssh_endpoint E cdswctl_path project_name runtime_id project_slug w in
  fst r = Raise ValueError /\
  procs (snd r) = (procs w ++ [after_banner p])%list.
Proof.
  intros Hp Hf Hdig Hdec r. subst r.
  assert (Hint : int field = None) by (unfold int; now rewrite Hdec).
  destruct (nth_default_error _ _ _ Hf) as [Hnth Hlen].
  outcome_cases E cdswctl_path project_name runtime_id project_slug w H; same_child p.
  - exfalso. rewrite Hb in Hf. discriminate.
  - exfalso. destruct Hbad as [Hshort | Hbad]; [lia | congruence].
  - auto.
  - exfalso. congruence.
Qed.

(** X4 at work: the field is a superscript three. *)
Lemma digit_field_not_decimal_witness :
  let r := open_ssh_endpoint
             (tunnel_env ("foo bar baz " ++ String (ascii_of_N 179) EmptyString ++ nl) "warning")
             "/opt/cdswctl" "demo" (-1) "demo-slug" empty_world in
  fst r = Raise ValueError /\
  procs (snd r) =
    [after_banner {| args := ssh_command "/opt/cdswctl" (-1) "demo-slug";
                     stdout := "foo bar baz " ++ String (ascii_of_N 179) EmptyString ++ nl;
                     stderr := "warning" |}].
Proof.
  refine (digit_field_not_decimal
            (tunnel_env ("foo bar baz " ++ String (ascii_of_N 179) EmptyString ++ nl) "warning")
            "/opt/cdswctl" "demo" (-1) "demo-slug" empty_world
            _ (String (ascii_of_N 179) EmptyString) eq_refl eq_refl eq_refl eq_refl).
Defined.

(** X5.  When the child cannot be started, the exception of
    [subprocess.Popen] leaves [open_ssh_endpoint] as it is, and no child is
    recorded. *)
Theorem spawn_failure_propagates (E : environ)
    (cdswctl_path project_name : string) (runtime_id : Z) (project_slug : string)
    (w : world) (err : exn) :
  Popen E (ssh_command cdswctl_path runtime_id project_slug) = Raise err ->
  let r := open_ssh_endpoint E cdswctl_path project_name runtime_id project_slug w in
  fst r = Raise err /\ procs (snd r) = procs w.
Proof.
  intros Hp r. subst r.
  outcome_cases E cdswctl_path project_name runtime_id project_slug w H; try congruence.
  split; [congruence | assumption].
Qed.

(** X5 at work. *)
Lemma spawn_failure_propagates_witness :
  let r := open_ssh_endpoint no_binary_env "/opt/cdswctl" "demo" 7 "demo-slug" empty_world in
  fst r = Raise (OSError "exec") /\ procs (snd r) = [].
Proof.
  exact (spawn_failure_propagates no_binary_env "/opt/cdswctl" "demo" 7 "demo-slug"
           empty_world (OSError "exec") eq_refl).
Defined.

Lemma skipn_app_exact {A} (l r : list A) : skipn (length l) (l ++ r) = r.
Proof. induction l; [reflexivity | exact IHl]. Qed.



End SshEdges.

(* ===================================================================== *)
(** * The login: outcomes, the command run and the command logged *)
(* ===================================================================== *)

Module LoginEdges.
Import Py Subprocess Cdswctl Obs ObsExt Samples PyFacts LoginFacts SshEdges.

Lemma lower_char_f (c : ascii) : Ascii.eqb (lower_char c) "f" = either "f" "F" c.
Proof. destruct c as [[] [] [] [] [] [] [] []]; reflexivity. Qed.
Lemma lower_char_a (c : ascii) : Ascii.eqb (lower_char c) "a" = either "a" "A" c.
Proof. destruct c as [[] [] [] [] [] [] [] []]; reflexivity. Qed.
Lemma lower_char_l (c : ascii) : Ascii.eqb (lower_char c) "l" = either "l" "L" c.
Proof. destruct c as [[] [] [] [] [] [] [] []]; reflexivity. Qed.
Lemma lower_char_s (c : ascii) : Ascii.eqb (lower_char c) "s" = either "s" "S" c.
Proof. destruct c as [[] [] [] [] [] [] [] []]; reflexivity. Qed.
Lemma lower_char_e (c : ascii) : Ascii.eqb (lower_char c) "e" = either "e" "E" c.
Proof. destruct c as [[] [] [] [] [] [] [] []]; reflexivity. Qed.

Lemma lower_is_false (s : string) : String.eqb (lower s) "false" = is_false_word s.
Proof.
  destruct s as [|a [|b [|c [|d [|e [|f s]]]]]]; cbn [lower String.eqb is_false_word];
    rewrite ?lower_char_f, ?lower_char_a, ?lower_char_l, ?lower_char_s, ?lower_char_e;
    try reflexivity.
  - destruct (either "f" "F" a); reflexivity.
  - destruct (either "f" "F" a), (either "a" "A" b); reflexivity.
  - destruct (either "f" "F" a), (either "a" "A" b), (either "l" "L" c); reflexivity.
  - destruct (either "f" "F" a), (either "a" "A" b), (either "l" "L" c),
             (either "s" "S" d); reflexivity.
  - destruct (either "f" "F" a), (either "a" "A" b), (either "l" "L" c),
             (either "s" "S" d), (either "e" "E" e); reflexivity.
  - destruct (either "f" "F" a), (either "a" "A" b), (either "l" "L" c),
             (either "s" "S" d), (either "e" "E" e); reflexivity.
Qed.

Lemma login_cmd_split (cdswctl_path host username api_key ca_path : string) :
  login_cmd cdswctl_path host username api_key ca_path =
  (login_head cdswctl_path host username ++ [api_key] ++
   (if is_false_word ca_path then ["--insecure-skip-verify"] else []))%list.
Proof.
  unfold login_cmd, login_head. rewrite lower_is_false.
  destruct (is_false_word ca_path); reflexivity.
Qed.

(** X9.  The command run is the seven leading arguments and the key, followed
    by [--insecure-skip-verify] exactly when [ca_path] is the word false in
    any mix of upper and lower case. *)
Theorem insecure_flag_for_false_word (cdswctl_path host username api_key ca_path : string) :
  login_cmd cdswctl_path host username api_key ca_path =
  (login_head cdswctl_path host username ++ [api_key] ++
   (if is_false_word ca_path then ["--insecure-skip-verify"] else []))%list.
Proof. apply login_cmd_split. Qed.

(** The whole of what a call of [cdswctl_login] leaves, by the way the child
    ends. *)
Lemma login_run (E : environ) (cdswctl_path host username api_key ca_path : string)
    (w : world) :
  let cmd := login_cmd cdswctl_path host username api_key ca_path in
  let pre := login_preamble cdswctl_path host username api_key ca_path in
  let r := cdswctl_login E cdswctl_path host username api_key ca_path w in
  fs (snd r) = fs w /\ cwd (snd r) = cwd w /\ procs (snd r) = procs w /\
  calls (snd r) = (calls w ++ [CallRun cmd])%list /\
  match run E cmd with
  | Raise e => fst r = Raise e /\ records (snd r) = (records w ++ pre)%list
  | Ok cp =>
      if (returncode cp =? 0)%Z then
        fst r = Ok cp /\
        records (snd r) =
          (records w ++ pre ++
           [entry INFO "Login succeeded";
            entry DEBUG ("cdswctl login output: " ++ cp_stdout cp)])%list
      else
        fst r = Raise (Exception ("cdswctl login failed with return code " ++
                                  str (returncode cp))) /\
        records (snd r) =
          (records w ++ pre ++
           [entry ERROR ("cdswctl login failed: " ++ cp_stderr cp)])%list
  end.
Proof.
  unfold cdswctl_login, login_preamble, entry.
  destruct (String.eqb (lower ca_path) "false"); step_login;
    (destruct (run E _) as [cp | e]; cbn [fst snd records add_record add_call fs cwd procs calls];
     [ destruct (returncode cp =? 0)%Z;
       cbn [negb fst snd records add_record add_call fs cwd procs calls] | ]);
    repeat split; rewrite <- ?app_assoc; reflexivity.
Qed.

(** X6.  [cdswctl_login] returns exactly when [subprocess.run] returned a
    completed process with status 0, and what it returns is that process.  The
    records written are then the preamble (the start record, the flag record
    when verification is off, the rendered command) followed by
    "Login succeeded" and the captured output. *)
Theorem login_returns_on_status_zero (E : environ)
    (cdswctl_path host username api_key ca_path : string) (w : world)
    (cp : CompletedProcess) :
  let r := cdswctl_login E cdswctl_path host username api_key ca_path w in
  (fst r = Ok cp <->
   run E (login_cmd cdswctl_path host username api_key ca_path) = Ok cp /\
   returncode cp = 0%Z) /\
  (fst r = Ok cp ->
   written w (snd r) =
     (login_preamble cdswctl_path host username api_key ca_path ++
      [entry INFO "Login succeeded";
       entry DEBUG ("cdswctl login output: " ++ cp_stdout cp)])%list).
Proof.
  intros r.
  destruct (login_run E cdswctl_path host username api_key ca_path w)
    as (_ & _ & _ & _ & Hres). fold r in Hres.
  destruct (run E _) as [cp' | e].
  - destruct (Z.eqb_spec (returncode cp') 0) as [H0 | H0]; destruct Hres as [Hfst Hrec].
    + split.
      * rewrite Hfst. split.
        -- intros [= ->]. now split.
        -- now intros [[= ->] _].
      * rewrite Hfst. intros [= ->]. unfold written. rewrite Hrec. apply skipn_app_exact.
    + split.
      * rewrite Hfst. split; [discriminate |]. intros [[= ->] Hz]. contradiction.
      * rewrite Hfst. discriminate.
  - destruct Hres as [Hfst _]. split.
    + rewrite Hfst. split; [discriminate |]. intros [Hx _]. discriminate Hx.
    + rewrite Hfst. discriminate.
Qed.

(** X7.  An exception raised by [subprocess.run] itself (the binary is
    missing, say) is not caught: it leaves [cdswctl_login] as it is, after the
    preamble has been logged and with no error record. *)
Theorem login_run_exception_propagates (E : environ)
    (cdswctl_path host username api_key ca_path : string) (w : world) (err : exn) :
  run E (login_cmd cdswctl_path host username api_key ca_path) = Raise err ->
  let r := cdswctl_login E cdswctl_path host username api_key ca_path w in
  fst r = Raise err /\
  written w (snd r) = login_preamble cdswctl_path host username api_key ca_path.
Proof.
  intros Hrun r.
  destruct (login_run E cdswctl_path host username api_key ca_path w)
    as (_ & _ & _ & _ & Hres). fold r in Hres.
  rewrite Hrun in Hres. destruct Hres as [Hfst Hrec]. split; [exact Hfst |].
  unfold written. rewrite Hrec. apply skipn_app_exact.
Qed.

(** X7 at work. *)
Lemma login_run_exception_propagates_witness :
  let r := cdswctl_login no_binary_env "/opt/cdswctl" "https://cml.example.com" "alice"
             "s3cr3t" EmptyString empty_world in
  fst r = Raise (OSError "exec") /\
  written empty_world (snd r) =
    login_preamble "/opt/cdswctl" "https://cml.example.com" "alice" "s3cr3t" EmptyString.
Proof.
  exact (login_run_exception_propagates no_binary_env "/opt/cdswctl" "https://cml.example.com"
           "alice" "s3cr3t" EmptyString empty_world (OSError "exec") eq_refl).
Defined.

(** X8.  A call of [cdswctl_login] reaches the operating system exactly once,
    to run the login command.  The command run carries the real API key as its
    eighth argument (only the logged copy is masked); the file tree, the
    current directory and the children are untouched. *)
Theorem login_runs_one_child (E : environ)
    (cdswctl_path host username api_key ca_path : string) (w : world) :
  let r := cdswctl_login E cdswctl_path host username api_key ca_path w in
  let cmd := login_cmd cdswctl_path host username api_key ca_path in
  made w (snd r) = [CallRun cmd] /\
  nth_error cmd 7 = Some api_key /\
  fs (snd r) = fs w /\ cwd (snd r) = cwd w /\ procs (snd r) = procs w.
Proof.
  intros r cmd.
  destruct (login_run E cdswctl_path host username api_key ca_path w)
    as (Hfs & Hcwd & Hprocs & Hcalls & _). fold r in Hfs, Hcwd, Hprocs, Hcalls.
  repeat split; try assumption.
  - unfold made. rewrite Hcalls. apply skipn_app_exact.
  - unfold cmd, login_cmd. destruct (String.eqb (lower ca_path) "false"); reflexivity.
Qed.

(** ** The masking step *)

Lemma mem_index (x : string) (l : list string) :
  mem x l = match index x l with Some _ => true | None => false end.
Proof.
  unfold mem. induction l as [|y l IH]; [reflexivity |].
  cbn [existsb index]. rewrite (String.eqb_sym x y).
  destruct (String.eqb y x); [reflexivity |]. cbn [orb]. rewrite IH.
  now destruct (index x l).
Qed.

Lemma index_some (x : string) (l : list string) (i : nat) :
  index x l = Some i ->
  nth_error l i = Some x /\ ~ In x (firstn i l) /\ (i < length l)%nat.
Proof.
  revert i. induction l as [|y l IH]; intros i H; [discriminate |].
  cbn [index] in H. destruct (String.eqb_spec y x) as [-> | Hne].
  - injection H as <-. cbn. repeat split; [tauto | lia].
  - destruct (index x l) as [j |]; [| discriminate]. injection H as <-.
    destruct (IH j eq_refl) as (Hn & Hf & Hl). cbn. repeat split; [exact Hn | | lia].
    intros [Hy | Hin]; [congruence | tauto].
Qed.

Lemma index_none (x : string) (l : list string) : index x l = None -> ~ In x l.
Proof.
  induction l as [|y l IH]; intros H; [tauto |].
  cbn [index] in H. destruct (String.eqb_spec y x) as [-> | Hne]; [discriminate |].
  destruct (index x l); [discriminate |]. cbn. intros [Hy | Hin]; [congruence | tauto].
Qed.

Lemma setitem_spec (l : list string) (i : nat) (v : string) :
  (i < length l)%nat ->
  setitem l i v = Some (firstn i l ++ v :: skipn (S i) l)%list.
Proof.
  revert i. induction l as [|y l IH]; intros i H; [cbn in H; lia |].
  destruct i as [|i]; [reflexivity |].
  cbn [setitem]. rewrite IH by (cbn in H; lia). reflexivity.
Qed.

Lemma masked_spec (cmd : list string) (api_key : string) :
  match index api_key cmd with
  | Some i => masked cmd api_key = (firstn i cmd ++ "<api_key>" :: skipn (S i) cmd)%list
  | None => masked cmd api_key = cmd
  end.
Proof.
  unfold masked. rewrite mem_index.
  destruct (index api_key cmd) as [i |] eqn:Hi; [| reflexivity].
  destruct (index_some _ _ _ Hi) as (_ & _ & Hlt).
  destruct (Z.eqb_spec (Z.of_nat i) (-1)) as [Hneg | _]; [lia |].
  cbn [negb]. rewrite Nat2Z.id, setitem_spec by exact Hlt. reflexivity.
Qed.

(** X10.  The masking step replaces the first element equal to the key by the
    placeholder and nothing else: a list without the key is unchanged, a list
    split at the first occurrence of the key gets the placeholder there, and
    the length is kept. *)
Theorem masked_first_occurrence (cmd : list string) (api_key : string) :
  (~ In api_key cmd -> masked cmd api_key = cmd) /\
  (forall (before after : list string),
     cmd = (before ++ api_key :: after)%list -> ~ In api_key before ->
     masked cmd api_key = (before ++ "<api_key>" :: after)%list) /\
  length (masked cmd api_key) = length cmd.
Proof.
  pose proof (masked_spec cmd api_key) as Hm.
  destruct (index api_key cmd) as [i |] eqn:Hi.
  - destruct (index_some _ _ _ Hi) as (Hn & Hf & Hlt). split; [| split].
    + intros Hnot. exfalso. apply Hnot. eapply nth_error_In, Hn.
    + intros before after -> Hb.
      assert (i = length before) as ->.
      { destruct (Nat.lt_trichotomy i (length before)) as [Hlt' | [Heq | Hgt]];
          [| exact Heq |].
        - exfalso. apply Hb. rewrite nth_error_app1 in Hn by exact Hlt'.
          eapply nth_error_In, Hn.
        - exfalso. apply Hf. rewrite firstn_app. apply in_or_app. right.
          replace (i - length before)%nat with (S (i - length before - 1)) by lia.
          cbn. now left. }
      rewrite Hm. rewrite firstn_app, Nat.sub_diag, firstn_all. cbn [firstn].
      rewrite app_nil_r.
      replace (S (length before)) with (length (before ++ [api_key])%list)
        by (rewrite length_app; cbn; lia).
      replace (before ++ api_key :: after)%list with ((before ++ [api_key]) ++ after)%list
        by (now rewrite <- app_assoc).
      now rewrite skipn_app_exact.
    + rewrite Hm, length_app. cbn [length]. rewrite length_firstn, length_skipn. lia.
  - split; [| split]; [now intros _ | | now rewrite Hm].
    intros before after -> _. exfalso. apply (index_none _ _ Hi).
    apply in_or_app. right. now left.
Qed.

Lemma in_split_first (x : string) (l : list string) :
  In x l -> exists before after, l = (before ++ x :: after)%list /\ ~ In x before.
Proof.
  induction l as [|y l IH]; intros Hin; [contradiction |].
  destruct (String.eqb_spec y x) as [-> | Hne].
  - exists [], l. split; [reflexivity | tauto].
  - destruct Hin as [Hy | Hin]; [congruence |].
    destruct (IH Hin) as (before & after & -> & Hb).
    exists (y :: before), after. split; [reflexivity |].
    intros [Hy | Hin']; [congruence | tauto].
Qed.

Lemma startswith_app (p s : string) : startswith p (p ++ s) = true.
Proof.
  induction p as [|a p IH]; [reflexivity |].
  cbn [append startswith]. now rewrite Ascii.eqb_refl, IH.
Qed.

Lemma contains_app_l (x s : string) : contains x (x ++ s) = true.
Proof.
  destruct (x ++ s)%string eqn:Hxs; cbn [contains]; rewrite <- Hxs, startswith_app;
    reflexivity.
Qed.

Lemma contains_app_r (x a s : string) : contains x s = true -> contains x (a ++ s) = true.
Proof.
  intros H. induction a as [|c a IH]; [exact H |].
  cbn [append contains]. rewrite IH. apply orb_true_r.
Qed.

Lemma append_empty (x : string) : (x ++ "")%string = x.
Proof. induction x as [|c x IH]; [reflexivity | cbn; now rewrite IH]. Qed.

Lemma contains_refl (x : string) : contains x x = true.
Proof.
  rewrite <- (append_empty x) at 2. apply contains_app_l.
Qed.

Lemma contains_join (x sep : string) (l : list string) :
  In x l -> contains x (join sep l) = true.
Proof.
  unfold join. induction l as [|y l IH]; intros Hin; [contradiction |].
  destruct l as [|z l].
  - destruct Hin as [-> | []]. apply contains_refl.
  - change (String.concat sep (y :: z :: l))
      with (y ++ sep ++ String.concat sep (z :: l))%string.
    destruct Hin as [-> | Hin].
    + apply contains_app_l.
    + apply contains_app_r, contains_app_r, IH, Hin.
Qed.

(** X11.  When the key is equal to one of the seven arguments before it, the
    placeholder goes to that argument and the key's own argument stays: the
    eighth element of the logged list is the key, the rendered command
    contains it, and that text is in the debug record every call writes. *)
Theorem repeated_key_shown (cdswctl_path host username api_key ca_path : string) :
  In api_key (login_head cdswctl_path host username) ->
  nth_error (masked (login_cmd cdswctl_path host username api_key ca_path) api_key) 7 =
    Some api_key /\
  contains api_key (rendered_command cdswctl_path host username api_key ca_path) = true /\
  (forall (E : environ) (w : world),
     logged DEBUG [Text (rendered_command cdswctl_path host username api_key ca_path)]
            (snd (cdswctl_login E cdswctl_path host username api_key ca_path w))).
Proof.
  intros Hin.
  destruct (in_split_first _ _ Hin) as (before & after & Hhead & Hb).
  pose proof (f_equal (@length string) Hhead) as Hlen.
  rewrite length_app in Hlen. cbn [length login_head] in Hlen.
  set (flag := if is_false_word ca_path then ["--insecure-skip-verify"] else []).
  assert (Hcmd : login_cmd cdswctl_path host username api_key ca_path =
                 (before ++ api_key :: (after ++ api_key :: flag))%list).
  { rewrite login_cmd_split, Hhead, <- app_assoc. reflexivity. }
  pose proof (masked_spec (login_cmd cdswctl_path host username api_key ca_path) api_key)
    as Hm.
  destruct (index api_key (login_cmd cdswctl_path host username api_key ca_path))
    as [i |] eqn:Hi.
  2:{ exfalso. apply (index_none _ _ Hi). rewrite Hcmd. apply in_or_app. right. now left. }
  destruct (index_some _ _ _ Hi) as (Hn & Hf & Hlt).
  assert (i = length before) as ->.
  { rewrite Hcmd in Hn, Hf.
    destruct (Nat.lt_trichotomy i (length before)) as [Hlt' | [Heq | Hgt]]; [| exact Heq |].
    - exfalso. apply Hb. rewrite nth_error_app1 in Hn by exact Hlt'.
      eapply nth_error_In, Hn.
    - exfalso. apply Hf. rewrite firstn_app. apply in_or_app. right.
      replace (i - length before)%nat with (S (i - length before - 1)) by lia.
      cbn. now left. }
  assert (Hmasked : masked (login_cmd cdswctl_path host username api_key ca_path) api_key =
                    ((before ++ "<api_key>" :: after) ++ api_key :: flag)%list).
  { rewrite Hm, Hcmd. rewrite firstn_app, Nat.sub_diag, firstn_all. cbn [firstn].
    rewrite app_nil_r.
    replace (S (length before)) with (length (before ++ [api_key])%list)
      by (rewrite length_app; cbn; lia).
    replace (before ++ api_key :: after ++ api_key :: flag)%list
      with ((before ++ [api_key]) ++ after ++ api_key :: flag)%list
      by (now rewrite <- app_assoc).
    rewrite skipn_app_exact, <- app_assoc. reflexivity. }
  split; [| split].
  - rewrite Hmasked, nth_error_app2 by (rewrite length_app; cbn [length]; lia).
    rewrite length_app. cbn [length].
    replace (7 - (length before + S (length after)))%nat with 0%nat by lia. reflexivity.
  - unfold rendered_command. apply contains_app_r, contains_join.
    rewrite Hmasked. apply in_or_app. right. now left.
  - intros E w. apply login_command_logged.
Qed.

(** X11 at work: the user name is the key. *)
Lemma repeated_key_shown_witness :
  nth_error (masked (login_cmd "/opt/cdswctl" "https://cml.example.com" "hunter2" "hunter2"
                       EmptyString) "hunter2") 7 = Some "hunter2" /\
  contains "hunter2" (rendered_command "/opt/cdswctl" "https://cml.example.com" "hunter2"
                        "hunter2" EmptyString) = true.
Proof.
  destruct (repeated_key_shown "/opt/cdswctl" "https://cml.example.com" "hunter2" "hunter2"
              EmptyString) as (H1 & H2 & _).
  - cbn. tauto.
  - split; [exact H1 | exact H2].
Defined.

End LoginEdges.

(* ===================================================================== *)
(** * The installer: the workspace, its frame, and the archive layouts *)
(* ===================================================================== *)

Module InstallEdges.
Import Py Subprocess Fs Cdswctl Obs ObsExt Samples PyFacts FsFacts InstallFacts.

(** The install on a fresh workspace, up to the end of the extraction: the
    workspace then holds the archive and, after it, what the members unpack to. *)
Lemma unpacked (E : environ) (url ca_path : string) (w : world) (ms : entries_t) :
  fresh_workspace E w ->
  mkdirs (resolve w (workspace_path E)) (fs w) <> None ->
  validated E = true ->
  is_name (archive_name url) = true ->
  response E url ca_path = Some (TarArchive ms) ->
  exists w2 : world,
    cwd w2 = cwd w /\ procs w2 = procs w /\ records w2 = records w /\
    match unpack_entries ms [(archive_name url, File (TarArchive ms))] with
    | Some ds =>
        holds w2 (resolve w (workspace_path E)) ds /\
        _download_and_extract E url ca_path w =
        install_stage (workspace_path E) (archive_path E url) w2
    | None =>
        holds w2 (resolve w (workspace_path E)) [(archive_name url, File (TarArchive ms))] /\
        _download_and_extract E url ca_path w = (Raise (OSError "extractall"), w2)
    end.
Proof.
  intros Hfresh Hmk Hv Hname Hbody.
  rewrite download_and_extract_stages, Hv.
  destruct (fetch_stage E url ca_path w) as [r1 w1] eqn:Hfetch.
  assert (Hframe : procs w1 = procs w /\ records w1 = records w).
  { rewrite fetch_run, tmp_dir_run in Hfetch. cbv zeta in Hfetch.
    destruct (exists_ _ _).
    - rewrite download_run in Hfetch. cbv zeta in Hfetch. rewrite Hbody in Hfetch.
      destruct (write_file _ _ _); injection Hfetch as _ <-; split; reflexivity.
    - destruct (mkdirs _ _); [| congruence].
      rewrite download_run in Hfetch. cbv zeta in Hfetch. rewrite Hbody in Hfetch.
      destruct (write_file _ _ _); injection Hfetch as _ <-; split; reflexivity. }
  destruct Hframe as [Hprocs1 Hrec1].
  destruct (fetch_fresh E url ca_path w w1 r1 Hfresh Hname Hfetch)
    as [(-> & body & Hbody' & Hws1 & Hcwd1) | ([e ->] & [Hno | Hno])]; [| congruence ..].
  rewrite Hbody in Hbody'. injection Hbody' as <-.
  set (ws := resolve w (workspace_path E)) in *.
  set (fn := archive_name url) in *.
  unfold holds in Hws1.
  assert (Harch : resolve w1 (archive_path E url) = (ws ++ [fn])%list).
  { unfold archive_path. rewrite (resolve_join w1 _ _ Hname).
    now rewrite (resolve_cwd w w1) by exact Hcwd1. }
  rewrite extract_run. cbv zeta. rewrite Harch.
  rewrite !(resolve_cwd w w1) by exact Hcwd1. fold ws.
  rewrite lookup_snoc, Hws1. cbn [assoc]. rewrite String.eqb_refl.
  unfold extract, modify. rewrite Hws1.
  destruct (unpack_entries ms [(fn, File (TarArchive ms))]) as [ds |] eqn:Hun;
    cbn [option_map]; eexists; (split; [| split; [| split; [| split; [| reflexivity]]]]);
    cbn [cwd procs records fs set_fs add_call]; try assumption.
  unfold holds. cbn [fs set_fs]. apply lookup_graft. congruence.
Qed.

(** The steps after the extraction, up to the choice of the first entry: the
    archive is removed, and the rest goes on with the first entry left. *)
Lemma install_stage_listed (dir_path file_path : string) (w2 : world)
    (ws : list string) (fn : string) (body : content) (rest : entries_t) :
  resolve w2 dir_path = ws ->
  resolve w2 file_path = (ws ++ [fn])%list ->
  holds w2 ws ((fn, File body) :: rest) ->
  del fn rest = rest ->
  exists w3 : world,
    holds w3 ws rest /\ cwd w3 = cwd w2 /\ procs w3 = procs w2 /\ records w3 = records w2 /\
    install_stage dir_path file_path w2 =
    match rest with
    | [] => (Raise IndexError, w3)
    | (d, _) :: _ => relocate_stage dir_path d w3
    end.
Proof.
  intros Hdir Hfile Hws Hdel. unfold holds in Hws.
  exists (add_call (CallListdir dir_path)
            (set_fs (graft ws (Dir rest) (fs w2)) (add_call (CallRemove file_path) w2))).
  assert (Hws3 : lookup ws (graft ws (Dir rest) (fs w2)) = Some (Dir rest))
    by (apply lookup_graft; congruence).
  split; [exact Hws3 |]. do 3 (split; [reflexivity |]).
  unfold install_stage, relocate_stage.
  unfold os_remove, os_listdir, first, listdir, fs_call, trace, ret, raise.
  unfold bind at 1 2 3 4 5.
  cbn [fst snd fs cwd calls set_fs add_call].
  rewrite resolve_add_call, Hfile.
  rewrite (unlink_child ws fn (fs w2) _ body Hws)
    by (cbn [assoc]; now rewrite String.eqb_refl).
  cbn [del filter fst negb]. rewrite String.eqb_refl. cbn [negb]. fold (del fn rest).
  rewrite Hdel. cbn [fs set_fs add_call].
  repeat rewrite ?resolve_add_call, ?resolve_set_fs. rewrite Hdir, Hws3.
  destruct rest as [| [d n] rest']; reflexivity.
Qed.

(** The rename finds nothing to move. *)
Lemma relocate_no_source (dir_path d : string) (w3 : world) :
  lookup (resolve w3 (os_path_join (os_path_join dir_path d) "cdswctl")) (fs w3) = None ->
  exists w' : world,
    fs w' = fs w3 /\ cwd w' = cwd w3 /\ procs w' = procs w3 /\ records w' = records w3 /\
    relocate_stage dir_path d w3 = (Raise (OSError "rename"), w').
Proof.
  intros Hno. eexists. do 4 (split; [shelve |]).
  unfold relocate_stage, os_rename, os_removedirs, fs_call, trace, ret, raise.
  unfold bind at 1 2. cbn [fst snd fs cwd calls set_fs add_call].
  rewrite !resolve_add_call. unfold rename. rewrite Hno. reflexivity.
  Unshelve. all: reflexivity.
Qed.

(** The rename and the removal, on a workspace that holds one directory with
    the file [cdswctl] in it. *)
Lemma relocate_run (dir_path d : string) (w3 w' : world) (ws : list string)
    (es' : entries_t) (dat : content) (r : result string) :
  resolve w3 dir_path = ws ->
  is_name d = true ->
  holds w3 ws [(d, Dir es')] ->
  assoc "cdswctl" es' = Some (File dat) ->
  relocate_stage dir_path d w3 = (r, w') ->
  cwd w' = cwd w3 /\ procs w' = procs w3 /\ records w' = records w3 /\
  if String.eqb d "cdswctl" then
    r = Raise (OSError "rename") /\ holds w' ws [(d, Dir es')]
  else
    match del "cdswctl" es' with
    | [] => r = Ok (os_path_join dir_path "cdswctl") /\ holds w' ws [("cdswctl", File dat)]
    | _ :: _ =>
        r = Raise (OSError "rmdir") /\
        holds w' ws [(d, Dir (del "cdswctl" es')); ("cdswctl", File dat)]
    end.
Proof.
  intros Hdir Hd Hws Hbin H. unfold holds in Hws.
  unfold relocate_stage, os_rename, os_removedirs, fs_call, trace, ret, raise, bind in H.
  cbn [fst snd fs cwd calls set_fs add_call] in H.
  repeat rewrite ?resolve_add_call, ?resolve_set_fs in H.
  rewrite !resolve_join, Hdir in H by (exact Hd || exact is_name_cdswctl).
  rewrite <- app_assoc in H. cbn [app] in H.
  assert (Hdd : assoc d [(d, Dir es')] = Some (Dir es'))
    by (cbn [assoc]; now rewrite String.eqb_refl).
  rewrite (rename_up ws d "cdswctl" (fs w3) _ es' dat Hws Hdd Hbin) in H.
  destruct (String.eqb d "cdswctl") eqn:Hdc.
  { injection H as <- <-. repeat split. exact Hws. }
  cbn [assoc put] in H. rewrite Hdc, String.eqb_refl in H.
  cbn [fs set_fs add_call put] in H. rewrite Hdc in H. cbn [put] in H.
  set (t4 := graft ws (Dir [(d, Dir (del "cdswctl" es')); ("cdswctl", File dat)])
               (graft ws (Dir [(d, Dir (del "cdswctl" es'))]) (fs w3))) in H.
  assert (Hws4 : lookup ws t4 =
                 Some (Dir [(d, Dir (del "cdswctl" es')); ("cdswctl", File dat)])).
  { apply lookup_graft. rewrite lookup_graft; congruence. }
  repeat rewrite ?resolve_add_call, ?resolve_set_fs in H.
  rewrite resolve_join, Hdir in H by exact Hd.
  unfold removedirs in H. rewrite (rmdir_child ws d t4 _ Hws4) in H.
  cbn [assoc] in H. rewrite String.eqb_refl in H.
  destruct (del "cdswctl" es') as [| e0 rest] eqn:Hdel.
  2:{ injection H as <- <-. repeat split. exact Hws4. }
  rewrite removelast_last in H.
  cbn [del filter fst negb] in H. rewrite String.eqb_refl in H.
  assert (Hcd : String.eqb "cdswctl" d = false) by (rewrite String.eqb_sym; exact Hdc).
  rewrite Hcd in H. cbn [negb] in H.
  set (t5 := graft ws (Dir [("cdswctl", File dat)]) t4) in H.
  assert (Hws5 : lookup ws t5 = Some (Dir [("cdswctl", File dat)]))
    by (apply lookup_graft; congruence).
  rewrite (prune_nonempty _ ws t5 _ _ Hws5) in H.
  injection H as <- <-. repeat split. exact Hws5.
Qed.

Lemma rename_into_holder (ws : list string) (c : string) (t : node) (es' : entries_t) :
  lookup ws t = Some (Dir [(c, Dir es')]) ->
  rename (ws ++ [c; c]) (ws ++ [c]) t = None.
Proof.
  intros Hws. unfold rename.
  replace (ws ++ [c; c])%list with ((ws ++ [c]) ++ [c])%list by (now rewrite <- app_assoc).
  destruct (lookup ((ws ++ [c]) ++ [c]) t) as [n |] eqn:Hs; [| reflexivity].
  pose proof (path_eqb_app (ws ++ [c]) [c] []) as Hpe.
  pose proof (is_prefix_app (ws ++ [c]) [c] []) as Hpre.
  rewrite app_nil_r in Hpe, Hpre. rewrite Hpe, Hpre. cbn [path_eqb is_prefix].
  rewrite lookup_snoc in Hs. rewrite lookup_snoc, Hws in *. cbn [assoc] in *.
  rewrite String.eqb_refl in *.
  destruct es' as [| e0 es0]; [discriminate |]. now destruct n.
Qed.

(** ** The download URL *)

(** X23.  When [urljoin] keeps the last segment of the three references, as
    [urllib.parse.urljoin] does, the file name [_download_and_extract] cuts
    from the URL of [_get_cdswctl_download_url] is [cdsw.tar.gz] on linux,
    linux2 and darwin and [cdsw.zip] on every other platform, and it is a
    plain file name. *)
Theorem archive_name_by_platform (E : environ) (host : string) :
  (forall ref : string,
     In ref ["linux/amd64/cdsw.tar.gz"; "darwin/amd64/cdsw.tar.gz"; "windows/amd64/cdsw.zip"] ->
     archive_name (urljoin E (urljoin E host "cli/") ref) = archive_name ref) ->
  let url := _get_cdswctl_download_url E host in
  archive_name url =
    (if String.eqb (platform E) "linux" || String.eqb (platform E) "linux2" ||
        String.eqb (platform E) "darwin"
     then "cdsw.tar.gz" else "cdsw.zip") /\
  is_name (archive_name url) = true.
Proof.
  intros Hjoin. cbv zeta. unfold _get_cdswctl_download_url.
  destruct (String.eqb (platform E) "linux" || String.eqb (platform E) "linux2"); cbn [orb].
  - rewrite Hjoin by (cbn; tauto). now split.
  - destruct (String.eqb (platform E) "darwin").
    + rewrite Hjoin by (cbn; tauto). now split.
    + rewrite Hjoin by (cbn; tauto). now split.
Qed.

(** X23 at work: a platform the code does not name. *)
Lemma archive_name_by_platform_witness :
  archive_name (_get_cdswctl_download_url windows_env "https://cml.example.com/") = "cdsw.zip" /\
  is_name (archive_name (_get_cdswctl_download_url windows_env "https://cml.example.com/")) = true.
Proof.
  refine (archive_name_by_platform windows_env "https://cml.example.com/" _).
  intros ref [<- | [<- | [<- | []]]]; reflexivity.
Defined.

(** ** The workspace directory *)

Lemma mkdirs_keeps_files (p : list string) :
  forall (t t' : node) (q : list string) (dat : content),
    mkdirs p t = Some t' ->
    lookup q t = Some (File dat) -> lookup q t' = Some (File dat).
Proof.
  induction p as [| c p IH]; intros t t' q dat Hmk Hq.
  - destruct t; cbn in Hmk; [discriminate | now injection Hmk as <-].
  - destruct t as [d | es]; cbn [mkdirs] in Hmk; [discriminate |].
    destruct (mkdirs p (match assoc c es with Some ch => ch | None => Dir [] end))
      as [ch' |] eqn:Hch; [| discriminate].
    injection Hmk as <-.
    destruct q as [| k q]; [discriminate |].
    cbn [lookup] in *.
    destruct (String.eqb_spec c k) as [<- | Hne].
    + rewrite assoc_put_eq. destruct (assoc c es) as [ch |]; [| discriminate].
      eapply IH; eassumption.
    + now rewrite (assoc_put_ne c k ch' es Hne).
Qed.

Lemma mkdirs_exists (p : list string) :
  forall (t t' : node), mkdirs p t = Some t' -> exists es, lookup p t' = Some (Dir es).
Proof.
  induction p as [| c p IH]; intros t t' Hmk.
  - destruct t as [d | es]; cbn in Hmk; [discriminate |]. injection Hmk as <-. now exists es.
  - destruct t as [d | es]; cbn [mkdirs] in Hmk; [discriminate |].
    destruct (mkdirs p (match assoc c es with Some ch => ch | None => Dir [] end))
      as [ch' |] eqn:Hch; [| discriminate].
    injection Hmk as <-. cbn [lookup]. rewrite assoc_put_eq. eapply IH, Hch.
Qed.

(** X12.  [_cdswctl_tmp_dir_path]: when something already is at the workspace
    path (a directory or a regular file) the path is returned and nothing is
    called or changed.  Otherwise [os.makedirs] is the one call made, after
    which either the path is returned and names a directory, or [OSError] is
    raised and the tree is as before.  In every case each regular file of the
    tree is still there with its content. *)
Theorem workspace_directory_made (E : environ) (w : world) :
  let r := _cdswctl_tmp_dir_path E w in
  let ws := resolve w (workspace_path E) in
  (exists_ ws (fs w) = true -> r = (Ok (workspace_path E), w)) /\
  (exists_ ws (fs w) = false ->
   made w (snd r) = [CallMakedirs (workspace_path E)] /\
   ((fst r = Ok (workspace_path E) /\ exists es, lookup ws (fs (snd r)) = Some (Dir es)) \/
    (fst r = Raise (OSError "mkdir") /\ fs (snd r) = fs w))) /\
  (forall (q : list string) (dat : content),
     lookup q (fs w) = Some (File dat) -> lookup q (fs (snd r)) = Some (File dat)).
Proof.
  cbv zeta. rewrite tmp_dir_run. cbv zeta.
  destruct (exists_ (resolve w (workspace_path E)) (fs w)) eqn:Hex; cbn [fst snd].
  - split; [reflexivity |]. split; [discriminate |]. now intros q dat Hq.
  - destruct (mkdirs (resolve w (workspace_path E)) (fs w)) as [t |] eqn:Hmk;
      cbn [fst snd fs set_fs add_call].
    + destruct (mkdirs_exists _ _ _ Hmk) as [es Hes].
      split; [discriminate |]. split.
      * intros _. split; [now apply made_app |]. left. split; [reflexivity | now exists es].
      * intros q dat Hq. eapply mkdirs_keeps_files; eassumption.
    + split; [discriminate |]. split.
      * intros _. split; [now apply made_app |]. right. now split.
      * now intros q dat Hq.
Qed.

(** ** What the installer leaves alone *)

Lemma confined_weaken {A} (P Q : exn -> Prop) (m : M A) :
  (forall e, P e -> Q e) -> confined P m -> confined Q m.
Proof.
  intros HPQ Hm w0. destruct (Hm w0) as (H1 & H2 & H3 & H4). repeat split; auto.
Qed.

Lemma confined_ret {A} (P : exn -> Prop) (v : A) : confined P (ret v).
Proof. intros w0. cbn. repeat split. discriminate. Qed.

Lemma confined_raise {A} (P : exn -> Prop) (e : exn) : P e -> confined P (@raise A e).
Proof. intros He w0. cbn. repeat split. now intros e' [= <-]. Qed.

Lemma confined_bind {A B} (P : exn -> Prop) (m : M A) (k : A -> M B) :
  confined P m -> (forall v, confined P (k v)) -> confined P (bind m k).
Proof.
  intros Hm Hk w0. unfold bind. destruct (Hm w0) as (H1 & H2 & H3 & H4).
  destruct (m w0) as [[v | e] w1]; cbn [fst snd] in *.
  - destruct (Hk v w1) as (K1 & K2 & K3 & K4). repeat split; try congruence. exact K4.
  - repeat split; try assumption. intros e' [= <-]. now apply H4.
Qed.

Lemma confined_trace (P : exn -> Prop) (c : call) : confined P (trace c).
Proof. intros w0. cbn. repeat split. discriminate. Qed.

Lemma confined_fs_call (name : string) (f : world -> node -> option node) :
  confined (fun e => fs_error e = true) (fun w0 => fs_call name (f w0) w0).
Proof.
  intros w0. unfold fs_call. destruct (f w0 (fs w0)); cbn; repeat split;
    [discriminate | now intros e [= <-]].
Qed.

Lemma confined_os_path_exists (P : exn -> Prop) (path : string) :
  confined P (os_path_exists path).
Proof. intros w0. cbn. repeat split. discriminate. Qed.

Lemma confined_os_makedirs (path : string) :
  confined (fun e => fs_error e = true) (os_makedirs path).
Proof.
  apply confined_bind; [apply confined_trace |]. intros _ w0.
  destruct (exists_ _ _).
  - cbn. repeat split. now intros e [= <-].
  - apply (confined_fs_call "mkdir" (fun w1 => mkdirs (resolve w1 path))).
Qed.

Lemma confined_os_remove (path : string) :
  confined (fun e => fs_error e = true) (os_remove path).
Proof.
  apply confined_bind; [apply confined_trace |]. intros _.
  apply (confined_fs_call "remove" (fun w1 => unlink (resolve w1 path))).
Qed.

Lemma confined_os_listdir (path : string) :
  confined (fun e => fs_error e = true) (os_listdir path).
Proof.
  apply confined_bind; [apply confined_trace |]. intros _ w0.
  destruct (listdir _ _); cbn; repeat split; [discriminate | now intros e [= <-]].
Qed.

Lemma confined_os_rename (src dst : string) :
  confined (fun e => fs_error e = true) (os_rename src dst).
Proof.
  apply confined_bind; [apply confined_trace |]. intros _.
  apply (confined_fs_call "rename" (fun w1 => rename (resolve w1 src) (resolve w1 dst))).
Qed.

Lemma confined_os_removedirs (path : string) :
  confined (fun e => fs_error e = true) (os_removedirs path).
Proof.
  apply confined_bind; [apply confined_trace |]. intros _.
  apply (confined_fs_call "rmdir"
           (fun w1 => removedirs (length (components path) - (if isabs path then 0 else 1))
                                 (resolve w1 path))).
Qed.

Lemma confined_tarfile_open (path : string) :
  confined (fun e => fs_error e = true) (tarfile_open path).
Proof.
  apply confined_bind; [apply confined_trace |]. intros _ w0.
  destruct (lookup _ _) as [[[b | ms | ms] | es] |]; cbn; repeat split;
    try discriminate; now intros e [= <-].
Qed.

Lemma confined_extractall (tf : entries_t) (path : string) :
  confined (fun e => fs_error e = true) (extractall tf path).
Proof.
  apply confined_bind; [apply confined_trace |]. intros _.
  apply (confined_fs_call "extractall" (fun w1 => extract tf (resolve w1 path))).
Qed.

Lemma confined_first {A} (l : list A) : confined (fun e => fs_error e = true) (first l).
Proof.
  destruct l; [now apply confined_raise | apply confined_ret].
Qed.

Lemma confined_download_file (E : environ) (url filepath ca_path : string) :
  confined (fun e => fs_error e = true) (download_file E url filepath ca_path).
Proof.
  apply confined_bind; [apply confined_trace |]. intros _.
  destruct (response E url ca_path) as [body |]; [| now apply confined_raise].
  apply (confined_fs_call "open" (fun w1 => write_file (resolve w1 filepath) body)).
Qed.

Lemma confined_tmp_dir (E : environ) :
  confined (fun e => fs_error e = true) (_cdswctl_tmp_dir_path E).
Proof.
  apply confined_bind; [apply confined_os_path_exists |]. intros present.
  apply confined_bind; [| intros _; apply confined_ret].
  destruct (negb present); [apply confined_os_makedirs | apply confined_ret].
Qed.

Create HintDb confined.

#[local] Hint Resolve confined_ret confined_trace confined_os_path_exists
  confined_os_makedirs confined_os_remove confined_os_listdir confined_os_rename
  confined_os_removedirs confined_tarfile_open confined_extractall confined_first
  confined_download_file confined_tmp_dir : confined.

Lemma confined_fetch (E : environ) (url ca_path : string) :
  confined (fun e => fs_error e = true) (fetch_stage E url ca_path).
Proof.
  unfold fetch_stage.
  apply confined_bind; [auto with confined |]. intros dir_path.
  apply confined_bind; auto with confined.
Qed.

Lemma confined_extract (E : environ) (url : string) :
  confined (fun e => fs_error e = true) (extract_stage E url).
Proof.
  unfold extract_stage, tf_close.
  apply confined_bind; [auto with confined |]. intros tf.
  apply confined_bind; auto with confined.
Qed.

Lemma confined_install_stage (dir_path file_path : string) :
  confined (fun e => fs_error e = true) (install_stage dir_path file_path).
Proof.
  unfold install_stage.
  apply confined_bind; [auto with confined |]. intros _.
  apply confined_bind; [auto with confined |]. intros names.
  apply confined_bind; [auto with confined |]. intros cdswctldir.
  apply confined_bind; [auto with confined |]. intros _.
  apply confined_bind; auto with confined.
Qed.

Lemma confined_install (E : environ) (url ca_path : string) :
  confined (install_error E) (_download_and_extract E url ca_path).
Proof.
  intros w0. rewrite download_and_extract_stages.
  destruct (confined_fetch E url ca_path w0) as (F1 & F2 & F3 & F4).
  destruct (fetch_stage E url ca_path w0) as [[d | e] w1]; cbn [fst snd] in *.
  2:{ repeat split; try assumption. intros e' [= <-]. left. now apply F4. }
  destruct (validated E) eqn:Hv.
  2:{ repeat split; try assumption. intros e' [= <-]. right. now split. }
  destruct (confined_extract E url w1) as (X1 & X2 & X3 & X4).
  destruct (extract_stage E url w1) as [[[] | e] w2]; cbn [fst snd] in *.
  2:{ repeat split; try congruence. intros e' [= <-]. left. now apply X4. }
  destruct (confined_install_stage (workspace_path E) (archive_path E url) w2)
    as (I1 & I2 & I3 & I4).
  repeat split; try congruence. intros e' He'. left. now apply I4.
Qed.

Lemma no_slash_hex (c : ascii) :
  is_hex_char c = true -> negb (Ascii.eqb c SLASH) = true /\ Ascii.eqb c "." = false.
Proof. destruct c as [[] [] [] [] [] [] [] []]; cbv; intros H; (discriminate H || now split). Qed.

Lemma hex_token_is_name (s : string) :
  is_uuid_hex s = true -> is_name (prefix_slice 10 s) = true.
Proof.
  unfold is_uuid_hex. intros H. apply andb_true_iff in H as [Hlen Hhex].
  apply Nat.eqb_eq in Hlen.
  destruct s as [| c1 [| c2 [| c3 [| c4 [| c5 [| c6 [| c7 [| c8 [| c9 [| c10 s]]]]]]]]]];
    try (cbn in Hlen; discriminate Hlen).
  cbn [forall_chars] in Hhex.
  repeat (apply andb_true_iff in Hhex as [?Hc Hhex]).
  unfold prefix_slice. cbn [String.substring].
  assert (Hsub : String.substring 0 0 s = EmptyString) by (now destruct s).
  rewrite Hsub. unfold is_name. cbn [String.eqb forall_chars].
  destruct (no_slash_hex c1 Hc) as [-> E1]. destruct (no_slash_hex c2 Hc0) as [-> E2].
  destruct (no_slash_hex c3 Hc1) as [-> _]. destruct (no_slash_hex c4 Hc2) as [-> _].
  destruct (no_slash_hex c5 Hc3) as [-> _]. destruct (no_slash_hex c6 Hc4) as [-> _].
  destruct (no_slash_hex c7 Hc5) as [-> _]. destruct (no_slash_hex c8 Hc6) as [-> _].
  destruct (no_slash_hex c9 Hc7) as [-> _]. destruct (no_slash_hex c10 Hc8) as [-> _].
  rewrite E1. reflexivity.
Qed.

(** X13.  [_download_and_extract] logs nothing, starts no child and keeps the
    current directory.  The exceptions it can end with are those of the file
    system, the archive reader, the subscript and the transport, and the
    [RuntimeError] of the validation, which occurs only when the validation
    fails. *)
Theorem installer_confined (E : environ) (url ca_path : string) (w : world) :
  let r := _download_and_extract E url ca_path w in
  cwd (snd r) = cwd w /\ procs (snd r) = procs w /\ records (snd r) = records w /\
  forall e : exn,
    fst r = Raise e ->
    fs_error e = true \/
    (validated E = false /\ e = RuntimeError "path for cdswctl could not be validated.").
Proof. exact (confined_install E url ca_path w). Qed.

(** X14.  With a token cut from 32 lower-case hexadecimal digits, which is
    what [uuid.uuid1().hex] is, the workspace is found under the root and no
    install ends with a [RuntimeError]: the branch that raises it cannot be
    taken. *)
Theorem uuid_token_always_validated (E : environ) :
  is_uuid_hex (uuid1_hex E) = true ->
  validated E = true /\
  forall (url ca_path : string) (w : world) (msg : string),
    fst (_download_and_extract E url ca_path w) <> Raise (RuntimeError msg).
Proof.
  intros Hhex.
  assert (Hv : validated E = true) by (apply validated_plain_token, hex_token_is_name, Hhex).
  split; [exact Hv |]. intros url ca_path w msg Hr.
  destruct (confined_install E url ca_path w) as (_ & _ & _ & Hraise).
  destruct (Hraise _ Hr) as [Hfs | [Hno _]]; [discriminate Hfs | congruence].
Qed.

(** X14 at work. *)
Lemma uuid_token_always_validated_witness :
  validated linux_env = true /\
  fst (_download_and_extract linux_env linux_url EmptyString empty_world) <>
    Raise (RuntimeError "path for cdswctl could not be validated.").
Proof.
  destruct (uuid_token_always_validated linux_env eq_refl) as [Hv Hno].
  split; [exact Hv | apply Hno].
Defined.

(** X15.  [obtain_cdswctl] returns or raises what [_download_and_extract] does
    at the URL of the platform, leaves the same file tree and the same calls,
    and writes one record, the info record with the returned path, when the
    install succeeds and none when it fails. *)
Theorem obtain_cdswctl_logs_path (E : environ) (host ca_path : string) (w : world) :
  let r0 := _download_and_extract E (_get_cdswctl_download_url E host) ca_path w in
  let r := obtain_cdswctl E host ca_path w in
  fst r = fst r0 /\
  fs (snd r) = fs (snd r0) /\ calls (snd r) = calls (snd r0) /\
  written w (snd r) =
    match fst r0 with
    | Ok p => [entry INFO ("Expected cdsw path for cdswctl for file transfer " ++ p)]
    | Raise _ => []
    end.
Proof.
  cbv zeta. unfold obtain_cdswctl, logging_info, log, ret, bind.
  destruct (confined_install E (_get_cdswctl_download_url E host) ca_path w)
    as (_ & _ & Hrec & _).
  destruct (_download_and_extract E (_get_cdswctl_download_url E host) ca_path w)
    as [[p | e] w1]; cbn [fst snd fs calls records add_record] in *.
  - repeat split. unfold written. cbn [records add_record]. rewrite Hrec.
    apply SshEdges.skipn_app_exact.
  - repeat split. unfold written. rewrite Hrec. apply skipn_all.
Qed.

Section FreshInstall.

Variables (E : environ) (url ca_path : string) (w : world).
Hypothesis Hfresh : fresh_workspace E w.
Hypothesis Hmk : mkdirs (resolve w (workspace_path E)) (fs w) <> None.
Hypothesis Hv : validated E = true.
Hypothesis Hname : is_name (archive_name url) = true.

(** The install up to the choice of the first entry, when the members unpack
    beside the archive. *)
Lemma listed (ms : entries_t) (body : content) (rest : entries_t) :
  response E url ca_path = Some (TarArchive ms) ->
  unpack_entries ms [(archive_name url, File (TarArchive ms))] =
    Some ((archive_name url, File body) :: rest) ->
  del (archive_name url) rest = rest ->
  exists w3 : world,
    holds w3 (resolve w (workspace_path E)) rest /\
    cwd w3 = cwd w /\ procs w3 = procs w /\ records w3 = records w /\
    _download_and_extract E url ca_path w =
    match rest with
    | [] => (Raise IndexError, w3)
    | (d, _) :: _ => relocate_stage (workspace_path E) d w3
    end.
Proof.
  intros Hbody Hun Hdel.
  destruct (unpacked E url ca_path w ms Hfresh Hmk Hv Hname Hbody)
    as (w2 & Hcwd2 & Hprocs2 & Hrec2 & Hrun).
  rewrite Hun in Hrun. destruct Hrun as [Hws2 Hrun].
  destruct (install_stage_listed (workspace_path E) (archive_path E url) w2
              (resolve w (workspace_path E)) (archive_name url) body rest)
    as (w3 & Hws3 & Hcwd3 & Hprocs3 & Hrec3 & Hstage); try assumption.
  { now apply resolve_cwd. }
  { unfold archive_path. rewrite (resolve_join w2 _ _ Hname).
    now rewrite (resolve_cwd w w2 _ Hcwd2). }
  exists w3. rewrite Hrun, Hstage. repeat split; congruence.
Qed.

(** X17.  An archive without members: the install ends with [IndexError] from
    [os.listdir(dir_path)[0]], after the archive has been removed; the
    workspace is left empty. *)
Theorem empty_archive_index_error :
  response E url ca_path = Some (TarArchive []) ->
  let r := _download_and_extract E url ca_path w in
  fst r = Raise IndexError /\
  holds (snd r) (resolve w (workspace_path E)) [].
Proof.
  intros Hbody r.
  destruct (listed [] (TarArchive []) [] Hbody eq_refl eq_refl)
    as (w3 & Hws3 & _ & _ & _ & Hrun).
  unfold r. rewrite Hrun. now split.
Qed.

(** X18.  When the archive's only member unpacks to something with no entry
    [cdswctl] under it (a regular file, even one that is itself named
    [cdswctl], or a directory without the binary), [os.rename] fails with
    [OSError] and the member stays in the workspace as it was unpacked. *)
Theorem missing_binary_rename_fails (x : string) (n n' : node) :
  response E url ca_path = Some (TarArchive [(x, n)]) ->
  is_name x = true ->
  x <> archive_name url ->
  unpack n None = Some n' ->
  lookup ["cdswctl"] n' = None ->
  let r := _download_and_extract E url ca_path w in
  fst r = Raise (OSError "rename") /\
  holds (snd r) (resolve w (workspace_path E)) [(x, n')].
Proof.
  intros Hbody Hx Hne Hun Hno r.
  assert (Hfx : String.eqb (archive_name url) x = false) by (apply String.eqb_neq; congruence).
  assert (Hxf : String.eqb x (archive_name url) = false) by (now apply String.eqb_neq).
  destruct (listed [(x, n)] (TarArchive [(x, n)]) [(x, n')] Hbody)
    as (w3 & Hws3 & Hcwd3 & _ & _ & Hrun).
  { cbn [unpack_entries assoc]. rewrite Hfx, Hun. cbn [put]. now rewrite Hfx. }
  { cbn [del filter fst]. now rewrite Hxf. }
  destruct (relocate_no_source (workspace_path E) x w3) as (w' & Hfs & _ & _ & _ & Hrel).
  { rewrite !resolve_join by (exact Hx || exact is_name_cdswctl).
    rewrite (resolve_cwd w w3 _ Hcwd3).
    rewrite <- app_assoc, lookup_app. unfold holds in Hws3. rewrite Hws3.
    cbn [app lookup assoc]. rewrite String.eqb_refl. exact Hno. }
  unfold r. rewrite Hrun, Hrel. split; [reflexivity |].
  unfold holds. cbn [snd]. rewrite Hfs. exact Hws3.
Qed.

(** X19.  When the archive's only member is a directory named [cdswctl],
    [os.rename] fails with [OSError] whatever the directory holds (the target
    of the rename is the directory itself), and the directory stays in the
    workspace. *)
Theorem top_directory_named_cdswctl (es es' : entries_t) :
  response E url ca_path = Some (TarArchive [("cdswctl", Dir es)]) ->
  archive_name url <> "cdswctl" ->
  unpack_entries es [] = Some es' ->
  let r := _download_and_extract E url ca_path w in
  fst r = Raise (OSError "rename") /\
  holds (snd r) (resolve w (workspace_path E)) [("cdswctl", Dir es')].
Proof.
  intros Hbody Hne Hun r.
  assert (Hfx : String.eqb (archive_name url) "cdswctl" = false) by (now apply String.eqb_neq).
  assert (Hxf : String.eqb "cdswctl" (archive_name url) = false)
    by (apply String.eqb_neq; congruence).
  destruct (listed [("cdswctl", Dir es)] (TarArchive [("cdswctl", Dir es)])
              [("cdswctl", Dir es')] Hbody)
    as (w3 & Hws3 & Hcwd3 & _ & _ & Hrun).
  { cbn [unpack_entries assoc]. rewrite Hfx, unpack_dir, Hun. cbn [option_map put].
    now rewrite Hfx. }
  { cbn [del filter fst]. now rewrite Hxf. }
  unfold r. rewrite Hrun.
  unfold relocate_stage, os_rename, os_removedirs, fs_call, trace, ret, raise, bind.
  cbn [fst snd fs cwd calls set_fs add_call].
  rewrite !resolve_add_call, !resolve_join by exact is_name_cdswctl.
  rewrite (resolve_cwd w w3 _ Hcwd3), <- app_assoc. cbn [app].
  rewrite (rename_into_holder _ _ _ es' Hws3). split; [reflexivity | exact Hws3].
Qed.

(** X20.  When the directory holds more than the binary, the install ends with
    [OSError] from [os.removedirs], after the binary has been moved: the binary
    is then at the path a successful call would have returned, beside the
    directory with the other entries. *)
Theorem extra_entries_binary_moved (d : string) (es es' : entries_t) (dat : content) :
  response E url ca_path = Some (TarArchive [(d, Dir es)]) ->
  is_name d = true ->
  d <> archive_name url ->
  d <> "cdswctl" ->
  unpack_entries es [] = Some es' ->
  assoc "cdswctl" es' = Some (File dat) ->
  del "cdswctl" es' <> [] ->
  let r := _download_and_extract E url ca_path w in
  fst r = Raise (OSError "rmdir") /\
  holds (snd r) (resolve w (workspace_path E))
        [(d, Dir (del "cdswctl" es')); ("cdswctl", File dat)] /\
  lookup (resolve (snd r) (os_path_join (workspace_path E) "cdswctl")) (fs (snd r)) =
    Some (File dat).
Proof.
  intros Hbody Hd Hne Hdc Hun Hbin Hrest r.
  assert (Hfx : String.eqb (archive_name url) d = false) by (apply String.eqb_neq; congruence).
  assert (Hxf : String.eqb d (archive_name url) = false) by (now apply String.eqb_neq).
  destruct (listed [(d, Dir es)] (TarArchive [(d, Dir es)]) [(d, Dir es')] Hbody)
    as (w3 & Hws3 & Hcwd3 & _ & _ & Hrun).
  { cbn [unpack_entries assoc]. rewrite Hfx, unpack_dir, Hun. cbn [option_map put].
    now rewrite Hfx. }
  { cbn [del filter fst]. now rewrite Hxf. }
  destruct (relocate_stage (workspace_path E) d w3) as [res w'] eqn:Hrel.
  destruct (relocate_run (workspace_path E) d w3 w' (resolve w (workspace_path E)) es' dat res)
    as (Hcwd' & _ & _ & Hres); try assumption.
  { now apply resolve_cwd. }
  apply String.eqb_neq in Hdc. rewrite Hdc in Hres.
  destruct (del "cdswctl" es') as [| e0 rest]; [contradiction |].
  destruct Hres as [-> Hws']. unfold r. rewrite Hrun. cbn [fst snd].
  split; [reflexivity |]. split; [exact Hws' |].
  rewrite (resolve_join w' _ _ is_name_cdswctl).
  rewrite (resolve_cwd w w') by congruence.
  unfold holds in Hws'. rewrite lookup_snoc, Hws'. cbn [assoc].
  rewrite Hdc. now rewrite String.eqb_refl.
Qed.

(** X16.  On a fresh workspace that can be made and passes the validation, an
    archive whose only member is a directory [d] holding only the file
    [cdswctl] is installed: the call returns [<workspace>/cdswctl], and the
    workspace then holds that file, with the content the archive gave it, and
    nothing else.  ([d] is a plain name other than [cdswctl] and the
    archive's.) *)
Theorem install_puts_binary_in_place (d : string) (dat : content) :
  response E url ca_path = Some (TarArchive [(d, Dir [("cdswctl", File dat)])]) ->
  is_name d = true ->
  d <> archive_name url ->
  d <> "cdswctl" ->
  let r := _download_and_extract E url ca_path w in
  fst r = Ok (os_path_join (workspace_path E) "cdswctl") /\
  holds (snd r) (resolve w (workspace_path E)) [("cdswctl", File dat)] /\
  lookup (resolve (snd r) (os_path_join (workspace_path E) "cdswctl")) (fs (snd r)) =
    Some (File dat).
Proof.
  intros Hbody Hd Hne Hdc r.
  assert (Hfx : String.eqb (archive_name url) d = false) by (apply String.eqb_neq; congruence).
  assert (Hxf : String.eqb d (archive_name url) = false) by (now apply String.eqb_neq).
  destruct (listed [(d, Dir [("cdswctl", File dat)])]
              (TarArchive [(d, Dir [("cdswctl", File dat)])])
              [(d, Dir [("cdswctl", File dat)])] Hbody)
    as (w3 & Hws3 & Hcwd3 & Hprocs3 & Hrec3 & Hrun).
  { cbn [unpack_entries assoc]. rewrite Hfx. cbn. now rewrite Hfx. }
  { cbn [del filter fst]. now rewrite Hxf. }
  destruct (relocate_stage (workspace_path E) d w3) as [res w'] eqn:Hrel.
  destruct (relocate_run (workspace_path E) d w3 w' (resolve w (workspace_path E))
              [("cdswctl", File dat)] dat res)
    as (Hcwd' & Hprocs' & Hrec' & Hres); try assumption.
  { now apply resolve_cwd. }
  { reflexivity. }
  apply String.eqb_neq in Hdc. rewrite Hdc in Hres.
  change (del "cdswctl" [("cdswctl", File dat)]) with (@nil (string * node)) in Hres.
  destruct Hres as [-> Hws']. unfold r. rewrite Hrun. cbn [fst snd].
  split; [reflexivity |]. split; [exact Hws' |].
  rewrite (resolve_join w' _ _ is_name_cdswctl).
  rewrite (resolve_cwd w w') by congruence.
  unfold holds in Hws'. rewrite lookup_snoc, Hws'. cbn [assoc]. reflexivity.
Qed.

(** X21.  When the download fails, the install ends with the transport's
    exception; the workspace directory made for it is left behind, empty, and
    nothing is called after the download. *)
Theorem failed_download_leaves_workspace :
  response E url ca_path = None ->
  let r := _download_and_extract E url ca_path w in
  fst r = Raise TransportError /\
  holds (snd r) (resolve w (workspace_path E)) [] /\
  made w (snd r) =
    ((if exists_ (resolve w (workspace_path E)) (fs w) then []
      else [CallMakedirs (workspace_path E)]) ++
     [CallDownload url (archive_path E url) ca_path])%list.
Proof.
  intros Hbody r. unfold r.
  rewrite download_and_extract_stages, fetch_run, tmp_dir_run. cbv zeta.
  fold (archive_path E url). unfold exists_.
  destruct Hfresh as [Hnone | Hempty].
  - rewrite Hnone.
    destruct (mkdirs (resolve w (workspace_path E)) (fs w)) as [t0 |] eqn:Hmk0;
      [| contradiction].
    rewrite download_run. cbv zeta. rewrite Hbody. cbn [fst snd].
    split; [reflexivity |]. split.
    + unfold holds. cbn [fs set_fs add_call].
      eapply mkdirs_fresh; [left; exact Hnone | exact Hmk0].
    + apply made_app. cbn [calls add_call set_fs]. now rewrite <- app_assoc.
  - rewrite Hempty. rewrite download_run. cbv zeta. rewrite Hbody. cbn [fst snd].
    split; [reflexivity |]. split; [exact Hempty |].
    apply made_app. reflexivity.
Qed.

End FreshInstall.

(** X17 at work. *)
Lemma empty_archive_index_error_witness :
  let r := _download_and_extract
             (install_env "linux" "9f1c2ab34de011ef8a3b0242ac120002" (TarArchive []))
             linux_url EmptyString empty_world in
  fst r = Raise IndexError /\
  holds (snd r) ["home"; "cdsw"; ".cmlutils"; "9f1c2ab34d"] [].
Proof.
  refine (empty_archive_index_error
            (install_env "linux" "9f1c2ab34de011ef8a3b0242ac120002" (TarArchive []))
            linux_url EmptyString empty_world _ _ eq_refl eq_refl eq_refl).
  - left. reflexivity.
  - vm_compute. discriminate.
Defined.

(** X18 at work: the binary at the top of the archive, with no directory
    around it. *)
Lemma missing_binary_rename_fails_witness :
  let r := _download_and_extract
             (install_env "linux" "9f1c2ab34de011ef8a3b0242ac120002"
                (TarArchive [("cdswctl", File (Bytes "ELF"))]))
             linux_url EmptyString empty_world in
  fst r = Raise (OSError "rename") /\
  holds (snd r) ["home"; "cdsw"; ".cmlutils"; "9f1c2ab34d"] [("cdswctl", File (Bytes "ELF"))].
Proof.
  refine (missing_binary_rename_fails
            (install_env "linux" "9f1c2ab34de011ef8a3b0242ac120002"
               (TarArchive [("cdswctl", File (Bytes "ELF"))]))
            linux_url EmptyString empty_world _ _ eq_refl eq_refl
            "cdswctl" (File (Bytes "ELF")) (File (Bytes "ELF")) eq_refl eq_refl _ eq_refl eq_refl).
  - left. reflexivity.
  - vm_compute. discriminate.
  - vm_compute. discriminate.
Defined.

(** X19 at work. *)
Lemma top_directory_named_cdswctl_witness :
  let r := _download_and_extract
             (install_env "linux" "9f1c2ab34de011ef8a3b0242ac120002"
                (TarArchive [("cdswctl", Dir [("cdswctl", File (Bytes "ELF"))])]))
             linux_url EmptyString empty_world in
  fst r = Raise (OSError "rename") /\
  holds (snd r) ["home"; "cdsw"; ".cmlutils"; "9f1c2ab34d"]
        [("cdswctl", Dir [("cdswctl", File (Bytes "ELF"))])].
Proof.
  refine (top_directory_named_cdswctl
            (install_env "linux" "9f1c2ab34de011ef8a3b0242ac120002"
               (TarArchive [("cdswctl", Dir [("cdswctl", File (Bytes "ELF"))])]))
            linux_url EmptyString empty_world _ _ eq_refl eq_refl
            [("cdswctl", File (Bytes "ELF"))] [("cdswctl", File (Bytes "ELF"))]
            eq_refl _ eq_refl).
  - left. reflexivity.
  - vm_compute. discriminate.
  - vm_compute. discriminate.
Defined.

(** X20 at work: a licence file beside the binary. *)
Lemma extra_entries_binary_moved_witness :
  let r := _download_and_extract
             (install_env "linux" "9f1c2ab34de011ef8a3b0242ac120002"
                (TarArchive [("cdsw", Dir [("cdswctl", File (Bytes "ELF"));
                                           ("LICENSE", File (Bytes "Apache-2.0"))])]))
             linux_url EmptyString empty_world in
  fst r = Raise (OSError "rmdir") /\
  lookup ["home"; "cdsw"; ".cmlutils"; "9f1c2ab34d"; "cdswctl"] (fs (snd r)) =
    Some (File (Bytes "ELF")).
Proof.
  destruct (extra_entries_binary_moved
              (install_env "linux" "9f1c2ab34de011ef8a3b0242ac120002"
                 (TarArchive [("cdsw", Dir [("cdswctl", File (Bytes "ELF"));
                                            ("LICENSE", File (Bytes "Apache-2.0"))])]))
              linux_url EmptyString empty_world) with
      (d := "cdsw")
      (es := [("cdswctl", File (Bytes "ELF")); ("LICENSE", File (Bytes "Apache-2.0"))])
      (es' := [("cdswctl", File (Bytes "ELF")); ("LICENSE", File (Bytes "Apache-2.0"))])
      (dat := Bytes "ELF")
    as (Hres & _ & Hbin).
  - left. reflexivity.
  - vm_compute. discriminate.
  - reflexivity.
  - reflexivity.
  - reflexivity.
  - reflexivity.
  - vm_compute. discriminate.
  - vm_compute. discriminate.
  - reflexivity.
  - reflexivity.
  - vm_compute. discriminate.
  - split; [exact Hres |]. vm_compute in Hbin |- *. exact Hbin.
Defined.

(** X16 at work. *)
Lemma install_puts_binary_in_place_witness :
  let r := _download_and_extract linux_env linux_url EmptyString empty_world in
  fst r = Ok "/home/cdsw/.cmlutils/9f1c2ab34d/cdswctl" /\
  holds (snd r) ["home"; "cdsw"; ".cmlutils"; "9f1c2ab34d"] [("cdswctl", File (Bytes "ELF"))].
Proof.
  destruct (install_puts_binary_in_place linux_env linux_url EmptyString empty_world)
    with (d := "cdsw") (dat := Bytes "ELF") as (Hres & Hws & _).
  - left. reflexivity.
  - vm_compute. discriminate.
  - reflexivity.
  - reflexivity.
  - reflexivity.
  - reflexivity.
  - vm_compute. discriminate.
  - vm_compute. discriminate.
  - split; [exact Hres | exact Hws].
Defined.

(** X21 at work: a server that cannot be reached. *)
Lemma failed_download_leaves_workspace_witness :
  let r := _download_and_extract no_binary_env linux_url EmptyString empty_world in
  fst r = Raise TransportError /\
  holds (snd r) ["home"; "cdsw"; ".cmlutils"; "9f1c2ab34d"] [] /\
  made empty_world (snd r) =
    [CallMakedirs "/home/cdsw/.cmlutils/9f1c2ab34d";
     CallDownload linux_url "/home/cdsw/.cmlutils/9f1c2ab34d/cdsw.tar.gz" EmptyString].
Proof.
  refine (failed_download_leaves_workspace no_binary_env linux_url EmptyString empty_world
            _ _ eq_refl).
  - left. reflexivity.
  - vm_compute. discriminate.
Defined.

End InstallEdges.
